(** * Sprint analysis automation: the metric-derivation core

    A shallow embedding of [automation/calculator.py] (class
    [SprintCalculator]) and [automation/data_processor.py] (class
    [SprintDataProcessor]), with the properties the design document states
    about them.

    Modelling conventions.
    - Python numbers are exact rationals ([Q]); [==] on numbers is [Qeq].
      Rounding of binary floating point is not modelled.
    - Python exceptions are the [Raise] branch of the [result] type.
    - Strings are [string]s over the code points 0..255.
    - A pandas cell that is [None]/[NaN] is [None] of an [option]. *)

From Stdlib Require Import QArith ZArith List String Ascii Bool Lia Lqa.
From Stdlib Require Import Permutation Qabs.
Import ListNotations.

Local Open Scope Q_scope.

(** ** Exceptions *)

Inductive exn : Type :=
| KeyError (column : string)
| ZeroDivisionError
| AttributeError.

Inductive result (A : Type) : Type :=
| Value (a : A)
| Raise (e : exn).

Arguments Value {A} a.
Arguments Raise {A} e.

Definition bind {A B : Type} (m : result A) (k : A -> result B) : result B :=
  match m with
  | Value a => k a
  | Raise e => Raise e
  end.

Notation "x <- m ;; k" := (bind m (fun x => k))
  (at level 61, m at next level, right associativity).

Definition returns {A : Type} (m : result A) : Prop :=
  exists a, m = Value a.

(** Python's true division [a / b]. *)
Definition py_div (a b : Q) : result Q :=
  if Qeq_bool b 0 then Raise ZeroDivisionError else Value (a / b).

(** ** Data frames

    A pandas [DataFrame] is a list of column labels and a list of rows.
    The rows are typed records; a field is only meaningful when its label is
    among [columns], and every read of a column goes through [require],
    which raises [KeyError] as [df[label]] does. *)

Record Frame (R : Type) : Type := {
  columns : list string;
  rows : list R
}.

Arguments columns {R} f.
Arguments rows {R} f.

Definition has_column {R : Type} (df : Frame R) (label : string) : bool :=
  existsb (String.eqb label) (columns df).

Definition require {R : Type} (df : Frame R) (label : string) : result unit :=
  if has_column df label then Value tt else Raise (KeyError label).

(** [pd.DataFrame(records)] for a list of dicts that all have the keys
    [keys]: an empty list gives a frame without columns. *)
Definition DataFrame_of_records {R : Type} (keys : list string)
    (records : list R) : Frame R :=
  {| columns := match records with [] => [] | _ :: _ => keys end;
     rows := records |}.

Definition add_column (label : string) (cols : list string) : list string :=
  if existsb (String.eqb label) cols then cols else cols ++ [label].

Definition Qsum (l : list Q) : Q := fold_right Qplus 0 l.

Definition count_true {A : Type} (f : A -> bool) (l : list A) : nat :=
  List.length (filter f l).

Definition opt_string_eqb (a b : option string) : bool :=
  match a, b with
  | Some x, Some y => String.eqb x y
  | None, None => true
  | _, _ => false
  end.

(** [series == s]: a missing cell never equals a string. *)
Definition cell_eqb (cell : option string) (s : string) : bool :=
  match cell with
  | Some x => String.eqb x s
  | None => false
  end.

(** ** Text helpers *)

(** [str.isspace] on one character, which is also the class [\s] of a
    [str] pattern. *)
Definition is_space (c : ascii) : bool :=
  let n := nat_of_ascii c in
  ((9 <=? n) && (n <=? 13) || (28 <=? n) && (n <=? 32) ||
   (n =? 133) || (n =? 160))%nat.

Fixpoint lstrip (s : list ascii) : list ascii :=
  match s with
  | c :: s' => if is_space c then lstrip s' else s
  | [] => []
  end.

Definition strip (s : string) : string :=
  string_of_list_ascii
    (rev (lstrip (rev (lstrip (list_ascii_of_string s))))).

Definition to_lower (c : ascii) : ascii :=
  let n := nat_of_ascii c in
  if ((65 <=? n) && (n <=? 90))%nat then ascii_of_nat (n + 32) else c.

Fixpoint prefix_ci (p s : list ascii) : bool :=
  match p, s with
  | [], _ => true
  | a :: p', b :: s' => Ascii.eqb (to_lower a) (to_lower b) && prefix_ci p' s'
  | _ :: _, [] => false
  end.

(** [str.contains(pat, case=False)] for a pattern without metacharacters. *)
Fixpoint contains_ci (p s : list ascii) : bool :=
  prefix_ci p s ||
  match s with
  | [] => false
  | _ :: s' => contains_ci p s'
  end.

Definition str_contains_ci (pat : string) (s : string) : bool :=
  contains_ci (list_ascii_of_string pat) (list_ascii_of_string s).

(** ** Regular expressions

    The fragment of Python's [re] that the two identity patterns use: a
    sequence of atoms, where repetition applies to a character class.
    Matching is by backtracking in priority order, as [re] does: a greedy
    star tries the longest run first, a lazy plus the shortest. *)

Module Regex.

Inductive cclass : Type :=
| CChar (c : ascii)   (* a literal character *)
| CDot                (* [.]: anything but a newline *)
| CSpace.             (* [\s] *)

Inductive atom : Type :=
| ABol                      (* [^] *)
| AOne (cl : cclass)
| AStar (cl : cclass)       (* [cl*] *)
| APlusLazy (cl : cclass)   (* [cl+?] *)
| AOpen                     (* [(] of group 1 *)
| AClose.                   (* [)] of group 1 *)

Definition regex : Type := list atom.

Definition cclass_matches (cl : cclass) (c : ascii) : bool :=
  match cl with
  | CChar a => Ascii.eqb a c
  | CDot => negb (Ascii.eqb c "010"%char)
  | CSpace => is_space c
  end.

(** [match_here re pos s gs ge]: match [re] against [s], the suffix of the
    subject that starts at index [pos]; [gs] and [ge] are the marks of
    group 1 so far.  The result is the marks of group 1. *)
Fixpoint match_here (re : regex)
    : nat -> list ascii -> nat -> nat -> option (nat * nat) :=
  match re with
  | [] => fun _ _ gs ge => Some (gs, ge)
  | ABol :: re' => fun pos s gs ge =>
      if (pos =? 0)%nat then match_here re' pos s gs ge else None
  | AOpen :: re' => fun pos s _ ge => match_here re' pos s pos ge
  | AClose :: re' => fun pos s gs _ => match_here re' pos s gs pos
  | AOne cl :: re' => fun pos s gs ge =>
      match s with
      | c :: s' =>
          if cclass_matches cl c then match_here re' (S pos) s' gs ge
          else None
      | [] => None
      end
  | AStar cl :: re' => fun pos s gs ge =>
      (fix star (pos : nat) (s : list ascii) {struct s} :=
         match s with
         | c :: s' =>
             if cclass_matches cl c then
               match star (S pos) s' with
               | Some r => Some r
               | None => match_here re' pos s gs ge
               end
             else match_here re' pos s gs ge
         | [] => match_here re' pos s gs ge
         end) pos s
  | APlusLazy cl :: re' => fun pos s gs ge =>
      (fix plus (pos : nat) (s : list ascii) {struct s} :=
         match s with
         | c :: s' =>
             if cclass_matches cl c then
               match match_here re' (S pos) s' gs ge with
               | Some r => Some r
               | None => plus (S pos) s'
               end
             else None
         | [] => None
         end) pos s
  end.

(** [re.search]: the first start position at which the pattern matches. *)
Fixpoint search_from (re : regex) (pos : nat) (s : list ascii)
    : option (nat * nat) :=
  match match_here re pos s 0%nat 0%nat with
  | Some r => Some r
  | None =>
      match s with
      | [] => None
      | _ :: s' => search_from re (S pos) s'
      end
  end.

Definition search (re : regex) (s : list ascii) : option (nat * nat) :=
  search_from re 0 s.

Definition slice (s : list ascii) (start stop : nat) : list ascii :=
  firstn (stop - start) (skipn start s).

(** [series.str.extract(pat)[0]] on one cell: group 1 of the first match,
    missing when the cell is missing or nothing matches. *)
Definition str_extract (re : regex) (cell : option string) : option string :=
  match cell with
  | None => None
  | Some s =>
      let l := list_ascii_of_string s in
      match search re l with
      | Some (gs, ge) => Some (string_of_list_ascii (slice l gs ge))
      | None => None
      end
  end.

End Regex.

Definition Qlt_bool (a b : Q) : bool := negb (Qle_bool b a).

Definition is_none {A : Type} (o : option A) : bool :=
  match o with
  | None => true
  | Some _ => false
  end.

(** [series.unique().tolist()]: the distinct cells, by first appearance. *)
Fixpoint unique (l : list (option string)) : list (option string) :=
  match l with
  | [] => []
  | x :: l' => x :: filter (fun y => negb (opt_string_eqb x y)) (unique l')
  end.

Fixpoint mapM {A B : Type} (f : A -> result B) (l : list A)
    : result (list B) :=
  match l with
  | [] => Value []
  | x :: l' => y <- f x ;; ys <- mapM f l' ;; Value (y :: ys)
  end.

(** ** Rows of the tables *)

(** A row of the work-item sheet as read from the workbook.  Only the
    columns some computation reads are fields.  A numeric cell is [None]
    when it is blank or does not parse as a number. *)
Module RawRow.
Record t : Type := {
  Assigned_To : option string;
  Activity : option string;
  Tags : option string;
  State : option string;
  Original_Estimate : option Q;
  Completed_Work : option Q;
  Remaining_Work : option Q
}.
End RawRow.

(** A row after [process_azure_data]. *)
Module WorkItem.
Record t : Type := {
  Assigned_To : option string;
  Activity : option string;
  Tags : option string;
  State : option string;
  Original_Estimate : Q;
  Completed_Work : Q;
  Remaining_Work : Q;
  staff_email : option string;
  staff_name : option string;
  team : option string;
  has_midsprint_addition : bool;
  has_adhoc : bool;
  is_done : bool
}.
End WorkItem.

Module CapacityEntry.
Record t : Type := {
  staff_member : string;
  team : option string;
  expected_hours : option Q;
  vacation_hours : Q;
  days_off_hours : Q;
  remaining_capacity : Q
}.
Definition keys : list string :=
  ["staff_member"; "team"; "expected_hours"; "vacation_hours";
   "days_off_hours"; "remaining_capacity"]%string.
End CapacityEntry.

(** A row of the capacity sheet: columns 2 to 7.  The remaining capacity is
    taken to be a number: a sheet whose column 7 is blank or holds a text
    beside a member is outside the model. *)
Module CapacityCells.
Record t : Type := {
  member : option string;
  team : option string;
  expected_hours : option Q;
  vacation : option Q;
  days_off : option Q;
  remaining_capacity : Q
}.
End CapacityCells.

Module StaffAggregate.
Record t : Type := {
  staff_email : string;
  staff_name : string;
  team : string;
  original_estimate_total : Q;
  completed_work_total : Q;
  remaining_work_total : Q;
  done_count : nat;
  total_count : nat;
  midsprint_count : nat;
  adhoc_count : nat
}.
End StaffAggregate.

Module TeamAggregate.
Record t : Type := {
  team : string;
  original_estimate_total : Q;
  completed_work_total : Q;
  remaining_work_total : Q;
  done_count : nat;
  total_count : nat;
  midsprint_count : nat;
  adhoc_count : nat
}.
End TeamAggregate.

Module StaffMetrics.
Record t : Type := {
  staff_name : string;
  staff_email : string;
  team : string;
  original_estimate : Q;
  completed_work : Q;
  remaining_work : Q;
  capacity : Q;
  done_count : nat;
  total_count : nat;
  performance_rate : Q;
  utilization : Q;
  done_tasks_pct : Q;
  midsprint_addition_pct : Q;
  adhoc_pct : Q;
  kpi : Q
}.
Definition keys : list string :=
  ["staff_name"; "staff_email"; "team"; "original_estimate";
   "completed_work"; "remaining_work"; "capacity"; "done_count";
   "total_count"; "performance_rate"; "utilization"; "done_tasks_pct";
   "midsprint_addition_pct"; "adhoc_pct"; "kpi"]%string.
End StaffMetrics.

Module TeamMetrics.
Record t : Type := {
  team : string;
  original_estimate : Q;
  completed_work : Q;
  remaining_work : Q;
  capacity : Q;
  done_count : nat;
  total_count : nat;
  performance_rate : Q;
  utilization : Q;
  done_tasks_pct : Q;
  midsprint_addition_pct : Q;
  adhoc_pct : Q;
  kpi : Q
}.
Definition keys : list string :=
  ["team"; "original_estimate"; "completed_work"; "remaining_work";
   "capacity"; "done_count"; "total_count"; "performance_rate";
   "utilization"; "done_tasks_pct"; "midsprint_addition_pct"; "adhoc_pct";
   "kpi"]%string.
End TeamMetrics.

(** A cell of the metadata block of the data sheet: empty, a number, or
    anything else (a text, a formula, a date), carried as a text. *)
Inductive cell : Type :=
| CellEmpty
| CellNumber (q : Q)
| CellText (s : string).

(** The dict that [extract_sprint_metadata] builds. *)
Module SprintMetadata.
Record t : Type := {
  sprint_name : cell;
  date_from : cell;
  date_to : cell;
  product : cell;
  escaped_bugs : cell;
  midsprint_addition : cell;
  adhoc : cell;
  planned_sp : cell;
  actual_sp : cell;
  estimated_dev_effort : cell;
  actual_dev_effort : cell;
  estimated_test_effort : cell;
  actual_test_effort : cell;
  bug_fixing_effort : cell;
  sum_actual_hours : cell;
  sum_working_hours : cell
}.
End SprintMetadata.

(** The dict that [calculate_cmmi_measures] returns. *)
Module CmmiMeasures.
Record t : Type := {
  completion_rate : Q;
  completion_rate_analysis : string;
  effort_estimation_accuracy : Q;
  effort_estimation_analysis : string;
  bug_fixing_effort_pct : Q;
  utilization_rate : Q;
  cmmi_productivity : Q;
  sprint_name : cell;
  date_from : cell;
  date_to : cell
}.
End CmmiMeasures.

(** Code that compares and divides cells can also raise [TypeError]. *)
Inductive outcome (A : Type) : Type :=
| Returned (a : A)
| Raised (e : exn)
| TypeError.

Arguments Returned {A} a.
Arguments Raised {A} e.
Arguments TypeError {A}.

Definition bind_outcome {A B : Type} (m : outcome A) (k : A -> outcome B)
    : outcome B :=
  match m with
  | Returned a => k a
  | Raised e => Raised e
  | TypeError => TypeError
  end.

Notation "x <~ m ;; k" := (bind_outcome m (fun x => k))
  (at level 61, m at next level, right associativity).

Definition lift {A : Type} (r : result A) : outcome A :=
  match r with
  | Value a => Returned a
  | Raise e => Raised e
  end.

(** A cell as an operand of [>] or [/]: anything but a number raises
    [TypeError]. *)
Definition number (c : cell) : outcome Q :=
  match c with
  | CellNumber q => Returned q
  | CellEmpty | CellText _ => TypeError
  end.

Inductive Status : Type := success | warning | error.

(** ** SprintDataProcessor *)

Module SprintDataProcessor.

Import Regex.

(** [self.team_mapping]. *)
Definition team_mapping : list (string * string) :=
  [("Development", "Development"); ("Front End", "Frontend");
   ("Design", "Design"); ("Testing", "Testing");
   ("Business", "Business")]%string.

Fixpoint dict_get (d : list (string * string)) (k : string) : option string :=
  match d with
  | [] => None
  | (k', v) :: d' => if String.eqb k' k then Some v else dict_get d' k
  end.

(** [series.map(dict)]. *)
Definition series_map (d : list (string * string)) (cell : option string)
    : option string :=
  match cell with
  | Some k => dict_get d k
  | None => None
  end.

(** [r'<(.+?)>'] *)
Definition email_pattern : regex :=
  [AOne (CChar "<"); AOpen; APlusLazy CDot; AClose; AOne (CChar ">")].

(** [r'^(.+?)\s*<'] *)
Definition name_pattern : regex :=
  [ABol; AOpen; APlusLazy CDot; AClose; AStar CSpace; AOne (CChar "<")].

Definition extract_email (assigned_to : option string) : option string :=
  str_extract email_pattern assigned_to.

Definition extract_name (assigned_to : option string) : option string :=
  str_extract name_pattern assigned_to.

(** [pd.to_numeric(..., errors='coerce').fillna(0)] *)
Definition to_numeric_fillna (cell : option Q) : Q :=
  match cell with
  | Some q => q
  | None => 0
  end.

Definition fillna_empty (cell : option string) : string :=
  match cell with
  | Some s => s
  | None => EmptyString
  end.

Definition isin (cell : option string) (values : list string) : bool :=
  match cell with
  | Some s => existsb (String.eqb s) values
  | None => false
  end.

(** The body of [process_azure_data] on one row.  The source coerces a
    numeric column only when it is present; the field of an absent column
    is never read, since every read is guarded by [require]. *)
Definition process_row (r : RawRow.t) : WorkItem.t :=
  {| WorkItem.Assigned_To := RawRow.Assigned_To r;
     WorkItem.Activity := RawRow.Activity r;
     WorkItem.Tags := RawRow.Tags r;
     WorkItem.State := RawRow.State r;
     WorkItem.Original_Estimate :=
       to_numeric_fillna (RawRow.Original_Estimate r);
     WorkItem.Completed_Work := to_numeric_fillna (RawRow.Completed_Work r);
     WorkItem.Remaining_Work := to_numeric_fillna (RawRow.Remaining_Work r);
     WorkItem.staff_email := extract_email (RawRow.Assigned_To r);
     WorkItem.staff_name := extract_name (RawRow.Assigned_To r);
     WorkItem.team := series_map team_mapping (RawRow.Activity r);
     WorkItem.has_midsprint_addition :=
       str_contains_ci "MidSprint_Addition" (fillna_empty (RawRow.Tags r));
     WorkItem.has_adhoc :=
       str_contains_ci "Ad-hoc" (fillna_empty (RawRow.Tags r));
     WorkItem.is_done := isin (RawRow.State r) ["Done"; "Closed"]%string |}.

(** [series.str]: a column that has rows and no text in any of them is
    read as a column of numbers, and its [.str] accessor raises
    [AttributeError]; a column without rows is a column of objects. *)
Definition str_accessor (series : list (option string)) : result unit :=
  match series with
  | [] => Value tt
  | _ :: _ =>
      if forallb is_none series then Raise AttributeError else Value tt
  end.

Definition process_azure_data (df : Frame RawRow.t)
    : result (Frame WorkItem.t) :=
  let df := {| columns := map strip (columns df); rows := rows df |} in
  _ <- require df "Assigned To" ;;
  _ <- str_accessor (map RawRow.Assigned_To (rows df)) ;;
  _ <- require df "Activity" ;;
  _ <- require df "Tags" ;;
  _ <- require df "State" ;;
  Value {| columns :=
             fold_left (fun cols label => add_column label cols)
               ["staff_email"; "staff_name"; "team";
                "has_midsprint_addition"; "has_adhoc"; "is_done"]%string
               (columns df);
           rows := map process_row (rows df) |}.

(** [value or 0] *)
Definition or_zero (cell : option Q) : Q :=
  match cell with
  | Some q => if Qeq_bool q 0 then 0 else q
  | None => 0
  end.

(** [get_capacity_data]: rows 4 to 14 of the capacity sheet, given as a
    function from the row number to its cells; a row without a member is
    skipped. *)
Definition get_capacity_data (capacity_sheet : nat -> CapacityCells.t)
    : Frame CapacityEntry.t :=
  let entry (row_num : nat) : list CapacityEntry.t :=
    let cells := capacity_sheet row_num in
    match CapacityCells.member cells with
    | None => []
    | Some member =>
        [{| CapacityEntry.staff_member := member;
            CapacityEntry.team := CapacityCells.team cells;
            CapacityEntry.expected_hours := CapacityCells.expected_hours cells;
            CapacityEntry.vacation_hours :=
              or_zero (CapacityCells.vacation cells);
            CapacityEntry.days_off_hours :=
              or_zero (CapacityCells.days_off cells);
            CapacityEntry.remaining_capacity :=
              CapacityCells.remaining_capacity cells |}]
    end in
  DataFrame_of_records CapacityEntry.keys (flat_map entry (seq 4 11)).

(** *** Group-by

    [df.groupby(keys)] with the defaults [dropna=True] and [sort=True]: a
    row with a missing key component is in no group; the distinct keys are
    collected and put in increasing order, and each key gets the rows that
    carry it, in the order of the frame. *)
Section GroupBy.

Variable K : Type.
Variable cmp : K -> K -> comparison.
Variable key : WorkItem.t -> option K.

Definition key_eqb (a b : K) : bool :=
  match cmp a b with
  | Eq => true
  | _ => false
  end.

(** The keys of the rows that have one. *)
Fixpoint key_list (items : list WorkItem.t) : list K :=
  match items with
  | [] => []
  | r :: items' =>
      match key r with
      | Some k => k :: key_list items'
      | None => key_list items'
      end
  end.

(** The distinct keys, by first appearance. *)
Fixpoint distinct (l : list K) : list K :=
  match l with
  | [] => []
  | k :: l' => k :: filter (fun k' => negb (key_eqb k k')) (distinct l')
  end.

Fixpoint insert_sorted (k : K) (l : list K) : list K :=
  match l with
  | [] => [k]
  | k' :: l' =>
      match cmp k k' with
      | Gt => k' :: insert_sorted k l'
      | _ => k :: l
      end
  end.

Definition sort_keys (l : list K) : list K := fold_right insert_sorted [] l.

Definition group_keys (items : list WorkItem.t) : list K :=
  sort_keys (distinct (key_list items)).

Definition in_group (k : K) (r : WorkItem.t) : bool :=
  match key r with
  | Some k' => key_eqb k k'
  | None => false
  end.

Definition groupby (items : list WorkItem.t) : list (K * list WorkItem.t) :=
  map (fun k => (k, filter (in_group k) items)) (group_keys items).

Definition has_key (r : WorkItem.t) : bool := negb (is_none (key r)).

End GroupBy.

Arguments key_eqb {K} cmp a b.
Arguments key_list {K} key items.
Arguments distinct {K} cmp l.
Arguments insert_sorted {K} cmp k l.
Arguments sort_keys {K} cmp l.
Arguments group_keys {K} cmp key items.
Arguments in_group {K} cmp key k r.
Arguments groupby {K} cmp key items.
Arguments has_key {K} key r.

Definition staff_key (r : WorkItem.t) : option (string * string * string) :=
  match WorkItem.staff_email r, WorkItem.staff_name r, WorkItem.team r with
  | Some e, Some n, Some t => Some (e, n, t)
  | _, _, _ => None
  end.

Definition staff_key_compare (a b : string * string * string) : comparison :=
  let '(e1, n1, t1) := a in
  let '(e2, n2, t2) := b in
  match String.compare e1 e2 with
  | Eq => match String.compare n1 n2 with
          | Eq => String.compare t1 t2
          | c => c
          end
  | c => c
  end.

Definition team_key (r : WorkItem.t) : option string := WorkItem.team r.

(** [df.groupby(['staff_email', 'staff_name', 'team'])] *)
Definition staff_groups (items : list WorkItem.t)
    : list (string * string * string * list WorkItem.t) :=
  groupby staff_key_compare staff_key items.

(** [df.groupby('team')] *)
Definition team_groups (items : list WorkItem.t)
    : list (string * list WorkItem.t) :=
  groupby String.compare team_key items.

Definition staff_aggregate (g : string * string * string * list WorkItem.t)
    : StaffAggregate.t :=
  let '(e, n, t, items) := g in
  {| StaffAggregate.staff_email := e;
     StaffAggregate.staff_name := n;
     StaffAggregate.team := t;
     StaffAggregate.original_estimate_total :=
       Qsum (map WorkItem.Original_Estimate items);
     StaffAggregate.completed_work_total :=
       Qsum (map WorkItem.Completed_Work items);
     StaffAggregate.remaining_work_total :=
       Qsum (map WorkItem.Remaining_Work items);
     StaffAggregate.done_count := count_true WorkItem.is_done items;
     StaffAggregate.total_count := List.length items;
     StaffAggregate.midsprint_count :=
       count_true WorkItem.has_midsprint_addition items;
     StaffAggregate.adhoc_count := count_true WorkItem.has_adhoc items |}.

Definition team_aggregate (g : string * list WorkItem.t) : TeamAggregate.t :=
  let '(t, items) := g in
  {| TeamAggregate.team := t;
     TeamAggregate.original_estimate_total :=
       Qsum (map WorkItem.Original_Estimate items);
     TeamAggregate.completed_work_total :=
       Qsum (map WorkItem.Completed_Work items);
     TeamAggregate.remaining_work_total :=
       Qsum (map WorkItem.Remaining_Work items);
     TeamAggregate.done_count := count_true WorkItem.is_done items;
     TeamAggregate.total_count := List.length items;
     TeamAggregate.midsprint_count :=
       count_true WorkItem.has_midsprint_addition items;
     TeamAggregate.adhoc_count := count_true WorkItem.has_adhoc items |}.

Definition agg_columns : list string :=
  ["Original Estimate"; "Completed Work"; "Remaining Work"; "is_done";
   "has_midsprint_addition"; "has_adhoc"]%string.

Fixpoint require_all {R : Type} (df : Frame R) (labels : list string)
    : result unit :=
  match labels with
  | [] => Value tt
  | c :: labels' => _ <- require df c ;; require_all df labels'
  end.

Definition aggregate_by_staff (df : Frame WorkItem.t)
    : result (list StaffAggregate.t) :=
  _ <- require_all df ["staff_email"; "staff_name"; "team"]%string ;;
  _ <- require_all df agg_columns ;;
  Value (map staff_aggregate (staff_groups (rows df))).

Definition aggregate_by_team (df : Frame WorkItem.t)
    : result (list TeamAggregate.t) :=
  _ <- require df "team" ;;
  _ <- require_all df agg_columns ;;
  Value (map team_aggregate (team_groups (rows df))).

(** *** validate_data *)

Inductive Issue : Type :=
| missing_columns (cols : list string)
| missing_assignments (count : nat)
| unmapped_activities (activities : list (option string))
| incomplete_tasks_with_work (count : nat).

Record ValidationReport : Type := {
  status : Status;
  errors : list Issue;
  warnings : list Issue
}.

Definition required_cols : list string :=
  ["Work Item Type"; "Title"; "State"; "Assigned To"; "Original Estimate";
   "Completed Work"; "Activity"]%string.

(** The report is built in the order of the source; the [message] texts,
    which are formatted from the other entries of an issue, are left out. *)
Definition validate_data (df : Frame WorkItem.t) : result ValidationReport :=
  let missing_cols :=
    filter (fun col => negb (has_column df col)) required_cols in
  let status0 := match missing_cols with [] => success | _ :: _ => error end in
  let errors0 :=
    match missing_cols with
    | [] => []
    | _ :: _ => [missing_columns missing_cols]
    end in
  _ <- require df "Assigned To" ;;
  let n_unassigned :=
    count_true (fun r => is_none (WorkItem.Assigned_To r)) (rows df) in
  let warnings1 :=
    if (0 <? n_unassigned)%nat then [missing_assignments n_unassigned]
    else [] in
  _ <- require df "team" ;;
  let unmapped := filter (fun r => is_none (WorkItem.team r)) (rows df) in
  warnings2 <-
    (if (0 <? List.length unmapped)%nat then
       _ <- require df "Activity" ;;
       Value (warnings1 ++
              [unmapped_activities (unique (map WorkItem.Activity unmapped))])
     else Value warnings1) ;;
  _ <- require df "Completed Work" ;;
  _ <- require df "is_done" ;;
  let incomplete_with_work :=
    filter (fun r => Qlt_bool 0 (WorkItem.Completed_Work r) &&
                     negb (WorkItem.is_done r)) (rows df) in
  let warnings3 :=
    if (0 <? List.length incomplete_with_work)%nat then
      warnings2 ++
      [incomplete_tasks_with_work (List.length incomplete_with_work)]
    else warnings2 in
  Value {| status := status0; errors := errors0; warnings := warnings3 |}.

(** [extract_sprint_metadata]: column 3 of rows 3 to 18 of the data sheet,
    which is given as a function from row and column to the cell. *)
Definition extract_sprint_metadata (data_sheet : nat -> nat -> cell)
    : SprintMetadata.t :=
  {| SprintMetadata.sprint_name := data_sheet 3%nat 3%nat;
     SprintMetadata.date_from := data_sheet 4%nat 3%nat;
     SprintMetadata.date_to := data_sheet 5%nat 3%nat;
     SprintMetadata.product := data_sheet 6%nat 3%nat;
     SprintMetadata.escaped_bugs := data_sheet 7%nat 3%nat;
     SprintMetadata.midsprint_addition := data_sheet 8%nat 3%nat;
     SprintMetadata.adhoc := data_sheet 9%nat 3%nat;
     SprintMetadata.planned_sp := data_sheet 10%nat 3%nat;
     SprintMetadata.actual_sp := data_sheet 11%nat 3%nat;
     SprintMetadata.estimated_dev_effort := data_sheet 12%nat 3%nat;
     SprintMetadata.actual_dev_effort := data_sheet 13%nat 3%nat;
     SprintMetadata.estimated_test_effort := data_sheet 14%nat 3%nat;
     SprintMetadata.actual_test_effort := data_sheet 15%nat 3%nat;
     SprintMetadata.bug_fixing_effort := data_sheet 16%nat 3%nat;
     SprintMetadata.sum_actual_hours := data_sheet 17%nat 3%nat;
     SprintMetadata.sum_working_hours := data_sheet 18%nat 3%nat |}.

End SprintDataProcessor.

(** ** SprintCalculator *)

Module SprintCalculator.

Record KpiWeights : Type := {
  w_performance_rate : Q;
  w_utilization : Q;
  w_done_tasks : Q
}.

Definition default_kpi_weights : KpiWeights :=
  {| w_performance_rate := 2 # 10;
     w_utilization := 1 # 10;
     w_done_tasks := 7 # 10 |}.

(** [__init__]: [self.kpi_weights = kpi_weights or {...}]. *)
Definition init (kpi_weights : option KpiWeights) : KpiWeights :=
  match kpi_weights with
  | Some w => w
  | None => default_kpi_weights
  end.

Definition calculate_performance_rate
    (original_estimate completed_work remaining_work : Q) : result Q :=
  let denominator := completed_work + remaining_work in
  if Qeq_bool denominator 0 then Value 0
  else py_div original_estimate denominator.

Definition calculate_utilization (completed_work capacity : Q) : result Q :=
  if Qeq_bool capacity 0 then Value 0
  else py_div completed_work capacity.

Definition calculate_done_tasks_percentage (done_count total_count : Q)
    : result Q :=
  if Qeq_bool total_count 0 then Value 0
  else py_div done_count total_count.

Definition calculate_midsprint_addition_percentage
    (midsprint_work total_work : Q) : result Q :=
  if Qeq_bool total_work 0 then Value 0
  else py_div midsprint_work total_work.

Definition calculate_adhoc_percentage (adhoc_work total_work : Q)
    : result Q :=
  if Qeq_bool total_work 0 then Value 0
  else py_div adhoc_work total_work.

Definition calculate_kpi (self : KpiWeights)
    (performance_rate utilization done_tasks_pct : Q) : Q :=
  performance_rate * w_performance_rate self +
  utilization * w_utilization self +
  done_tasks_pct * w_done_tasks self.


(** One iteration of the loop of [calculate_staff_metrics]. *)
Definition staff_metrics_row (self : KpiWeights)
    (capacity_data : Frame CapacityEntry.t) (azure_data : Frame WorkItem.t)
    (staff : StaffAggregate.t) : result StaffMetrics.t :=
  _ <- require capacity_data "staff_member" ;;
  let identity :=
    (StaffAggregate.staff_name staff ++ " <" ++
     StaffAggregate.staff_email staff ++ ">")%string in
  let capacity_row :=
    filter (fun c => String.eqb (CapacityEntry.staff_member c) identity)
      (rows capacity_data) in
  capacity <-
    match capacity_row with
    | [] => Value (63 # 1)
    | c :: _ =>
        _ <- require capacity_data "remaining_capacity" ;;
        Value (CapacityEntry.remaining_capacity c)
    end ;;
  _ <- require azure_data "staff_email" ;;
  let staff_tasks :=
    filter (fun r => cell_eqb (WorkItem.staff_email r)
                       (StaffAggregate.staff_email staff))
      (rows azure_data) in
  _ <- require azure_data "has_midsprint_addition" ;;
  _ <- require azure_data "Completed Work" ;;
  let midsprint_work :=
    Qsum (map WorkItem.Completed_Work
            (filter WorkItem.has_midsprint_addition staff_tasks)) in
  _ <- require azure_data "has_adhoc" ;;
  let adhoc_work :=
    Qsum (map WorkItem.Completed_Work
            (filter WorkItem.has_adhoc staff_tasks)) in
  performance_rate <-
    calculate_performance_rate
      (StaffAggregate.original_estimate_total staff)
      (StaffAggregate.completed_work_total staff)
      (StaffAggregate.remaining_work_total staff) ;;
  utilization <-
    calculate_utilization (StaffAggregate.completed_work_total staff)
      capacity ;;
  done_tasks_pct <-
    calculate_done_tasks_percentage
      (inject_Z (Z.of_nat (StaffAggregate.done_count staff)))
      (inject_Z (Z.of_nat (StaffAggregate.total_count staff))) ;;
  midsprint_pct <-
    calculate_midsprint_addition_percentage midsprint_work
      (StaffAggregate.completed_work_total staff) ;;
  adhoc_pct <-
    calculate_adhoc_percentage adhoc_work
      (StaffAggregate.completed_work_total staff) ;;
  let kpi := calculate_kpi self performance_rate utilization done_tasks_pct in
  Value {| StaffMetrics.staff_name := StaffAggregate.staff_name staff;
           StaffMetrics.staff_email := StaffAggregate.staff_email staff;
           StaffMetrics.team := StaffAggregate.team staff;
           StaffMetrics.original_estimate :=
             StaffAggregate.original_estimate_total staff;
           StaffMetrics.completed_work :=
             StaffAggregate.completed_work_total staff;
           StaffMetrics.remaining_work :=
             StaffAggregate.remaining_work_total staff;
           StaffMetrics.capacity := capacity;
           StaffMetrics.done_count := StaffAggregate.done_count staff;
           StaffMetrics.total_count := StaffAggregate.total_count staff;
           StaffMetrics.performance_rate := performance_rate;
           StaffMetrics.utilization := utilization;
           StaffMetrics.done_tasks_pct := done_tasks_pct;
           StaffMetrics.midsprint_addition_pct := midsprint_pct;
           StaffMetrics.adhoc_pct := adhoc_pct;
           StaffMetrics.kpi := kpi |}.

(** [staff_agg] is what [aggregate_by_staff] returns, a frame that always
    has its ten columns, so it is given by its rows. *)
Definition calculate_staff_metrics (self : KpiWeights)
    (staff_agg : list StaffAggregate.t)
    (capacity_data : Frame CapacityEntry.t) (azure_data : Frame WorkItem.t)
    : result (Frame StaffMetrics.t) :=
  results <- mapM (staff_metrics_row self capacity_data azure_data) staff_agg ;;
  Value (DataFrame_of_records StaffMetrics.keys results).

(** One iteration of the loop of [calculate_team_metrics]. *)
Definition team_metrics_row (self : KpiWeights)
    (capacity_data : Frame CapacityEntry.t) (azure_data : Frame WorkItem.t)
    (team : TeamAggregate.t) : result TeamMetrics.t :=
  _ <- require capacity_data "team" ;;
  let team_rows :=
    filter (fun c => cell_eqb (CapacityEntry.team c) (TeamAggregate.team team))
      (rows capacity_data) in
  _ <- require capacity_data "remaining_capacity" ;;
  let team_capacity := Qsum (map CapacityEntry.remaining_capacity team_rows) in
  _ <- require azure_data "team" ;;
  let team_tasks :=
    filter (fun r => cell_eqb (WorkItem.team r) (TeamAggregate.team team))
      (rows azure_data) in
  _ <- require azure_data "has_midsprint_addition" ;;
  _ <- require azure_data "Completed Work" ;;
  let midsprint_work :=
    Qsum (map WorkItem.Completed_Work
            (filter WorkItem.has_midsprint_addition team_tasks)) in
  _ <- require azure_data "has_adhoc" ;;
  let adhoc_work :=
    Qsum (map WorkItem.Completed_Work
            (filter WorkItem.has_adhoc team_tasks)) in
  performance_rate <-
    calculate_performance_rate
      (TeamAggregate.original_estimate_total team)
      (TeamAggregate.completed_work_total team)
      (TeamAggregate.remaining_work_total team) ;;
  utilization <-
    calculate_utilization (TeamAggregate.completed_work_total team)
      team_capacity ;;
  done_tasks_pct <-
    calculate_done_tasks_percentage
      (inject_Z (Z.of_nat (TeamAggregate.done_count team)))
      (inject_Z (Z.of_nat (TeamAggregate.total_count team))) ;;
  midsprint_pct <-
    calculate_midsprint_addition_percentage midsprint_work
      (TeamAggregate.completed_work_total team) ;;
  adhoc_pct <-
    calculate_adhoc_percentage adhoc_work
      (TeamAggregate.completed_work_total team) ;;
  let kpi := calculate_kpi self performance_rate utilization done_tasks_pct in
  Value {| TeamMetrics.team := TeamAggregate.team team;
           TeamMetrics.original_estimate :=
             TeamAggregate.original_estimate_total team;
           TeamMetrics.completed_work :=
             TeamAggregate.completed_work_total team;
           TeamMetrics.remaining_work :=
             TeamAggregate.remaining_work_total team;
           TeamMetrics.capacity := team_capacity;
           TeamMetrics.done_count := TeamAggregate.done_count team;
           TeamMetrics.total_count := TeamAggregate.total_count team;
           TeamMetrics.performance_rate := performance_rate;
           TeamMetrics.utilization := utilization;
           TeamMetrics.done_tasks_pct := done_tasks_pct;
           TeamMetrics.midsprint_addition_pct := midsprint_pct;
           TeamMetrics.adhoc_pct := adhoc_pct;
           TeamMetrics.kpi := kpi |}.

Definition calculate_team_metrics (self : KpiWeights)
    (team_agg : list TeamAggregate.t)
    (capacity_data : Frame CapacityEntry.t) (azure_data : Frame WorkItem.t)
    : result (Frame TeamMetrics.t) :=
  results <- mapM (team_metrics_row self capacity_data azure_data) team_agg ;;
  Value (DataFrame_of_records TeamMetrics.keys results).

(** *** validate_metrics

    The function reads a metrics row through its labels only, so it is
    stated over any row type that offers them. *)

Class MetricsRow (R : Type) : Type := {
  row_get : R -> string -> option string;   (* [row.get(label)], text cells *)
  row_utilization : R -> Q;
  row_performance_rate : R -> Q;
  row_kpi : R -> Q
}.

#[export] Instance StaffMetrics_row : MetricsRow StaffMetrics.t := {
  row_get r label :=
    if String.eqb label "staff_name" then Some (StaffMetrics.staff_name r)
    else if String.eqb label "staff_email" then
      Some (StaffMetrics.staff_email r)
    else if String.eqb label "team" then Some (StaffMetrics.team r)
    else None;
  row_utilization := StaffMetrics.utilization;
  row_performance_rate := StaffMetrics.performance_rate;
  row_kpi := StaffMetrics.kpi
}.

#[export] Instance TeamMetrics_row : MetricsRow TeamMetrics.t := {
  row_get r label :=
    if String.eqb label "team" then Some (TeamMetrics.team r) else None;
  row_utilization := TeamMetrics.utilization;
  row_performance_rate := TeamMetrics.performance_rate;
  row_kpi := TeamMetrics.kpi
}.

Inductive WarningType : Type :=
| high_utilization
| low_performance_rate
| kpi_outlier.

(** An entry of [warnings]; its [message] text is formatted from [value]
    and is left out. *)
Record Warning : Type := {
  type : WarningType;
  staff : option string;
  value : Q
}.

Record MetricsReport : Type := {
  status : Status;
  warnings : list Warning
}.

Section ValidateMetrics.

Context {R : Type} `{MetricsRow R}.

(** [row.get(label)]: the cell when the frame has the column. *)
Definition get (metrics : Frame R) (r : R) (label : string) : option string :=
  if has_column metrics label then row_get r label else None.

(** [row.get('staff_name', row.get('team'))] *)
Definition row_label (metrics : Frame R) (r : R) : option string :=
  match get metrics r "staff_name" with
  | Some v => Some v
  | None => get metrics r "team"
  end.

Definition is_high_util (r : R) : bool :=
  Qlt_bool (15 # 10) (row_utilization r).

Definition is_low_perf (r : R) : bool :=
  Qlt_bool (row_performance_rate r) (5 # 10).

Definition is_kpi_outlier (r : R) : bool :=
  Qlt_bool (row_kpi r) (3 # 10) || Qlt_bool (15 # 10) (row_kpi r).

Definition validate_metrics (metrics : Frame R) : result MetricsReport :=
  _ <- require metrics "utilization" ;;
  let high_util := filter is_high_util (rows metrics) in
  let warnings1 :=
    map (fun r => {| type := high_utilization; staff := row_label metrics r;
                     value := row_utilization r |}) high_util in
  _ <- require metrics "performance_rate" ;;
  let low_perf := filter is_low_perf (rows metrics) in
  let warnings2 :=
    warnings1 ++
    map (fun r => {| type := low_performance_rate; staff := row_label metrics r;
                     value := row_performance_rate r |}) low_perf in
  _ <- require metrics "kpi" ;;
  let kpi_outliers := filter is_kpi_outlier (rows metrics) in
  let warnings3 :=
    warnings2 ++
    map (fun r => {| type := kpi_outlier; staff := row_label metrics r;
                     value := row_kpi r |}) kpi_outliers in
  Value {| status := match warnings3 with [] => success | _ :: _ => warning end;
           warnings := warnings3 |}.

End ValidateMetrics.

(** *** calculate_cmmi_measures *)

(** [num / den if den > 0 else 0]: the condition is evaluated first, the
    numerator only when the condition holds. *)
Definition ratio_if_positive (num den : cell) : outcome Q :=
  d <~ number den ;;
  if Qlt_bool 0 d then
    n <~ number num ;;
    lift (py_div n d)
  else Returned 0.

Definition calculate_cmmi_measures (sprint_metadata : SprintMetadata.t)
    (azure_data : Frame WorkItem.t) : outcome CmmiMeasures.t :=
  completion_rate <~
    ratio_if_positive (SprintMetadata.actual_sp sprint_metadata)
      (SprintMetadata.planned_sp sprint_metadata) ;;
  let completion_rate_analysis :=
    if Qle_bool (90 # 100) completion_rate then "Good"%string
    else "Needs Improvement"%string in
  effort_estimation_accuracy <~
    ratio_if_positive (SprintMetadata.estimated_dev_effort sprint_metadata)
      (SprintMetadata.actual_dev_effort sprint_metadata) ;;
  let effort_estimation_analysis :=
    if Qle_bool (90 # 100) effort_estimation_accuracy &&
       Qle_bool effort_estimation_accuracy (120 # 100)
    then "Good"%string else "Needs Improvement"%string in
  bug_fixing_effort_pct <~
    ratio_if_positive (SprintMetadata.bug_fixing_effort sprint_metadata)
      (SprintMetadata.actual_dev_effort sprint_metadata) ;;
  utilization_rate <~
    ratio_if_positive (SprintMetadata.sum_actual_hours sprint_metadata)
      (SprintMetadata.sum_working_hours sprint_metadata) ;;
  cmmi_productivity <~
    (if Qlt_bool 0 utilization_rate then
       actual_sp <~ number (SprintMetadata.actual_sp sprint_metadata) ;;
       lift (py_div actual_sp utilization_rate)
     else Returned 0) ;;
  Returned
    {| CmmiMeasures.completion_rate := completion_rate;
       CmmiMeasures.completion_rate_analysis := completion_rate_analysis;
       CmmiMeasures.effort_estimation_accuracy := effort_estimation_accuracy;
       CmmiMeasures.effort_estimation_analysis := effort_estimation_analysis;
       CmmiMeasures.bug_fixing_effort_pct := bug_fixing_effort_pct;
       CmmiMeasures.utilization_rate := utilization_rate;
       CmmiMeasures.cmmi_productivity := cmmi_productivity;
       CmmiMeasures.sprint_name := SprintMetadata.sprint_name sprint_metadata;
       CmmiMeasures.date_from := SprintMetadata.date_from sprint_metadata;
       CmmiMeasures.date_to := SprintMetadata.date_to sprint_metadata |}.

End SprintCalculator.

(** ** The application: [process_sprint_file]

    The function reads the sheets of the workbook, runs the pipeline and
    hands the tables to the workbook writer.  The sheets are given as
    already read; the writer (the [ExcelUpdater] steps on the uploaded
    workbook, saving and reading the file back) is a parameter that returns
    the bytes of the file or raises.  It is the writer of one upload: the
    bytes depend on every cell of that workbook, so another upload has
    another writer. *)

Module App.

Record Returned5 (Data : Type) : Type := {
  processed_data : option Data;
  validation : option SprintDataProcessor.ValidationReport;
  staff_metrics : option (Frame StaffMetrics.t);
  team_metrics : option (Frame TeamMetrics.t);
  cmmi_measures : option CmmiMeasures.t
}.

Arguments processed_data {Data} r.
Arguments validation {Data} r.
Arguments staff_metrics {Data} r.
Arguments team_metrics {Data} r.
Arguments cmmi_measures {Data} r.

Section ProcessSprintFile.

Variable Data : Type.
Variable write_workbook :
  SprintMetadata.t -> Frame StaffMetrics.t -> Frame TeamMetrics.t ->
  CmmiMeasures.t -> outcome Data.

(** The body of the [try] block. *)
Definition process_sprint_file_body (data_sheet : nat -> nat -> cell)
    (capacity_sheet : nat -> CapacityCells.t) (df_azure : Frame RawRow.t)
    : outcome (Returned5 Data) :=
  let calculator := SprintCalculator.init None in
  let sprint_metadata :=
    SprintDataProcessor.extract_sprint_metadata data_sheet in
  azure_data <~ lift (SprintDataProcessor.process_azure_data df_azure) ;;
  validation <~ lift (SprintDataProcessor.validate_data azure_data) ;;
  match SprintDataProcessor.status validation with
  | error =>
      Returned {| processed_data := None;
                  validation := Some validation;
                  staff_metrics := None;
                  team_metrics := None;
                  cmmi_measures := None |}
  | _ =>
      let capacity_data :=
        SprintDataProcessor.get_capacity_data capacity_sheet in
      staff_agg <~ lift (SprintDataProcessor.aggregate_by_staff azure_data) ;;
      team_agg <~ lift (SprintDataProcessor.aggregate_by_team azure_data) ;;
      staff_metrics <~
        lift (SprintCalculator.calculate_staff_metrics calculator staff_agg
                capacity_data azure_data) ;;
      team_metrics <~
        lift (SprintCalculator.calculate_team_metrics calculator team_agg
                capacity_data azure_data) ;;
      cmmi_measures <~
        SprintCalculator.calculate_cmmi_measures sprint_metadata azure_data ;;
      processed_data <~
        write_workbook sprint_metadata staff_metrics team_metrics
          cmmi_measures ;;
      Returned {| processed_data := Some processed_data;
                  validation := Some validation;
                  staff_metrics := Some staff_metrics;
                  team_metrics := Some team_metrics;
                  cmmi_measures := Some cmmi_measures |}
  end.

(** [process_sprint_file]: whatever is raised inside the [try] block gives
    five times [None]. *)
Definition process_sprint_file (data_sheet : nat -> nat -> cell)
    (capacity_sheet : nat -> CapacityCells.t) (df_azure : Frame RawRow.t)
    : Returned5 Data :=
  match process_sprint_file_body data_sheet capacity_sheet df_azure with
  | Returned r => r
  | Raised _ | TypeError =>
      {| processed_data := None;
         validation := None;
         staff_metrics := None;
         team_metrics := None;
         cmmi_measures := None |}
  end.

End ProcessSprintFile.

Arguments process_sprint_file_body {Data} write_workbook data_sheet
  capacity_sheet df_azure.
Arguments process_sprint_file {Data} write_workbook data_sheet
  capacity_sheet df_azure.

End App.
(** * Specification predicates *)

(** What the design document asks of a ratio: it is returned, it is not
    negative, and it is the literal zero when the denominator is zero. *)
Definition ratio_ok (r : result Q) (denominator : Q) : Prop :=
  exists v, r = Value v /\ 0 <= v /\ (denominator == 0 -> v = 0).

(** ** Identity parsing

    The reading of the design document: the name is what stands before the
    last [<]...[>] pair, trimmed, and the email is what stands inside that
    pair; without such a pair both are absent.  [spec_identity] follows
    these words, to be compared with the patterns of the source. *)

Fixpoint take_until (stop : ascii) (s : list ascii) : option (list ascii) :=
  match s with
  | [] => None
  | c :: s' =>
      if Ascii.eqb c stop then Some []
      else option_map (cons c) (take_until stop s')
  end.

(** [Some (before, inside)] for the last [<] that is closed by a [>]. *)
Fixpoint last_pair (s : list ascii) : option (list ascii * list ascii) :=
  match s with
  | [] => None
  | c :: s' =>
      match last_pair s' with
      | Some (before, inside) => Some (c :: before, inside)
      | None =>
          if Ascii.eqb c "<" then
            option_map (fun inside => ([], inside)) (take_until ">" s')
          else None
      end
  end.

Definition spec_identity (assigned_to : option string)
    : option string * option string :=
  match assigned_to with
  | None => (None, None)
  | Some s =>
      match last_pair (list_ascii_of_string s) with
      | Some (before, inside) =>
          (Some (strip (string_of_list_ascii before)),
           Some (string_of_list_ascii inside))
      | None => (None, None)
      end
  end.

Definition newline : ascii := "010"%char.

(** A name part: no [<], no newline, and its last character exists and is
    not white space. *)
Definition plain_name (n : list ascii) : bool :=
  negb (is_space (last n " "%char)) &&
  forallb (fun c => negb (Ascii.eqb c "<") && negb (Ascii.eqb c newline)) n.

(** An email part: not empty, no [>], no newline. *)
Definition plain_email (e : list ascii) : bool :=
  negb (Nat.eqb (List.length e) 0) &&
  forallb (fun c => negb (Ascii.eqb c ">") && negb (Ascii.eqb c newline)) e.

Definition no_open_bracket (s : list ascii) : bool :=
  forallb (fun c => negb (Ascii.eqb c "<")) s.

(** The combined string [n w <e> r]. *)
Definition combined (n w e r : list ascii) : string :=
  string_of_list_ascii (n ++ w ++ "<"%char :: e ++ ">"%char :: r).

(** Parts of the two patterns, for stating how they match. *)
Definition spaces_then_bracket : Regex.regex :=
  [Regex.AStar Regex.CSpace; Regex.AOne (Regex.CChar "<")].

Definition name_body : Regex.regex :=
  Regex.APlusLazy Regex.CDot :: Regex.AClose :: spaces_then_bracket.

Definition email_body : Regex.regex :=
  [Regex.APlusLazy Regex.CDot; Regex.AClose; Regex.AOne (Regex.CChar ">")].

(** The identity columns that [process_azure_data] derives for a raw row. *)
Definition row_identity (r : RawRow.t) : option string * option string :=
  let item := SprintDataProcessor.process_row r in
  (WorkItem.staff_name item, WorkItem.staff_email item).

(** What the patterns of the source extract, by the shape of the combined
    string: the first [<]...[>] pair counts, and only the white space
    between the name and the [<] is dropped. *)
Inductive identity_shape
    : option string -> option string * option string -> Prop :=
| shape_pair (n w e t : list ascii) :
    plain_name n = true ->
    forallb is_space w = true ->
    plain_email e = true ->
    identity_shape (Some (combined n w e t))
      (Some (string_of_list_ascii n), Some (string_of_list_ascii e))
| shape_no_bracket (s : string) :
    no_open_bracket (list_ascii_of_string s) = true ->
    identity_shape (Some s) (None, None)
| shape_missing :
    identity_shape None (None, None).

(** ** Sample data *)

Definition raw_row (assigned_to : option string) (activity : option string)
    (tags : option string) (state : option string) (oe cw rw : Q)
    : RawRow.t :=
  {| RawRow.Assigned_To := assigned_to;
     RawRow.Activity := activity;
     RawRow.Tags := tags;
     RawRow.State := state;
     RawRow.Original_Estimate := Some oe;
     RawRow.Completed_Work := Some cw;
     RawRow.Remaining_Work := Some rw |}.

Definition row_ahmed : RawRow.t :=
  raw_row (Some "Ahmed Talaat <atalaat@youxel.com>"%string)
    (Some "Development"%string) (Some "Ad-hoc"%string) (Some "Done"%string)
    89 64 1.

(** A combined string with two bracket pairs. *)
Definition row_two_pairs : RawRow.t :=
  raw_row (Some "A <x> <y>"%string) (Some "Development"%string) None
    (Some "Done"%string) 1 1 0.

(** ** Frames and totals *)

Definition has_columns {R : Type} (df : Frame R) (labels : list string)
    : bool :=
  forallb (has_column df) labels.

(** The columns that the two group-by passes read. *)
Definition group_columns : list string :=
  ["staff_email"%string; "staff_name"%string; "team"%string] ++
  SprintDataProcessor.agg_columns.

(** The columns that [validate_data] reads after the required-column
    check. *)
Definition validated_columns : list string :=
  ["Assigned To"; "team"; "Activity"; "Completed Work"; "is_done"]%string.

(** The columns of the work items that the metric engine reads. *)
Definition metric_item_columns : list string :=
  ["staff_email"; "team"; "has_midsprint_addition"; "Completed Work";
   "has_adhoc"]%string.

Definition capacity_columns : list string :=
  ["staff_member"; "team"; "remaining_capacity"]%string.

Definition staff_total (aggs : list StaffAggregate.t) : nat :=
  list_sum (map StaffAggregate.total_count aggs).

Definition team_total (aggs : list TeamAggregate.t) : nat :=
  list_sum (map TeamAggregate.total_count aggs).

Definition present {A : Type} (cell : option A) : Prop := cell <> None.

(** The column labels of a sprint sheet. *)
Definition sheet_columns : list string :=
  ["Work Item Type"; "Title"; "State"; "Assigned To"; "Original Estimate";
   "Completed Work"; "Remaining Work"; "Story Points"; "Activity";
   "Tags"]%string.

(** Two work items of one team, the second without an assignee. *)
Definition sheet_one_unassigned : Frame RawRow.t :=
  {| columns := sheet_columns;
     rows := [row_ahmed;
              raw_row None (Some "Development"%string) None
                (Some "Active"%string) 8 3 5] |}.

(** A sheet without work items. *)
Definition sheet_empty : Frame RawRow.t :=
  {| columns := sheet_columns; rows := [] |}.

(** One person with a task in each of two activities, both added in
    mid-sprint. *)
Definition sheet_two_teams : Frame RawRow.t :=
  {| columns := sheet_columns;
     rows := [raw_row (Some "Ahmed Talaat <atalaat@youxel.com>"%string)
                (Some "Development"%string)
                (Some "MidSprint_Addition"%string) (Some "Done"%string)
                2 2 0;
              raw_row (Some "Ahmed Talaat <atalaat@youxel.com>"%string)
                (Some "Testing"%string)
                (Some "MidSprint_Addition"%string) (Some "Done"%string)
                3 3 0] |}.

(** The frame that [process_azure_data] makes of a sheet; a sheet on which
    it raises gives the frame without columns. *)
Definition processed (sheet : Frame RawRow.t) : Frame WorkItem.t :=
  match SprintDataProcessor.process_azure_data sheet with
  | Value df => df
  | Raise _ => {| columns := []; rows := [] |}
  end.

(** ** Metric engine *)

(** A ratio that is 0 on a zero denominator. *)
Definition guarded_ratio (num den : Q) : Q :=
  if Qeq_bool den 0 then 0 else num / den.

(** Completed-work hours of the items that carry a flag. *)
Definition tagged_hours (flag : WorkItem.t -> bool) (items : list WorkItem.t)
    : Q :=
  Qsum (map WorkItem.Completed_Work (filter flag items)).

Definition hours (items : list WorkItem.t) : Q :=
  Qsum (map WorkItem.Completed_Work items).

(** The items of a staff member: those that carry the email. *)
Definition items_of_email (email : string) (items : list WorkItem.t)
    : list WorkItem.t :=
  filter (fun r => cell_eqb (WorkItem.staff_email r) email) items.

(** The identity string of a staff aggregate, as the capacity table
    spells it. *)
Definition identity_string (staff : StaffAggregate.t) : string :=
  (StaffAggregate.staff_name staff ++ " <" ++
   StaffAggregate.staff_email staff ++ ">")%string.

(** The capacity rows of a team. *)
Fixpoint team_capacity_sum (team : string) (entries : list CapacityEntry.t)
    : Q :=
  match entries with
  | [] => 0
  | c :: entries' =>
      match CapacityEntry.team c with
      | Some t =>
          if String.eqb t team then
            CapacityEntry.remaining_capacity c + team_capacity_sum team entries'
          else team_capacity_sum team entries'
      | None => team_capacity_sum team entries'
      end
  end.

Definition default_capacity : Q := 63.

(** [x] is [y] when rounded to four decimals. *)
Definition approx4 (x y : Q) : Prop := Qabs (x - y) <= 5 # 100000.

(** The data of [main] in [calculator.py]. *)
Definition staff_agg_main : list StaffAggregate.t :=
  [{| StaffAggregate.staff_name := "Ahmed Talaat";
      StaffAggregate.staff_email := "atalaat@youxel.com";
      StaffAggregate.team := "Development";
      StaffAggregate.original_estimate_total := 89;
      StaffAggregate.completed_work_total := 64;
      StaffAggregate.remaining_work_total := 1;
      StaffAggregate.done_count := 10;
      StaffAggregate.total_count := 10;
      StaffAggregate.midsprint_count := 0;
      StaffAggregate.adhoc_count := 1 |}].

Definition capacity_main : Frame CapacityEntry.t :=
  {| columns := ["staff_member"; "team"; "remaining_capacity"]%string;
     rows := [{| CapacityEntry.staff_member :=
                   "Ahmed Talaat <atalaat@youxel.com>";
                 CapacityEntry.team := Some "Development"%string;
                 CapacityEntry.expected_hours := None;
                 CapacityEntry.vacation_hours := 0;
                 CapacityEntry.days_off_hours := 0;
                 CapacityEntry.remaining_capacity := 63 |}] |}.

Definition azure_main : Frame WorkItem.t :=
  {| columns := ["staff_email"; "Completed Work"; "has_midsprint_addition";
                 "has_adhoc"; "team"]%string;
     rows := [{| WorkItem.Assigned_To := None;
                 WorkItem.Activity := None;
                 WorkItem.Tags := None;
                 WorkItem.State := None;
                 WorkItem.Original_Estimate := 0;
                 WorkItem.Completed_Work := 64;
                 WorkItem.Remaining_Work := 0;
                 WorkItem.staff_email := Some "atalaat@youxel.com"%string;
                 WorkItem.staff_name := None;
                 WorkItem.team := Some "Development"%string;
                 WorkItem.has_midsprint_addition := false;
                 WorkItem.has_adhoc := true;
                 WorkItem.is_done := false |}] |}.

(** A capacity sheet whose rows 4 to 14 are blank. *)
Definition blank_capacity_sheet (row_num : nat) : CapacityCells.t :=
  {| CapacityCells.member := None;
     CapacityCells.team := None;
     CapacityCells.expected_hours := None;
     CapacityCells.vacation := None;
     CapacityCells.days_off := None;
     CapacityCells.remaining_capacity := 0 |}.

Definition team_agg_main : list TeamAggregate.t :=
  [{| TeamAggregate.team := "Development";
      TeamAggregate.original_estimate_total := 89;
      TeamAggregate.completed_work_total := 64;
      TeamAggregate.remaining_work_total := 1;
      TeamAggregate.done_count := 10;
      TeamAggregate.total_count := 10;
      TeamAggregate.midsprint_count := 0;
      TeamAggregate.adhoc_count := 1 |}].

(** ** Validator *)

Definition metric_columns : list string :=
  ["utilization"; "performance_rate"; "kpi"]%string.

(** The columns that [validate_data] reads when there are no rows. *)
Definition validated_columns_empty : list string :=
  ["Assigned To"; "team"; "Completed Work"; "is_done"]%string.

Definition type_eqb (a b : SprintCalculator.WarningType) : bool :=
  match a, b with
  | SprintCalculator.high_utilization, SprintCalculator.high_utilization
  | SprintCalculator.low_performance_rate,
    SprintCalculator.low_performance_rate
  | SprintCalculator.kpi_outlier, SprintCalculator.kpi_outlier => true
  | _, _ => false
  end.

(** The entries of one check, as pairs of the reference and the value. *)
Definition warnings_of (ty : SprintCalculator.WarningType)
    (report : SprintCalculator.MetricsReport) : list (option string * Q) :=
  map (fun w => (SprintCalculator.staff w, SprintCalculator.value w))
    (filter (fun w => type_eqb (SprintCalculator.type w) ty)
       (SprintCalculator.warnings report)).

(** The thresholds of the design document, decided on the order of [Q]. *)
Definition above (bound x : Q) : bool :=
  if Qlt_le_dec bound x then true else false.

Definition below (bound x : Q) : bool :=
  if Qlt_le_dec x bound then true else false.

Definition outside (low high x : Q) : bool := below low x || above high x.

(** The status the design document gives a report with these issues. *)
Definition spec_status {A B : Type} (errors : list A) (warnings : list B)
    : Status :=
  match errors, warnings with
  | _ :: _, _ => error
  | [], _ :: _ => warning
  | [], [] => success
  end.

Definition metrics_row (name : string) (utilization performance_rate kpi : Q)
    : StaffMetrics.t :=
  {| StaffMetrics.staff_name := name;
     StaffMetrics.staff_email := "";
     StaffMetrics.team := "";
     StaffMetrics.original_estimate := 0;
     StaffMetrics.completed_work := 0;
     StaffMetrics.remaining_work := 0;
     StaffMetrics.capacity := 0;
     StaffMetrics.done_count := 0;
     StaffMetrics.total_count := 0;
     StaffMetrics.performance_rate := performance_rate;
     StaffMetrics.utilization := utilization;
     StaffMetrics.done_tasks_pct := 0;
     StaffMetrics.midsprint_addition_pct := 0;
     StaffMetrics.adhoc_pct := 0;
     StaffMetrics.kpi := kpi |}.

(** Three staff rows around the utilization threshold. *)
Definition metrics_boundary : Frame StaffMetrics.t :=
  DataFrame_of_records StaffMetrics.keys
    [metrics_row "a" 1.51 1 1; metrics_row "b" 1.49 1 1;
     metrics_row "c" 1.5 1 1].

(** The second work item of [sheet_one_unassigned]. *)
Definition item_unassigned : WorkItem.t :=
  SprintDataProcessor.process_row
    (raw_row None (Some "Development"%string) None (Some "Active"%string)
       8 3 5).

(** * Further specification predicates *)

(** ** Sheets *)

(** A sheet with its column labels stripped, as [process_azure_data] sees
    it. *)
Definition stripped (sheet : Frame RawRow.t) : Frame RawRow.t :=
  {| columns := map strip (columns sheet); rows := rows sheet |}.

(** The columns that [process_azure_data] reads, in the order it reads
    them. *)
Definition read_columns : list string :=
  ["Assigned To"; "Activity"; "Tags"; "State"]%string.

(** The sheet has rows, and none of them has an assignee. *)
Definition no_assignee (sheet : Frame RawRow.t) : bool :=
  match rows sheet with
  | [] => false
  | _ :: _ =>
      negb (existsb (fun r => negb (is_none (RawRow.Assigned_To r)))
              (rows sheet))
  end.

(** A sheet of two work items without assignee. *)
Definition sheet_no_assignee : Frame RawRow.t :=
  {| columns := sheet_columns;
     rows := [raw_row None (Some "Development"%string) None
                (Some "Active"%string) 8 3 5;
              raw_row None (Some "Testing"%string) None
                (Some "Done"%string) 2 2 0] |}.

(** The columns that [process_azure_data] adds. *)
Definition derived_columns : list string :=
  ["staff_email"; "staff_name"; "team"; "has_midsprint_addition";
   "has_adhoc"; "is_done"]%string.

Definition first_missing {R : Type} (df : Frame R) (labels : list string)
    : option string :=
  find (fun c => negb (has_column df c)) labels.

(** A sheet as exported without the column of the remaining work. *)
Definition sheet_without_remaining_work : Frame RawRow.t :=
  {| columns :=
       ["Work Item Type"; "Title"; "State"; "Assigned To";
        "Original Estimate"; "Completed Work"; "Activity"; "Tags"]%string;
     rows := [row_ahmed] |}.

(** ** Shapes of extracted identities *)

Definition no_newline (s : list ascii) : bool :=
  forallb (fun c => negb (Ascii.eqb c newline)) s.

Definition no_closing_bracket (s : list ascii) : bool :=
  forallb (fun c => negb (Ascii.eqb c ">")) s.

(** A text of two or more characters ends neither in white space nor in
    [<]. *)
Definition right_trimmed (n : list ascii) : bool :=
  match n with
  | [] | [_] => true
  | _ :: _ :: _ =>
      negb (is_space (last n " "%char)) &&
      negb (Ascii.eqb (last n " "%char) "<")
  end.

(** The combined string is [name w < t]: a name, white space, a bracket. *)
Definition name_shape (s name : string) : Prop :=
  exists w t,
    list_ascii_of_string s
    = list_ascii_of_string name ++ w ++ "<"%char :: t /\
    name <> EmptyString /\
    no_newline (list_ascii_of_string name) = true /\
    forallb is_space w = true /\
    right_trimmed (list_ascii_of_string name) = true.

(** The combined string is [a < email > t], where the email is one
    character followed by characters other than [>]. *)
Definition email_shape (s email : string) : Prop :=
  exists a t,
    list_ascii_of_string s
    = a ++ "<"%char :: list_ascii_of_string email ++ ">"%char :: t /\
    email <> EmptyString /\
    no_newline (list_ascii_of_string email) = true /\
    no_closing_bracket (tl (list_ascii_of_string email)) = true.

(** ** Tags and activities *)

(** The tags hold the marker somewhere, up to the case of ASCII letters. *)
Definition holds_marker (marker tags : string) : Prop :=
  exists a m b,
    list_ascii_of_string tags = a ++ m ++ b /\
    map to_lower m = map to_lower (list_ascii_of_string marker).

(** Two texts that differ at most in the case of ASCII letters. *)
Definition same_up_to_case (s t : string) : Prop :=
  map to_lower (list_ascii_of_string s)
  = map to_lower (list_ascii_of_string t).

(** The activities that [team_mapping] knows. *)
Definition known_activities : list string :=
  ["Development"; "Front End"; "Design"; "Testing"; "Business"]%string.

Definition known_teams : list string :=
  ["Development"; "Frontend"; "Design"; "Testing"; "Business"]%string.

Definition mapped_activity (activity : option string) : Prop :=
  exists a, activity = Some a /\ In a known_activities.

(** A sheet with activities outside the mapping. *)
Definition sheet_unmapped : Frame RawRow.t :=
  {| columns := sheet_columns;
     rows := [raw_row (Some "A <a@x>"%string) (Some "Research"%string) None
                (Some "Done"%string) 1 1 0;
              raw_row (Some "B <b@x>"%string) None None
                (Some "Done"%string) 1 1 0;
              raw_row (Some "A <a@x>"%string) (Some "Research"%string) None
                (Some "Done"%string) 2 2 0;
              row_ahmed] |}.

(** ** Order and totals of the aggregates *)

(** Each element is strictly below the next one. *)
Fixpoint strictly_increasing {K : Type} (cmp : K -> K -> comparison)
    (l : list K) : Prop :=
  match l with
  | a :: (b :: _) as l' => cmp a b = Lt /\ strictly_increasing cmp l'
  | _ => True
  end.

(** Each element is at most the next one. *)
Fixpoint ascending {K : Type} (cmp : K -> K -> comparison) (l : list K)
    : Prop :=
  match l with
  | a :: (b :: _) as l' => cmp a b <> Gt /\ ascending cmp l'
  | _ => True
  end.

Definition staff_key_of (a : StaffAggregate.t) : string * string * string :=
  (StaffAggregate.staff_email a, StaffAggregate.staff_name a,
   StaffAggregate.team a).

(** The item carries the whole staff key. *)
Definition carries_staff_key (k : string * string * string)
    (r : WorkItem.t) : bool :=
  match WorkItem.staff_email r, WorkItem.staff_name r, WorkItem.team r with
  | Some e, Some n, Some t =>
      String.eqb e (fst (fst k)) && String.eqb n (snd (fst k)) &&
      String.eqb t (snd k)
  | _, _, _ => false
  end.

Definition carries_team (t : string) (r : WorkItem.t) : bool :=
  cell_eqb (WorkItem.team r) t.

(** Email, name and team are all there. *)
Definition complete_identity (r : WorkItem.t) : bool :=
  negb (is_none (WorkItem.staff_email r)) &&
  negb (is_none (WorkItem.staff_name r)) &&
  negb (is_none (WorkItem.team r)).

Definition has_team (r : WorkItem.t) : bool :=
  negb (is_none (WorkItem.team r)).

Definition has_email (r : WorkItem.t) : bool :=
  negb (is_none (WorkItem.staff_email r)).

(** The frame without the rows that fail a test. *)
Definition keep (p : WorkItem.t -> bool) (df : Frame WorkItem.t)
    : Frame WorkItem.t :=
  {| columns := columns df; rows := filter p (rows df) |}.

(** The totals and counts of a staff aggregate are those of the items. *)
Definition staff_summary_of (a : StaffAggregate.t)
    (items : list WorkItem.t) : Prop :=
  StaffAggregate.original_estimate_total a
  = Qsum (map WorkItem.Original_Estimate items) /\
  StaffAggregate.completed_work_total a
  = Qsum (map WorkItem.Completed_Work items) /\
  StaffAggregate.remaining_work_total a
  = Qsum (map WorkItem.Remaining_Work items) /\
  StaffAggregate.done_count a
  = List.length (filter WorkItem.is_done items) /\
  StaffAggregate.total_count a = List.length items /\
  StaffAggregate.midsprint_count a
  = List.length (filter WorkItem.has_midsprint_addition items) /\
  StaffAggregate.adhoc_count a
  = List.length (filter WorkItem.has_adhoc items).

Definition team_summary_of (a : TeamAggregate.t)
    (items : list WorkItem.t) : Prop :=
  TeamAggregate.original_estimate_total a
  = Qsum (map WorkItem.Original_Estimate items) /\
  TeamAggregate.completed_work_total a
  = Qsum (map WorkItem.Completed_Work items) /\
  TeamAggregate.remaining_work_total a
  = Qsum (map WorkItem.Remaining_Work items) /\
  TeamAggregate.done_count a
  = List.length (filter WorkItem.is_done items) /\
  TeamAggregate.total_count a = List.length items /\
  TeamAggregate.midsprint_count a
  = List.length (filter WorkItem.has_midsprint_addition items) /\
  TeamAggregate.adhoc_count a
  = List.length (filter WorkItem.has_adhoc items).


(** ** Capacity sheets *)

Definition in_capacity_range (row_num : nat) : Prop :=
  (4 <= row_num <= 14)%nat.

Definition capacity_cells (member : string) (team : string) (remaining : Q)
    : CapacityCells.t :=
  {| CapacityCells.member := Some member;
     CapacityCells.team := Some team;
     CapacityCells.expected_hours := Some remaining;
     CapacityCells.vacation := None;
     CapacityCells.days_off := None;
     CapacityCells.remaining_capacity := remaining |}.

(** A capacity sheet with one member in row 4. *)
Definition capacity_sheet_one (row_num : nat) : CapacityCells.t :=
  if (row_num =? 4)%nat then
    capacity_cells "Ahmed Talaat <atalaat@youxel.com>" "Development" 63
  else blank_capacity_sheet row_num.

(** The same sheet with a twelfth row filled in. *)
Definition capacity_sheet_long (row_num : nat) : CapacityCells.t :=
  if (row_num =? 15)%nat then capacity_cells "B <b@x>" "Testing" 40
  else capacity_sheet_one row_num.


(** The entry that [get_capacity_data] makes of a row. *)
Definition entry_of (cells : CapacityCells.t) : list CapacityEntry.t :=
  match CapacityCells.member cells with
  | None => []
  | Some member =>
      [{| CapacityEntry.staff_member := member;
          CapacityEntry.team := CapacityCells.team cells;
          CapacityEntry.expected_hours := CapacityCells.expected_hours cells;
          CapacityEntry.vacation_hours :=
            SprintDataProcessor.or_zero (CapacityCells.vacation cells);
          CapacityEntry.days_off_hours :=
            SprintDataProcessor.or_zero (CapacityCells.days_off cells);
          CapacityEntry.remaining_capacity :=
            CapacityCells.remaining_capacity cells |}]
  end.

(** ** Metric tables *)

(** A column that one of the two metric tables reads is not there. *)
Definition missing_metric_column (capacity_data : Frame CapacityEntry.t)
    (azure_data : Frame WorkItem.t) (c : string) : Prop :=
  (In c capacity_columns /\ has_column capacity_data c = false) \/
  (In c metric_item_columns /\ has_column azure_data c = false).

(** The capacity of a staff member: the first row of the capacity table
    that spells the identity, or the default. *)
Definition staff_capacity (identity : string)
    (entries : list CapacityEntry.t) : Q :=
  match filter (fun c => String.eqb (CapacityEntry.staff_member c) identity)
          entries with
  | [] => default_capacity
  | c :: _ => CapacityEntry.remaining_capacity c
  end.

Definition items_of_team (team : string) (items : list WorkItem.t)
    : list WorkItem.t :=
  filter (fun r => cell_eqb (WorkItem.team r) team) items.

(** The row of the staff table for an aggregate. *)
Definition staff_row (self : SprintCalculator.KpiWeights)
    (entries : list CapacityEntry.t) (items : list WorkItem.t)
    (staff : StaffAggregate.t) : StaffMetrics.t :=
  let capacity := staff_capacity (identity_string staff) entries in
  let tasks := items_of_email (StaffAggregate.staff_email staff) items in
  let performance_rate :=
    guarded_ratio (StaffAggregate.original_estimate_total staff)
      (StaffAggregate.completed_work_total staff +
       StaffAggregate.remaining_work_total staff) in
  let utilization :=
    guarded_ratio (StaffAggregate.completed_work_total staff) capacity in
  let done_tasks_pct :=
    guarded_ratio (inject_Z (Z.of_nat (StaffAggregate.done_count staff)))
      (inject_Z (Z.of_nat (StaffAggregate.total_count staff))) in
  {| StaffMetrics.staff_name := StaffAggregate.staff_name staff;
     StaffMetrics.staff_email := StaffAggregate.staff_email staff;
     StaffMetrics.team := StaffAggregate.team staff;
     StaffMetrics.original_estimate :=
       StaffAggregate.original_estimate_total staff;
     StaffMetrics.completed_work := StaffAggregate.completed_work_total staff;
     StaffMetrics.remaining_work := StaffAggregate.remaining_work_total staff;
     StaffMetrics.capacity := capacity;
     StaffMetrics.done_count := StaffAggregate.done_count staff;
     StaffMetrics.total_count := StaffAggregate.total_count staff;
     StaffMetrics.performance_rate := performance_rate;
     StaffMetrics.utilization := utilization;
     StaffMetrics.done_tasks_pct := done_tasks_pct;
     StaffMetrics.midsprint_addition_pct :=
       guarded_ratio (tagged_hours WorkItem.has_midsprint_addition tasks)
         (StaffAggregate.completed_work_total staff);
     StaffMetrics.adhoc_pct :=
       guarded_ratio (tagged_hours WorkItem.has_adhoc tasks)
         (StaffAggregate.completed_work_total staff);
     StaffMetrics.kpi :=
       SprintCalculator.calculate_kpi self performance_rate utilization
         done_tasks_pct |}.

(** The row of the team table for an aggregate. *)
Definition team_row (self : SprintCalculator.KpiWeights)
    (entries : list CapacityEntry.t) (items : list WorkItem.t)
    (team : TeamAggregate.t) : TeamMetrics.t :=
  let capacity :=
    Qsum (map CapacityEntry.remaining_capacity
            (filter (fun c => cell_eqb (CapacityEntry.team c)
                                (TeamAggregate.team team)) entries)) in
  let tasks := items_of_team (TeamAggregate.team team) items in
  let performance_rate :=
    guarded_ratio (TeamAggregate.original_estimate_total team)
      (TeamAggregate.completed_work_total team +
       TeamAggregate.remaining_work_total team) in
  let utilization :=
    guarded_ratio (TeamAggregate.completed_work_total team) capacity in
  let done_tasks_pct :=
    guarded_ratio (inject_Z (Z.of_nat (TeamAggregate.done_count team)))
      (inject_Z (Z.of_nat (TeamAggregate.total_count team))) in
  {| TeamMetrics.team := TeamAggregate.team team;
     TeamMetrics.original_estimate :=
       TeamAggregate.original_estimate_total team;
     TeamMetrics.completed_work := TeamAggregate.completed_work_total team;
     TeamMetrics.remaining_work := TeamAggregate.remaining_work_total team;
     TeamMetrics.capacity := capacity;
     TeamMetrics.done_count := TeamAggregate.done_count team;
     TeamMetrics.total_count := TeamAggregate.total_count team;
     TeamMetrics.performance_rate := performance_rate;
     TeamMetrics.utilization := utilization;
     TeamMetrics.done_tasks_pct := done_tasks_pct;
     TeamMetrics.midsprint_addition_pct :=
       guarded_ratio (tagged_hours WorkItem.has_midsprint_addition tasks)
         (TeamAggregate.completed_work_total team);
     TeamMetrics.adhoc_pct :=
       guarded_ratio (tagged_hours WorkItem.has_adhoc tasks)
         (TeamAggregate.completed_work_total team);
     TeamMetrics.kpi :=
       SprintCalculator.calculate_kpi self performance_rate utilization
         done_tasks_pct |}.








(** ** Weights and bands *)

(** The weights are not negative. *)
Definition nonneg_weights (self : SprintCalculator.KpiWeights) : Prop :=
  0 <= SprintCalculator.w_performance_rate self /\
  0 <= SprintCalculator.w_utilization self /\
  0 <= SprintCalculator.w_done_tasks self.

Definition between (lo hi x : Q) : Prop := lo <= x /\ x <= hi.

(** A row that none of the three checks of [validate_metrics] flags. *)
Definition within_bands {R : Type} `{SprintCalculator.MetricsRow R} (r : R)
    : Prop :=
  SprintCalculator.row_utilization r <= 15 # 10 /\
  5 # 10 <= SprintCalculator.row_performance_rate r /\
  between (3 # 10) (15 # 10) (SprintCalculator.row_kpi r).

(** ** Metadata cells *)

Definition is_number (c : cell) : bool :=
  match c with
  | CellNumber _ => true
  | _ => false
  end.

(** The cell holds a number above 0. *)
Definition positive (c : cell) : bool :=
  match c with
  | CellNumber q => Qlt_bool 0 q
  | _ => false
  end.

(** The cells that [calculate_cmmi_measures] computes with are numbers:
    each denominator, and each numerator whose denominator is above 0. *)
Definition cmmi_cells_ok (md : SprintMetadata.t) : bool :=
  is_number (SprintMetadata.planned_sp md) &&
  (negb (positive (SprintMetadata.planned_sp md)) ||
   is_number (SprintMetadata.actual_sp md)) &&
  is_number (SprintMetadata.actual_dev_effort md) &&
  (negb (positive (SprintMetadata.actual_dev_effort md)) ||
   is_number (SprintMetadata.estimated_dev_effort md) &&
   is_number (SprintMetadata.bug_fixing_effort md)) &&
  is_number (SprintMetadata.sum_working_hours md) &&
  (negb (positive (SprintMetadata.sum_working_hours md)) ||
   is_number (SprintMetadata.sum_actual_hours md)) &&
  (negb (positive (SprintMetadata.sum_working_hours md) &&
         positive (SprintMetadata.sum_actual_hours md)) ||
   is_number (SprintMetadata.actual_sp md)).

(** [num / den] above a positive denominator, 0 otherwise; [None] is the
    [TypeError] of a cell that is not a number. *)
Definition cmmi_ratio (num den : cell) : option Q :=
  match den with
  | CellNumber d =>
      if Qlt_bool 0 d then
        match num with
        | CellNumber n => Some (n / d)
        | _ => None
        end
      else Some 0
  | _ => None
  end.

Definition positive_ratio (n d : Q) : Q :=
  if Qlt_bool 0 d then n / d else 0.

(** Metadata whose computed cells are the given numbers. *)
Definition metadata_of (name : string)
    (planned_sp actual_sp estimated_dev_effort actual_dev_effort
     bug_fixing_effort sum_actual_hours sum_working_hours : cell)
    : SprintMetadata.t :=
  {| SprintMetadata.sprint_name := CellText name;
     SprintMetadata.date_from := CellEmpty;
     SprintMetadata.date_to := CellEmpty;
     SprintMetadata.product := CellEmpty;
     SprintMetadata.escaped_bugs := CellEmpty;
     SprintMetadata.midsprint_addition := CellEmpty;
     SprintMetadata.adhoc := CellEmpty;
     SprintMetadata.planned_sp := planned_sp;
     SprintMetadata.actual_sp := actual_sp;
     SprintMetadata.estimated_dev_effort := estimated_dev_effort;
     SprintMetadata.actual_dev_effort := actual_dev_effort;
     SprintMetadata.estimated_test_effort := CellEmpty;
     SprintMetadata.actual_test_effort := CellEmpty;
     SprintMetadata.bug_fixing_effort := bug_fixing_effort;
     SprintMetadata.sum_actual_hours := sum_actual_hours;
     SprintMetadata.sum_working_hours := sum_working_hours |}.

(** A sprint of 40 planned and 38 delivered story points. *)
Definition metadata_sprint : SprintMetadata.t :=
  metadata_of "Sprint 12" (CellNumber 40) (CellNumber 38) (CellNumber 300)
    (CellNumber 320) (CellNumber 16) (CellNumber 600) (CellNumber 640).

(** A sheet whose effort cells are blank and whose denominators are 0. *)
Definition metadata_zero : SprintMetadata.t :=
  metadata_of "Sprint 0" (CellNumber 0) CellEmpty CellEmpty (CellNumber 0)
    CellEmpty CellEmpty (CellNumber 0).

(** ** Results of the application *)

Definition nothing {Data : Type} : App.Returned5 Data :=
  {| App.processed_data := None;
     App.validation := None;
     App.staff_metrics := None;
     App.team_metrics := None;
     App.cmmi_measures := None |}.

Definition only_validation {Data : Type}
    (v : SprintDataProcessor.ValidationReport) : App.Returned5 Data :=
  {| App.processed_data := None;
     App.validation := Some v;
     App.staff_metrics := None;
     App.team_metrics := None;
     App.cmmi_measures := None |}.

Definition everything {Data : Type} (d : Data)
    (v : SprintDataProcessor.ValidationReport) (s : Frame StaffMetrics.t)
    (t : Frame TeamMetrics.t) (c : CmmiMeasures.t) : App.Returned5 Data :=
  {| App.processed_data := Some d;
     App.validation := Some v;
     App.staff_metrics := Some s;
     App.team_metrics := Some t;
     App.cmmi_measures := Some c |}.

(** The tables of the pipeline on the default weights. *)
Definition pipeline_tables (data_sheet : nat -> nat -> cell)
    (capacity_sheet : nat -> CapacityCells.t) (azure_data : Frame WorkItem.t)
    (s : Frame StaffMetrics.t) (t : Frame TeamMetrics.t) (c : CmmiMeasures.t)
    : Prop :=
  exists staff_agg team_agg,
    SprintDataProcessor.aggregate_by_staff azure_data = Value staff_agg /\
    SprintDataProcessor.aggregate_by_team azure_data = Value team_agg /\
    SprintCalculator.calculate_staff_metrics
      SprintCalculator.default_kpi_weights staff_agg
      (SprintDataProcessor.get_capacity_data capacity_sheet) azure_data
    = Value s /\
    SprintCalculator.calculate_team_metrics
      SprintCalculator.default_kpi_weights team_agg
      (SprintDataProcessor.get_capacity_data capacity_sheet) azure_data
    = Value t /\
    SprintCalculator.calculate_cmmi_measures
      (SprintDataProcessor.extract_sprint_metadata data_sheet) azure_data
    = Returned c.

(** A writer that returns the name of the sprint. *)
Definition write_name (md : SprintMetadata.t) (s : Frame StaffMetrics.t)
    (t : Frame TeamMetrics.t) (c : CmmiMeasures.t) : outcome cell :=
  Returned (CmmiMeasures.sprint_name c).

(** A writer that returns a mark and no more. *)
Definition write_mark (md : SprintMetadata.t) (s : Frame StaffMetrics.t)
    (t : Frame TeamMetrics.t) (c : CmmiMeasures.t) : outcome bool :=
  Returned true.

(** A data sheet whose metadata block is that of [metadata_sprint]. *)
Definition data_sheet_sprint (row column : nat) : cell :=
  if (column =? 3)%nat then
    match row with
    | 3%nat => CellText "Sprint 12"
    | 10%nat => CellNumber 40
    | 11%nat => CellNumber 38
    | 12%nat => CellNumber 300
    | 13%nat => CellNumber 320
    | 16%nat => CellNumber 16
    | 17%nat => CellNumber 600
    | 18%nat => CellNumber 640
    | _ => CellEmpty
    end
  else CellEmpty.

(** * Properties *)

(** ** Basic facts about the error monad and rationals *)

Lemma returns_Value {A : Type} (a : A) : returns (Value a).
Proof. now exists a. Qed.

Lemma Qeq_bool_false_iff (x y : Q) : Qeq_bool x y = false <-> ~ x == y.
Proof.
  split.
  - apply Qeq_bool_neq.
  - intros Hne. destruct (Qeq_bool x y) eqn:E; [|reflexivity].
    apply Qeq_bool_iff in E. contradiction.
Qed.

Lemma Qlt_bool_iff (a b : Q) : Qlt_bool a b = true <-> a < b.
Proof.
  unfold Qlt_bool. rewrite negb_true_iff. split.
  - intros Hb. apply Qnot_le_lt. intros Hle.
    apply Qle_bool_iff in Hle. congruence.
  - intros Hlt. destruct (Qle_bool b a) eqn:E; [|reflexivity].
    apply Qle_bool_iff in E. exfalso. apply (Qlt_not_le _ _ Hlt E).
Qed.

Lemma Qdiv_nonneg (a b : Q) : 0 <= a -> 0 <= b -> ~ b == 0 -> 0 <= a / b.
Proof.
  intros Ha Hb Hne.
  assert (Hpos : 0 < b).
  { apply Qle_lteq in Hb. destruct Hb as [Hlt | Heq]; [exact Hlt|].
    exfalso. apply Hne. symmetry. exact Heq. }
  apply Qle_shift_div_l; [exact Hpos|].
  rewrite Qmult_0_l. exact Ha.
Qed.

(** ** The ratio functions *)

Module RatioFacts.

Import SprintCalculator.

Lemma guarded_division_ok (a b : Q) :
  0 <= a -> 0 <= b ->
  ratio_ok (if Qeq_bool b 0 then Value 0 else py_div a b) b.
Proof.
  intros Ha Hb. unfold ratio_ok, py_div.
  destruct (Qeq_bool b 0) eqn:E.
  - exists 0. split; [reflexivity|]. split; [apply Qle_refl|reflexivity].
  - apply Qeq_bool_false_iff in E.
    exists (a / b). split; [reflexivity|]. split.
    + now apply Qdiv_nonneg.
    + intros Hz. contradiction.
Qed.

(** C1: on non-negative inputs each of the five ratio functions returns a
    value (it raises nothing), the value is at least 0, and it is exactly 0
    when the denominator is 0. *)
Theorem ratio_functions_total_nonneg (x y z : Q) :
  0 <= x -> 0 <= y -> 0 <= z ->
  ratio_ok (calculate_performance_rate x y z) (y + z) /\
  ratio_ok (calculate_utilization x y) y /\
  ratio_ok (calculate_done_tasks_percentage x y) y /\
  ratio_ok (calculate_midsprint_addition_percentage x y) y /\
  ratio_ok (calculate_adhoc_percentage x y) y.
Proof.
  intros Hx Hy Hz.
  assert (Hyz : 0 <= y + z).
  { rewrite <- (Qplus_0_l 0). now apply Qplus_le_compat. }
  unfold calculate_performance_rate, calculate_utilization,
    calculate_done_tasks_percentage, calculate_midsprint_addition_percentage,
    calculate_adhoc_percentage.
  repeat split; now apply guarded_division_ok.
Qed.

Lemma ratio_functions_total_nonneg_witness :
  ratio_ok (calculate_performance_rate 89 64 1) (64 + 1) /\
  ratio_ok (calculate_utilization 89 64) 64 /\
  ratio_ok (calculate_done_tasks_percentage 89 64) 64 /\
  ratio_ok (calculate_midsprint_addition_percentage 89 64) 64 /\
  ratio_ok (calculate_adhoc_percentage 89 64) 64.
Proof.
  apply (ratio_functions_total_nonneg 89 64 1); unfold Qle; simpl; lia.
Defined.

End RatioFacts.

(** ** The identity patterns *)

Module RegexFacts.

Import Regex SprintDataProcessor.

Section Equations.

Variables (re : regex) (cl : cclass) (pos gs ge : nat).

Lemma match_here_one (c : ascii) (s : list ascii) :
  match_here (AOne cl :: re) pos (c :: s) gs ge =
  if cclass_matches cl c then match_here re (S pos) s gs ge else None.
Proof. reflexivity. Qed.

Lemma match_here_plus_nil :
  match_here (APlusLazy cl :: re) pos [] gs ge = None.
Proof. reflexivity. Qed.

Lemma match_here_plus_cons (c : ascii) (s : list ascii) :
  match_here (APlusLazy cl :: re) pos (c :: s) gs ge =
  if cclass_matches cl c then
    match match_here re (S pos) s gs ge with
    | Some r => Some r
    | None => match_here (APlusLazy cl :: re) (S pos) s gs ge
    end
  else None.
Proof. reflexivity. Qed.

Lemma match_here_star_nil :
  match_here (AStar cl :: re) pos [] gs ge = match_here re pos [] gs ge.
Proof. reflexivity. Qed.

Lemma match_here_star_cons (c : ascii) (s : list ascii) :
  match_here (AStar cl :: re) pos (c :: s) gs ge =
  if cclass_matches cl c then
    match match_here (AStar cl :: re) (S pos) s gs ge with
    | Some r => Some r
    | None => match_here re pos (c :: s) gs ge
    end
  else match_here re pos (c :: s) gs ge.
Proof. reflexivity. Qed.

End Equations.

Lemma match_here_close (re : regex) (pos gs ge : nat) (s : list ascii) :
  match_here (AClose :: re) pos s gs ge = match_here re pos s gs pos.
Proof. reflexivity. Qed.

Lemma slice_middle (p m r : list ascii) :
  slice (p ++ m ++ r) (List.length p) (List.length p + List.length m) = m.
Proof.
  unfold slice.
  replace (List.length p + List.length m - List.length p)%nat
    with (List.length m) by lia.
  rewrite skipn_app, skipn_all, Nat.sub_diag. simpl.
  rewrite firstn_app, firstn_all, Nat.sub_diag. simpl.
  apply app_nil_r.
Qed.

(** *** The tail [\s*<] of the name pattern *)

Lemma spaces_then_bracket_matches (w t : list ascii) (pos gs ge : nat) :
  forallb is_space w = true ->
  match_here spaces_then_bracket pos (w ++ "<"%char :: t) gs ge
  = Some (gs, ge).
Proof.
  unfold spaces_then_bracket. revert pos.
  induction w as [|c w IH]; intros pos Hw.
  - reflexivity.
  - simpl in Hw. apply andb_true_iff in Hw as [Hc Hw].
    change ((c :: w) ++ "<"%char :: t) with (c :: (w ++ "<"%char :: t)).
    rewrite match_here_star_cons. unfold cclass_matches at 1. rewrite Hc.
    now rewrite IH.
Qed.

Lemma bracket_fails (c : ascii) (s : list ascii) (pos gs ge : nat) :
  Ascii.eqb c "<" = false ->
  match_here [AOne (CChar "<")] pos (c :: s) gs ge = None.
Proof.
  intros Hc. rewrite match_here_one. unfold cclass_matches.
  destruct (Ascii.eqb_spec "<" c) as [<- | _]; [|reflexivity].
  rewrite Ascii.eqb_refl in Hc. discriminate Hc.
Qed.

Lemma plain_name_cons (c : ascii) (n : list ascii) :
  plain_name (c :: n) = true ->
  Ascii.eqb c "<" = false /\ Ascii.eqb c newline = false /\
  (n = [] /\ is_space c = false \/ plain_name n = true).
Proof.
  unfold plain_name. intros H.
  apply andb_true_iff in H as [Hlast Hall].
  simpl forallb in Hall. apply andb_true_iff in Hall as [Hc Hall].
  apply andb_true_iff in Hc as [Hc1 Hc2].
  apply negb_true_iff in Hc1, Hc2.
  split; [exact Hc1|]. split; [exact Hc2|].
  destruct n as [|d n].
  - left. split; [reflexivity|]. simpl in Hlast.
    now apply negb_true_iff in Hlast.
  - right. change (last (c :: d :: n) " "%char) with (last (d :: n) " "%char)
      in Hlast.
    now rewrite Hlast, Hall.
Qed.

(** Inside the name part the tail [\s*<] cannot match. *)
Lemma spaces_then_bracket_fails (n w t : list ascii) (pos gs ge : nat) :
  plain_name n = true ->
  match_here spaces_then_bracket pos (n ++ w ++ "<"%char :: t) gs ge = None.
Proof.
  unfold spaces_then_bracket. revert pos.
  induction n as [|c n IH]; intros pos Hn.
  - discriminate Hn.
  - apply plain_name_cons in Hn as (Hlt & _ & Hrest).
    change ((c :: n) ++ w ++ "<"%char :: t)
      with (c :: (n ++ w ++ "<"%char :: t)).
    rewrite match_here_star_cons. unfold cclass_matches at 1.
    destruct Hrest as [[-> Hsp] | Hn'].
    + rewrite Hsp. now apply bracket_fails.
    + rewrite IH by exact Hn'.
      destruct (is_space c); now apply bracket_fails.
Qed.

Lemma spaces_then_bracket_none (s : list ascii) (pos gs ge : nat) :
  no_open_bracket s = true ->
  match_here spaces_then_bracket pos s gs ge = None.
Proof.
  unfold spaces_then_bracket, no_open_bracket. revert pos.
  induction s as [|c s IH]; intros pos Hs.
  - reflexivity.
  - simpl in Hs. apply andb_true_iff in Hs as [Hc Hs].
    apply negb_true_iff in Hc.
    rewrite match_here_star_cons, IH by exact Hs.
    destruct (cclass_matches CSpace c); now apply bracket_fails.
Qed.

(** *** The name pattern *)

Lemma name_body_matches (n w t : list ascii) (pos gs ge : nat) :
  plain_name n = true ->
  forallb is_space w = true ->
  match_here name_body pos (n ++ w ++ "<"%char :: t) gs ge
  = Some (gs, (pos + List.length n)%nat).
Proof.
  unfold name_body. revert pos.
  induction n as [|c n IH]; intros pos Hn Hw.
  - discriminate Hn.
  - apply plain_name_cons in Hn as (_ & Hnl & Hrest).
    change ((c :: n) ++ w ++ "<"%char :: t)
      with (c :: (n ++ w ++ "<"%char :: t)).
    rewrite match_here_plus_cons. unfold cclass_matches.
    unfold newline in Hnl. rewrite Hnl. simpl negb. cbv iota.
    rewrite match_here_close.
    destruct Hrest as [[-> _] | Hn'].
    + change ([] ++ w ++ "<"%char :: t) with (w ++ "<"%char :: t).
      fold spaces_then_bracket.
      rewrite spaces_then_bracket_matches by exact Hw.
      simpl List.length. f_equal. f_equal. lia.
    + fold spaces_then_bracket.
      rewrite spaces_then_bracket_fails by exact Hn'.
      rewrite IH by assumption.
      simpl List.length. f_equal. f_equal. lia.
Qed.

Lemma name_body_none (s : list ascii) (pos gs ge : nat) :
  no_open_bracket s = true ->
  match_here name_body pos s gs ge = None.
Proof.
  unfold name_body. revert pos.
  induction s as [|c s IH]; intros pos Hs.
  - reflexivity.
  - pose proof Hs as Hs0. unfold no_open_bracket in Hs. simpl in Hs.
    apply andb_true_iff in Hs as [_ Hs].
    rewrite match_here_plus_cons, match_here_close.
    fold spaces_then_bracket.
    rewrite spaces_then_bracket_none by exact Hs.
    rewrite IH by exact Hs.
    now destruct (cclass_matches CDot c).
Qed.

Lemma name_pattern_late (s : list ascii) (pos : nat) :
  search_from name_pattern (S pos) s = None.
Proof.
  revert pos. induction s as [|c s IH]; intros pos.
  - reflexivity.
  - simpl search_from. change (match_here name_pattern (S pos) (c :: s) 0 0)%nat
      with (@None (nat * nat)). apply IH.
Qed.

Lemma search_from_cons (re : regex) (pos : nat) (c : ascii)
    (s : list ascii) :
  search_from re pos (c :: s) =
  match match_here re pos (c :: s) 0 0 with
  | Some r => Some r
  | None => search_from re (S pos) s
  end.
Proof. reflexivity. Qed.

Lemma search_from_hit (re : regex) (pos : nat) (s : list ascii)
    (r : nat * nat) :
  match_here re pos s 0 0 = Some r -> search_from re pos s = Some r.
Proof. intros Hm. destruct s; simpl search_from; now rewrite Hm. Qed.

Lemma name_search_matches (n w t : list ascii) :
  plain_name n = true ->
  forallb is_space w = true ->
  search name_pattern (n ++ w ++ "<"%char :: t)
  = Some (0%nat, List.length n).
Proof.
  intros Hn Hw. unfold search. apply search_from_hit.
  change (match_here name_pattern 0 (n ++ w ++ "<"%char :: t) 0 0)
    with (match_here name_body 0 (n ++ w ++ "<"%char :: t) 0 0).
  now rewrite name_body_matches.
Qed.

Lemma name_search_none (s : list ascii) :
  no_open_bracket s = true -> search name_pattern s = None.
Proof.
  intros Hs. unfold search.
  assert (Hm : match_here name_pattern 0 s 0 0 = None).
  { change (match_here name_pattern 0 s 0 0)
      with (match_here name_body 0 s 0 0).
    now apply name_body_none. }
  destruct s as [|c s].
  - reflexivity.
  - rewrite search_from_cons, Hm. apply name_pattern_late.
Qed.

(** *** The email pattern *)

Lemma plain_email_cons (c : ascii) (e : list ascii) :
  plain_email (c :: e) = true ->
  Ascii.eqb c ">" = false /\ Ascii.eqb c newline = false /\
  (e = [] \/ plain_email e = true).
Proof.
  unfold plain_email. intros H.
  apply andb_true_iff in H as [_ Hall].
  simpl forallb in Hall. apply andb_true_iff in Hall as [Hc Hall].
  apply andb_true_iff in Hc as [Hc1 Hc2].
  apply negb_true_iff in Hc1, Hc2.
  split; [exact Hc1|]. split; [exact Hc2|].
  destruct e as [|d e]; [now left|right].
  now rewrite Hall.
Qed.

Lemma email_body_matches (e t : list ascii) (pos gs ge : nat) :
  plain_email e = true ->
  match_here email_body pos (e ++ ">"%char :: t) gs ge
  = Some (gs, (pos + List.length e)%nat).
Proof.
  unfold email_body. revert pos.
  induction e as [|c e IH]; intros pos He.
  - discriminate He.
  - pose proof (plain_email_cons _ _ He) as (_ & Hnl & Hrest).
    change ((c :: e) ++ ">"%char :: t) with (c :: (e ++ ">"%char :: t)).
    rewrite match_here_plus_cons. unfold cclass_matches at 1.
    unfold newline in Hnl. rewrite Hnl. simpl negb. cbv iota.
    rewrite match_here_close.
    destruct Hrest as [-> | He'].
    + simpl. f_equal. f_equal. lia.
    + destruct e as [|d e]; [discriminate He'|].
      pose proof (plain_email_cons _ _ He') as (Hgt & _ & _).
      change ((d :: e) ++ ">"%char :: t) with (d :: (e ++ ">"%char :: t)).
      rewrite match_here_one. unfold cclass_matches at 1.
      rewrite Ascii.eqb_sym, Hgt.
      change (d :: (e ++ ">"%char :: t)) with ((d :: e) ++ ">"%char :: t).
      rewrite IH by exact He'.
      simpl List.length. f_equal. f_equal. lia.
Qed.

Lemma email_pattern_skips (c : ascii) (s : list ascii) (pos : nat) :
  Ascii.eqb c "<" = false ->
  search_from email_pattern pos (c :: s)
  = search_from email_pattern (S pos) s.
Proof.
  intros Hc. rewrite search_from_cons.
  unfold email_pattern at 1. rewrite match_here_one. unfold cclass_matches.
  rewrite Ascii.eqb_sym. now rewrite Hc.
Qed.

Lemma email_search_skips (p rest : list ascii) (pos : nat) :
  no_open_bracket p = true ->
  search_from email_pattern pos (p ++ rest)
  = search_from email_pattern (pos + List.length p) rest.
Proof.
  unfold no_open_bracket. revert pos.
  induction p as [|c p IH]; intros pos Hp.
  - simpl. now rewrite Nat.add_0_r.
  - simpl in Hp. apply andb_true_iff in Hp as [Hc Hp].
    apply negb_true_iff in Hc.
    change ((c :: p) ++ rest) with (c :: (p ++ rest)).
    rewrite email_pattern_skips by exact Hc.
    rewrite IH by exact Hp. simpl List.length. f_equal. lia.
Qed.

Lemma email_search_none (s : list ascii) :
  no_open_bracket s = true -> search email_pattern s = None.
Proof.
  intros Hs. unfold search.
  rewrite <- (app_nil_r s), email_search_skips by exact Hs.
  reflexivity.
Qed.

Lemma space_is_no_bracket (c : ascii) :
  is_space c = true -> Ascii.eqb c "<" = false.
Proof.
  intros Hc. destruct (Ascii.eqb_spec c "<") as [-> | _]; [|reflexivity].
  discriminate Hc.
Qed.

Lemma name_and_spaces_no_bracket (n w : list ascii) :
  plain_name n = true ->
  forallb is_space w = true ->
  no_open_bracket (n ++ w) = true.
Proof.
  unfold plain_name, no_open_bracket. intros Hn Hw.
  apply andb_true_iff in Hn as [_ Hn].
  rewrite forallb_app. apply andb_true_iff. split.
  - rewrite forallb_forall in *. intros c Hc.
    specialize (Hn c Hc). now apply andb_true_iff in Hn as [Hn _].
  - rewrite forallb_forall in *. intros c Hc.
    apply negb_true_iff. apply space_is_no_bracket. now apply Hw.
Qed.

Lemma email_search_matches (n w e t : list ascii) :
  plain_name n = true ->
  forallb is_space w = true ->
  plain_email e = true ->
  search email_pattern (n ++ w ++ "<"%char :: e ++ ">"%char :: t)
  = Some (S (List.length (n ++ w)),
          (S (List.length (n ++ w)) + List.length e)%nat).
Proof.
  intros Hn Hw He. unfold search.
  rewrite app_assoc.
  rewrite email_search_skips by now apply name_and_spaces_no_bracket.
  simpl Nat.add.
  set (p := List.length (n ++ w)).
  assert (Hm : match_here email_pattern p
                 ("<"%char :: e ++ ">"%char :: t) 0 0
               = Some (S p, (S p + List.length e)%nat)).
  { change (match_here email_pattern p ("<"%char :: e ++ ">"%char :: t) 0 0)
      with (match_here email_body (S p) (e ++ ">"%char :: t) (S p) 0).
    now apply email_body_matches. }
  now apply search_from_hit.
Qed.

End RegexFacts.

(** ** Record normalizer *)

Module NormalizerFacts.

Import Regex SprintDataProcessor RegexFacts.

Lemma row_identity_eq (r : RawRow.t) :
  row_identity r =
  (extract_name (RawRow.Assigned_To r), extract_email (RawRow.Assigned_To r)).
Proof. reflexivity. Qed.

Lemma extract_name_pair (n w e t : list ascii) :
  plain_name n = true ->
  forallb is_space w = true ->
  extract_name (Some (combined n w e t)) = Some (string_of_list_ascii n).
Proof.
  intros Hn Hw. unfold extract_name, str_extract, combined.
  rewrite list_ascii_of_string_of_list_ascii.
  rewrite name_search_matches by assumption.
  f_equal. f_equal.
  change (n ++ w ++ "<"%char :: e ++ ">"%char :: t)
    with ([] ++ n ++ (w ++ "<"%char :: e ++ ">"%char :: t)).
  apply (slice_middle [] n).
Qed.

Lemma extract_email_pair (n w e t : list ascii) :
  plain_name n = true ->
  forallb is_space w = true ->
  plain_email e = true ->
  extract_email (Some (combined n w e t)) = Some (string_of_list_ascii e).
Proof.
  intros Hn Hw He. unfold extract_email, str_extract, combined.
  rewrite list_ascii_of_string_of_list_ascii.
  rewrite email_search_matches by assumption.
  f_equal. f_equal.
  replace (n ++ w ++ "<"%char :: e ++ ">"%char :: t)
    with (((n ++ w) ++ ["<"%char]) ++ e ++ (">"%char :: t)).
  2:{ rewrite <- !app_assoc. reflexivity. }
  replace (S (List.length (n ++ w)))
    with (List.length ((n ++ w) ++ ["<"%char])).
  2:{ rewrite (length_app (n ++ w)). simpl. lia. }
  apply slice_middle.
Qed.

(** C6, as the code has it: the identity columns of a row are those of the
    shape of its combined string.  For [n w <e> t] the name is [n] and the
    email [e], whatever follows in [t], so the first pair counts; white
    space is dropped between name and bracket only; a string without [<],
    or a missing cell, gives two absent fields. *)
Theorem identity_follows_first_pair (r : RawRow.t)
    (expected : option string * option string) :
  identity_shape (RawRow.Assigned_To r) expected ->
  row_identity r = expected.
Proof.
  intros Hshape. rewrite row_identity_eq.
  destruct Hshape as [n w e t Hn Hw He | s Hs | ].
  - now rewrite extract_name_pair, extract_email_pair.
  - unfold extract_name, extract_email, str_extract.
    now rewrite name_search_none, email_search_none.
  - reflexivity.
Qed.

Lemma identity_follows_first_pair_witness :
  identity_shape (RawRow.Assigned_To row_ahmed)
    (Some "Ahmed Talaat"%string, Some "atalaat@youxel.com"%string) /\
  row_identity row_ahmed
  = (Some "Ahmed Talaat"%string, Some "atalaat@youxel.com"%string).
Proof.
  assert (Hshape : identity_shape (RawRow.Assigned_To row_ahmed)
            (Some "Ahmed Talaat"%string, Some "atalaat@youxel.com"%string)).
  { exact (shape_pair (list_ascii_of_string "Ahmed Talaat")
             (list_ascii_of_string " ")
             (list_ascii_of_string "atalaat@youxel.com") []
             eq_refl eq_refl eq_refl). }
  split; [exact Hshape|].
  exact (identity_follows_first_pair row_ahmed _ Hshape).
Defined.

(** With two bracket pairs the patterns take the first pair, the reading
    of the design document the last one. *)
Lemma identity_last_pair_counterexample :
  row_identity row_two_pairs = (Some "A"%string, Some "x"%string) /\
  spec_identity (RawRow.Assigned_To row_two_pairs)
  = (Some "A <x>"%string, Some "y"%string) /\
  row_identity row_two_pairs
  <> spec_identity (RawRow.Assigned_To row_two_pairs).
Proof.
  split; [reflexivity|]. split; [reflexivity|].
  vm_compute. discriminate.
Qed.

(** Leading white space of the name is kept. *)
Example identity_keeps_leading_space :
  row_identity (raw_row (Some "  Bob   <b@c>"%string) None None None 0 0 0)
  = (Some "  Bob"%string, Some "b@c"%string).
Proof. reflexivity. Qed.

(** A [<] that is never closed still gives a name. *)
Example identity_unclosed_bracket :
  row_identity (raw_row (Some "Bob <"%string) None None None 0 0 0)
  = (Some "Bob"%string, None).
Proof. reflexivity. Qed.

End NormalizerFacts.

(** ** Group-by *)

Module GroupByFacts.

Import SprintDataProcessor.

Section Generic.

Variable K : Type.
Variable cmp : K -> K -> comparison.
Variable key : WorkItem.t -> option K.
Hypothesis cmp_eq : forall a b, cmp a b = Eq <-> a = b.


Lemma key_eqb_eq (a b : K) : key_eqb cmp a b = true <-> a = b.
Proof.
  unfold key_eqb. rewrite <- cmp_eq.
  destruct (cmp a b); split; congruence.
Qed.

Lemma key_eqb_refl (a : K) : key_eqb cmp a a = true.
Proof. now apply key_eqb_eq. Qed.

Lemma key_eqb_neq (a b : K) : key_eqb cmp a b = false <-> a <> b.
Proof.
  rewrite <- key_eqb_eq. destruct (key_eqb cmp a b); split; congruence.
Qed.

Lemma in_group_iff (k : K) (r : WorkItem.t) :
  in_group cmp key k r = true <-> key r = Some k.
Proof.
  unfold in_group. destruct (key r) as [k'|].
  - rewrite key_eqb_eq. split; congruence.
  - split; discriminate.
Qed.

Lemma In_key_list (items : list WorkItem.t) (k : K) :
  In k (key_list key items) <-> exists r, In r items /\ key r = Some k.
Proof.
  induction items as [|r items IH]; simpl.
  - split; [tauto|]. now intros (r & [] & _).
  - destruct (key r) as [k'|] eqn:E; simpl; rewrite IH; split.
    + intros [-> | (r' & Hin & Hk)]; [now exists r; auto|].
      exists r'; auto.
    + intros (r' & [<- | Hin] & Hk); [left; congruence|].
      right. now exists r'.
    + intros (r' & Hin & Hk). exists r'; auto.
    + intros (r' & [<- | Hin] & Hk); [congruence|]. now exists r'.
Qed.

Lemma In_distinct (l : list K) (k : K) : In k (distinct cmp l) <-> In k l.
Proof.
  induction l as [|a l IH]; simpl; [tauto|].
  rewrite filter_In, IH, negb_true_iff, key_eqb_neq.
  split.
  - intros [-> | [Hin _]]; auto.
  - intros [-> | Hin]; [now left|].
    destruct (key_eqb cmp a k) eqn:E.
    + left. now apply key_eqb_eq.
    + right. split; [exact Hin|]. now apply key_eqb_neq.
Qed.

Lemma NoDup_filter {A : Type} (f : A -> bool) (l : list A) :
  NoDup l -> NoDup (filter f l).
Proof.
  induction 1 as [|a l Hnotin Hnd IH]; simpl; [constructor|].
  destruct (f a); [|exact IH].
  constructor; [|exact IH].
  rewrite filter_In. tauto.
Qed.

Lemma NoDup_distinct (l : list K) : NoDup (distinct cmp l).
Proof.
  induction l as [|a l IH]; simpl; constructor.
  - rewrite filter_In, negb_true_iff, key_eqb_neq. tauto.
  - now apply NoDup_filter.
Qed.

Lemma insert_sorted_perm (k : K) (l : list K) :
  Permutation (k :: l) (insert_sorted cmp k l).
Proof.
  induction l as [|a l IH]; simpl; [reflexivity|].
  destruct (cmp k a); try reflexivity.
  rewrite perm_swap. now constructor.
Qed.

Lemma sort_keys_perm (l : list K) : Permutation l (sort_keys cmp l).
Proof.
  induction l as [|a l IH]; simpl; [constructor|].
  rewrite <- insert_sorted_perm. now constructor.
Qed.

Lemma NoDup_group_keys (items : list WorkItem.t) :
  NoDup (group_keys cmp key items).
Proof.
  unfold group_keys.
  eapply Permutation_NoDup; [apply sort_keys_perm|apply NoDup_distinct].
Qed.

Lemma In_group_keys (items : list WorkItem.t) (k : K) :
  In k (group_keys cmp key items) <-> exists r, In r items /\ key r = Some k.
Proof.
  unfold group_keys.
  rewrite <- In_key_list, <- (In_distinct (key_list key items) k). split.
  - apply Permutation_in. symmetry. apply sort_keys_perm.
  - apply Permutation_in. apply sort_keys_perm.
Qed.

(** A row is in a group exactly when it has a key, and then the group is
    that of its key. *)
Lemma in_some_group (items : list WorkItem.t) (r : WorkItem.t) :
  In r items ->
  ((exists g, In g (groupby cmp key items) /\ In r (snd g)) <-> key r <> None).
Proof.
  intros Hr. unfold groupby. split.
  - intros (g & Hg & Hin). apply in_map_iff in Hg as (k & <- & _).
    simpl in Hin. apply filter_In in Hin as [_ Hin].
    apply in_group_iff in Hin. congruence.
  - intros Hk. destruct (key r) as [k|] eqn:E; [|congruence].
    exists (k, filter (in_group cmp key k) items). split.
    + apply in_map_iff. exists k. split; [reflexivity|].
      apply In_group_keys. now exists r.
    + simpl. apply filter_In. split; [exact Hr|]. now apply in_group_iff.
Qed.

Lemma group_member_key (items : list WorkItem.t)
    (g : K * list WorkItem.t) (r : WorkItem.t) :
  In g (groupby cmp key items) -> In r (snd g) -> key r = Some (fst g).
Proof.
  unfold groupby. intros Hg Hin.
  apply in_map_iff in Hg as (k & <- & _). simpl in *.
  apply filter_In in Hin as [_ Hin]. now apply in_group_iff.
Qed.

(** *** Counting *)

Lemma one_group_per_key (ks : list K) (k0 : K) :
  NoDup ks -> In k0 ks ->
  list_sum (map (fun k => if key_eqb cmp k k0 then 1 else 0)%nat ks) = 1%nat.
Proof.
  induction 1 as [|a ks Hnotin Hnd IH]; simpl; [tauto|].
  intros [-> | Hin].
  - rewrite key_eqb_refl.
    assert (Hz : list_sum
                   (map (fun k => if key_eqb cmp k k0 then 1 else 0)%nat ks)
                 = 0%nat).
    { clear IH Hnd. induction ks as [|b ks IHks]; simpl; [reflexivity|].
      destruct (key_eqb cmp b k0) eqn:E.
      - apply key_eqb_eq in E. subst. exfalso. apply Hnotin. now left.
      - apply IHks. intros Hin. apply Hnotin. now right. }
    rewrite Hz. reflexivity.
  - destruct (key_eqb cmp a k0) eqn:E.
    + apply key_eqb_eq in E. subst. contradiction.
    + now rewrite IH.
Qed.

Lemma no_group_without_key (ks : list K) (r : WorkItem.t) :
  key r = None ->
  list_sum (map (fun k => if in_group cmp key k r then 1 else 0)%nat ks)
  = 0%nat.
Proof.
  intros Hk. unfold in_group. rewrite Hk.
  induction ks; simpl; auto.
Qed.

Lemma list_sum_map_add {A : Type} (f g : A -> nat) (l : list A) :
  list_sum (map (fun a => f a + g a)%nat l)
  = (list_sum (map f l) + list_sum (map g l))%nat.
Proof. induction l as [|a l IH]; simpl; [reflexivity|]. rewrite IH. lia. Qed.

Lemma group_sizes_covering (ks : list K) (items : list WorkItem.t) :
  NoDup ks ->
  (forall r k, In r items -> key r = Some k -> In k ks) ->
  list_sum (map (fun k => List.length (filter (in_group cmp key k) items)) ks)
  = count_true (has_key key) items.
Proof.
  intros Hnd. induction items as [|r items IH]; intros Hcov.
  - simpl. clear. induction ks; simpl; auto.
  - assert (Hstep : forall k,
              List.length (filter (in_group cmp key k) (r :: items))
              = ((if in_group cmp key k r then 1 else 0)
                 + List.length (filter (in_group cmp key k) items))%nat).
    { intros k. simpl. now destruct (in_group cmp key k r). }
    rewrite (map_ext _ _ Hstep), list_sum_map_add, IH.
    2:{ intros r' k Hin. apply Hcov. now right. }
    unfold count_true, has_key. simpl filter.
    destruct (key r) as [k0|] eqn:E.
    + assert (Hin : In k0 ks) by (apply (Hcov r); [now left|exact E]).
      unfold in_group. rewrite E.
      rewrite (one_group_per_key ks k0 Hnd Hin). reflexivity.
    + rewrite no_group_without_key by exact E. reflexivity.
Qed.

(** The sizes of the groups add up to the number of rows with a key. *)
Lemma group_sizes_total (items : list WorkItem.t) :
  list_sum (map (fun g => List.length (snd g)) (groupby cmp key items))
  = count_true (has_key key) items.
Proof.
  unfold groupby. rewrite map_map. simpl.
  apply group_sizes_covering.
  - apply NoDup_group_keys.
  - intros r k Hin Hk. apply In_group_keys. now exists r.
Qed.

End Generic.

End GroupByFacts.

(** ** Frames *)

Lemma require_ok {R : Type} (df : Frame R) (label : string) :
  has_column df label = true -> require df label = Value tt.
Proof. unfold require. now intros ->. Qed.

Lemma require_all_ok {R : Type} (df : Frame R) (labels : list string) :
  has_columns df labels = true ->
  SprintDataProcessor.require_all df labels = Value tt.
Proof.
  unfold has_columns. induction labels as [|c labels IH]; simpl.
  - reflexivity.
  - intros H. apply andb_true_iff in H as [Hc H].
    rewrite (require_ok _ _ Hc). simpl. now apply IH.
Qed.

(** Split a hypothesis [has_columns df [c1; ...; cn] = true] into one fact
    per label. *)
Ltac split_columns H :=
  unfold has_columns in H; simpl forallb in H;
  repeat match type of H with
         | (_ && _)%bool = true =>
             let Hc := fresh "Hcol" in
             apply andb_true_iff in H as [Hc H]
         end.

Ltac columns_present :=
  repeat match goal with
         | Hc : has_column ?df ?c = true |- context [require ?df ?c] =>
             rewrite (require_ok df c Hc); cbn [bind]
         end.

(** ** Aggregator *)

Module AggregatorFacts.

Import SprintDataProcessor.

Lemma ascii_compare_refl (a : ascii) : Ascii.compare a a = Eq.
Proof. unfold Ascii.compare. apply N.compare_refl. Qed.

Lemma string_compare_refl (s : string) : String.compare s s = Eq.
Proof.
  induction s as [|a s IH]; simpl; [reflexivity|].
  now rewrite ascii_compare_refl.
Qed.

Lemma string_compare_eq (a b : string) : String.compare a b = Eq <-> a = b.
Proof.
  split; [apply String.compare_eq_iff|].
  intros ->. apply string_compare_refl.
Qed.

Lemma staff_key_compare_eq (a b : string * string * string) :
  staff_key_compare a b = Eq <-> a = b.
Proof.
  destruct a as [[e1 n1] t1], b as [[e2 n2] t2]. unfold staff_key_compare.
  split.
  - destruct (String.compare e1 e2) eqn:He; try discriminate.
    destruct (String.compare n1 n2) eqn:Hn; try discriminate.
    intros Ht.
    apply string_compare_eq in He, Hn, Ht. congruence.
  - intros [= -> -> ->]. now rewrite !string_compare_refl.
Qed.

Lemma staff_key_present (r : WorkItem.t) :
  staff_key r <> None <->
  present (WorkItem.staff_email r) /\ present (WorkItem.staff_name r) /\
  present (WorkItem.team r).
Proof.
  unfold staff_key, present.
  destruct (WorkItem.staff_email r), (WorkItem.staff_name r),
    (WorkItem.team r); split; try congruence; intuition congruence.
Qed.

Lemma aggregate_by_staff_eq (df : Frame WorkItem.t) :
  has_columns df group_columns = true ->
  aggregate_by_staff df = Value (map staff_aggregate (staff_groups (rows df))).
Proof.
  intros H. unfold aggregate_by_staff.
  rewrite !require_all_ok; [reflexivity| |]; split_columns H;
    unfold has_columns; simpl forallb;
    repeat (apply andb_true_iff; split); auto.
Qed.

Lemma aggregate_by_team_eq (df : Frame WorkItem.t) :
  has_columns df group_columns = true ->
  aggregate_by_team df = Value (map team_aggregate (team_groups (rows df))).
Proof.
  intros H. unfold aggregate_by_team.
  rewrite require_ok, require_all_ok; [reflexivity| |]; split_columns H;
    unfold has_columns; simpl forallb;
    repeat (apply andb_true_iff; split); auto.
Qed.

Lemma count_true_le {A : Type} (f g : A -> bool) (l : list A) :
  (forall a, In a l -> f a = true -> g a = true) ->
  (count_true f l <= count_true g l)%nat.
Proof.
  unfold count_true. induction l as [|a l IH]; intros Hfg; simpl; [lia|].
  assert (IH' : (List.length (filter f l) <= List.length (filter g l))%nat).
  { apply IH. intros b Hb. apply Hfg. now right. }
  destruct (f a) eqn:Ef.
  - rewrite (Hfg a (or_introl eq_refl) Ef). simpl. lia.
  - destruct (g a); simpl; lia.
Qed.

Lemma count_true_length {A : Type} (f : A -> bool) (l : list A) :
  (count_true f l <= List.length l)%nat.
Proof. apply filter_length_le. Qed.

Lemma staff_total_eq (items : list WorkItem.t) :
  staff_total (map staff_aggregate (staff_groups items))
  = count_true (has_key staff_key) items.
Proof.
  unfold staff_total, staff_groups. rewrite map_map.
  rewrite <- (GroupByFacts.group_sizes_total _ _ staff_key
                staff_key_compare_eq items).
  f_equal. apply map_ext. now intros [[[e n] t] l].
Qed.

Lemma team_total_eq (items : list WorkItem.t) :
  team_total (map team_aggregate (team_groups items))
  = count_true (has_key team_key) items.
Proof.
  unfold team_total, team_groups. rewrite map_map.
  rewrite <- (GroupByFacts.group_sizes_total _ _ team_key
                string_compare_eq items).
  f_equal. apply map_ext. now intros [t l].
Qed.

Lemma has_staff_key_team (r : WorkItem.t) :
  has_key staff_key r = true -> has_key team_key r = true.
Proof.
  unfold has_key, staff_key, team_key.
  now destruct (WorkItem.staff_email r), (WorkItem.staff_name r),
    (WorkItem.team r).
Qed.

Lemma done_le_total_staff (items : list WorkItem.t) :
  Forall (fun a => (StaffAggregate.done_count a
                    <= StaffAggregate.total_count a)%nat)
    (map staff_aggregate (staff_groups items)).
Proof.
  apply Forall_forall. intros a Ha.
  apply in_map_iff in Ha as ([[[e n] t] l] & <- & _). simpl.
  apply count_true_length.
Qed.

Lemma done_le_total_team (items : list WorkItem.t) :
  Forall (fun a => (TeamAggregate.done_count a
                    <= TeamAggregate.total_count a)%nat)
    (map team_aggregate (team_groups items)).
Proof.
  apply Forall_forall. intros a Ha.
  apply in_map_iff in Ha as ([t l] & <- & _). simpl.
  apply count_true_length.
Qed.

(** C5, as the code has it: each pass counts the work items that have its
    own key.  The staff total is the number of items with email, name and
    team; the team total the number of items with a team; the first is at
    most the second, with equality when every item that has a team has an
    email and a name as well.  In every group [done_count <= total_count]. *)
Theorem aggregation_totals (df : Frame WorkItem.t) :
  has_columns df group_columns = true ->
  exists staff_agg team_agg,
    aggregate_by_staff df = Value staff_agg /\
    aggregate_by_team df = Value team_agg /\
    staff_total staff_agg = count_true (has_key staff_key) (rows df) /\
    team_total team_agg = count_true (has_key team_key) (rows df) /\
    (staff_total staff_agg <= team_total team_agg)%nat /\
    ((forall r, In r (rows df) -> present (WorkItem.team r) ->
        present (WorkItem.staff_email r) /\ present (WorkItem.staff_name r)) ->
     staff_total staff_agg = team_total team_agg) /\
    Forall (fun a => (StaffAggregate.done_count a
                      <= StaffAggregate.total_count a)%nat) staff_agg /\
    Forall (fun a => (TeamAggregate.done_count a
                      <= TeamAggregate.total_count a)%nat) team_agg.
Proof.
  intros Hcols.
  exists (map staff_aggregate (staff_groups (rows df))),
         (map team_aggregate (team_groups (rows df))).
  rewrite staff_total_eq, team_total_eq.
  repeat split.
  - now apply aggregate_by_staff_eq.
  - now apply aggregate_by_team_eq.
  - apply count_true_le. intros r _. apply has_staff_key_team.
  - intros Hall. apply Nat.le_antisymm.
    + apply count_true_le. intros r _. apply has_staff_key_team.
    + apply count_true_le. intros r Hr Ht.
      assert (Hteam : present (WorkItem.team r)).
      { unfold has_key, team_key in Ht. unfold present.
        now destruct (WorkItem.team r). }
      destruct (Hall r Hr Hteam) as [He Hn].
      unfold has_key, staff_key, present in *.
      now destruct (WorkItem.staff_email r), (WorkItem.staff_name r),
        (WorkItem.team r).
  - apply done_le_total_staff.
  - apply done_le_total_team.
Qed.

Lemma aggregation_totals_witness :
  has_columns (processed sheet_one_unassigned) group_columns = true /\
  exists staff_agg team_agg,
    aggregate_by_staff (processed sheet_one_unassigned) = Value staff_agg /\
    aggregate_by_team (processed sheet_one_unassigned) = Value team_agg /\
    staff_total staff_agg
    = count_true (has_key staff_key) (rows (processed sheet_one_unassigned)) /\
    team_total team_agg
    = count_true (has_key team_key) (rows (processed sheet_one_unassigned)) /\
    (staff_total staff_agg <= team_total team_agg)%nat /\
    ((forall r, In r (rows (processed sheet_one_unassigned)) ->
        present (WorkItem.team r) ->
        present (WorkItem.staff_email r) /\ present (WorkItem.staff_name r)) ->
     staff_total staff_agg = team_total team_agg) /\
    Forall (fun a => (StaffAggregate.done_count a
                      <= StaffAggregate.total_count a)%nat) staff_agg /\
    Forall (fun a => (TeamAggregate.done_count a
                      <= TeamAggregate.total_count a)%nat) team_agg.
Proof.
  split; [reflexivity|].
  apply (aggregation_totals (processed sheet_one_unassigned)).
  reflexivity.
Defined.

(** One work item has a team but no assignee: the staff pass counts one
    item and the team pass two. *)
Lemma partition_totals_counterexample :
  exists staff_agg team_agg,
    aggregate_by_staff (processed sheet_one_unassigned) = Value staff_agg /\
    aggregate_by_team (processed sheet_one_unassigned) = Value team_agg /\
    staff_total staff_agg = 1%nat /\
    team_total team_agg = 2%nat /\
    staff_total staff_agg <> team_total team_agg.
Proof.
  eexists. eexists.
  split; [vm_compute; reflexivity|].
  split; [vm_compute; reflexivity|].
  split; [reflexivity|]. split; [reflexivity|].
  vm_compute. discriminate.
Qed.

(** A row whose activity is not in the mapping has no team, and so it is
    in no group of either pass. *)
Corollary unmapped_activity_dropped (raw : list RawRow.t) (r : RawRow.t) :
  series_map team_mapping (RawRow.Activity r) = None ->
  (forall g, In g (staff_groups (map process_row raw)) ->
     ~ In (process_row r) (snd g)) /\
  (forall g, In g (team_groups (map process_row raw)) ->
     ~ In (process_row r) (snd g)).
Proof.
  intros Hteam. split; intros g Hg Hin.
  - apply (GroupByFacts.group_member_key _ _ _ staff_key_compare_eq _ _ _ Hg)
      in Hin.
    unfold staff_key in Hin. cbn [process_row WorkItem.staff_email
      WorkItem.staff_name WorkItem.team] in Hin. rewrite Hteam in Hin.
    destruct (extract_email (RawRow.Assigned_To r)),
      (extract_name (RawRow.Assigned_To r)); discriminate Hin.
  - apply (GroupByFacts.group_member_key _ _ team_key string_compare_eq
             _ _ _ Hg) in Hin.
    unfold team_key in Hin. simpl in Hin. congruence.
Qed.

End AggregatorFacts.

(** ** Metric engine *)

Module CalculatorFacts.

Import SprintDataProcessor SprintCalculator.

Lemma guarded_division_value (a b : Q) :
  (if Qeq_bool b 0 then Value 0 else py_div a b) = Value (guarded_ratio a b).
Proof. unfold py_div, guarded_ratio. now destruct (Qeq_bool b 0). Qed.

Lemma calculate_performance_rate_value (oe cw rw : Q) :
  calculate_performance_rate oe cw rw = Value (guarded_ratio oe (cw + rw)).
Proof. apply guarded_division_value. Qed.

Lemma calculate_utilization_value (cw cap : Q) :
  calculate_utilization cw cap = Value (guarded_ratio cw cap).
Proof. apply guarded_division_value. Qed.

Lemma calculate_done_tasks_percentage_value (d t : Q) :
  calculate_done_tasks_percentage d t = Value (guarded_ratio d t).
Proof. apply guarded_division_value. Qed.

Lemma calculate_midsprint_addition_percentage_value (w t : Q) :
  calculate_midsprint_addition_percentage w t = Value (guarded_ratio w t).
Proof. apply guarded_division_value. Qed.

Lemma calculate_adhoc_percentage_value (w t : Q) :
  calculate_adhoc_percentage w t = Value (guarded_ratio w t).
Proof. apply guarded_division_value. Qed.

Ltac ratio_values :=
  rewrite ?calculate_performance_rate_value, ?calculate_utilization_value,
    ?calculate_done_tasks_percentage_value,
    ?calculate_midsprint_addition_percentage_value,
    ?calculate_adhoc_percentage_value;
  cbn [bind].

Lemma mapM_Forall2 {A B : Type} (f : A -> result B) (P : A -> B -> Prop)
    (l : list A) :
  (forall x, In x l -> exists y, f x = Value y /\ P x y) ->
  exists ys, mapM f l = Value ys /\ Forall2 P l ys.
Proof.
  induction l as [|x l IH]; intros Hf; simpl.
  - exists []. split; [reflexivity|constructor].
  - destruct (Hf x (or_introl eq_refl)) as (y & -> & Hy).
    destruct IH as (ys & -> & Hys).
    { intros x' Hx'. apply Hf. now right. }
    exists (y :: ys). split; [reflexivity|]. now constructor.
Qed.

(** What one iteration of the staff loop computes, when the frames hold
    the columns it reads. *)
Lemma staff_metrics_row_value (self : KpiWeights)
    (capacity_data : Frame CapacityEntry.t) (azure_data : Frame WorkItem.t)
    (staff : StaffAggregate.t) :
  has_columns capacity_data capacity_columns = true ->
  has_columns azure_data metric_item_columns = true ->
  exists row,
    staff_metrics_row self capacity_data azure_data staff = Value row /\
    StaffMetrics.capacity row =
      match filter (fun c => String.eqb (CapacityEntry.staff_member c)
                               (identity_string staff))
              (rows capacity_data) with
      | [] => default_capacity
      | c :: _ => CapacityEntry.remaining_capacity c
      end /\
    StaffMetrics.utilization row =
      guarded_ratio (StaffAggregate.completed_work_total staff)
        (StaffMetrics.capacity row) /\
    StaffMetrics.performance_rate row =
      guarded_ratio (StaffAggregate.original_estimate_total staff)
        (StaffAggregate.completed_work_total staff +
         StaffAggregate.remaining_work_total staff) /\
    StaffMetrics.done_tasks_pct row =
      guarded_ratio (inject_Z (Z.of_nat (StaffAggregate.done_count staff)))
        (inject_Z (Z.of_nat (StaffAggregate.total_count staff))) /\
    StaffMetrics.midsprint_addition_pct row =
      guarded_ratio
        (tagged_hours WorkItem.has_midsprint_addition
           (items_of_email (StaffAggregate.staff_email staff)
              (rows azure_data)))
        (StaffAggregate.completed_work_total staff) /\
    StaffMetrics.adhoc_pct row =
      guarded_ratio
        (tagged_hours WorkItem.has_adhoc
           (items_of_email (StaffAggregate.staff_email staff)
              (rows azure_data)))
        (StaffAggregate.completed_work_total staff) /\
    StaffMetrics.kpi row =
      calculate_kpi self (StaffMetrics.performance_rate row)
        (StaffMetrics.utilization row) (StaffMetrics.done_tasks_pct row).
Proof.
  intros Hcap Hazure. split_columns Hcap. split_columns Hazure.
  unfold staff_metrics_row. columns_present.
  fold (identity_string staff).
  destruct (filter _ (rows capacity_data)) as [|c l]; cbn [bind];
    columns_present; ratio_values;
    (eexists; split; [reflexivity|]); cbn; repeat split.
Qed.

Lemma team_capacity_sum_eq (team : string) (entries : list CapacityEntry.t) :
  Qsum (map CapacityEntry.remaining_capacity
          (filter (fun c => cell_eqb (CapacityEntry.team c) team) entries))
  = team_capacity_sum team entries.
Proof.
  induction entries as [|c entries IH]; simpl; [reflexivity|].
  unfold cell_eqb at 1. destruct (CapacityEntry.team c) as [t|]; [|exact IH].
  destruct (String.eqb t team); simpl; now rewrite IH.
Qed.

Lemma team_metrics_row_value (self : KpiWeights)
    (capacity_data : Frame CapacityEntry.t) (azure_data : Frame WorkItem.t)
    (team : TeamAggregate.t) :
  has_columns capacity_data capacity_columns = true ->
  has_columns azure_data metric_item_columns = true ->
  exists row,
    team_metrics_row self capacity_data azure_data team = Value row /\
    TeamMetrics.capacity row =
      team_capacity_sum (TeamAggregate.team team) (rows capacity_data) /\
    TeamMetrics.utilization row =
      guarded_ratio (TeamAggregate.completed_work_total team)
        (TeamMetrics.capacity row) /\
    TeamMetrics.midsprint_addition_pct row =
      guarded_ratio
        (tagged_hours WorkItem.has_midsprint_addition
           (filter (fun r => cell_eqb (WorkItem.team r)
                               (TeamAggregate.team team))
              (rows azure_data)))
        (TeamAggregate.completed_work_total team) /\
    TeamMetrics.adhoc_pct row =
      guarded_ratio
        (tagged_hours WorkItem.has_adhoc
           (filter (fun r => cell_eqb (WorkItem.team r)
                               (TeamAggregate.team team))
              (rows azure_data)))
        (TeamAggregate.completed_work_total team).
Proof.
  intros Hcap Hazure. split_columns Hcap. split_columns Hazure.
  unfold team_metrics_row. columns_present. ratio_values.
  eexists; split; [reflexivity|]. cbn.
  rewrite team_capacity_sum_eq. repeat split.
Qed.

Lemma no_capacity_row (identity : string) (entries : list CapacityEntry.t) :
  Forall (fun c => CapacityEntry.staff_member c <> identity) entries ->
  filter (fun c => String.eqb (CapacityEntry.staff_member c) identity) entries
  = [].
Proof.
  induction 1 as [|c l Hc _ IH]; simpl; [reflexivity|].
  apply String.eqb_neq in Hc. now rewrite Hc.
Qed.

(** The lookup of the design document: a staff member without a row in the
    capacity table gets the default of 63, and a team gets the sum of its
    rows, whenever the capacity frame has its columns. *)
Lemma default_capacity_on_miss (self : KpiWeights)
    (capacity_data : Frame CapacityEntry.t) (azure_data : Frame WorkItem.t)
    (staff : StaffAggregate.t) :
  has_columns capacity_data capacity_columns = true ->
  has_columns azure_data metric_item_columns = true ->
  Forall (fun c => CapacityEntry.staff_member c <> identity_string staff)
    (rows capacity_data) ->
  exists row,
    staff_metrics_row self capacity_data azure_data staff = Value row /\
    StaffMetrics.capacity row = 63 /\
    StaffMetrics.utilization row =
      guarded_ratio (StaffAggregate.completed_work_total staff) 63.
Proof.
  intros Hcap Hazure Hmiss.
  destruct (staff_metrics_row_value self _ _ staff Hcap Hazure)
    as (row & Hrow & Hc & Hu & _).
  rewrite (no_capacity_row _ _ Hmiss) in Hc. exists row. split; [exact Hrow|].
  split; [exact Hc|]. now rewrite Hu, Hc.
Qed.

(** Over the whole table: every staff aggregate without a capacity row gets
    the default in its output row, and every team the sum of its rows. *)
Lemma capacity_lookup (self : KpiWeights)
    (staff_agg : list StaffAggregate.t) (team_agg : list TeamAggregate.t)
    (capacity_data : Frame CapacityEntry.t) (azure_data : Frame WorkItem.t) :
  has_columns capacity_data capacity_columns = true ->
  has_columns azure_data metric_item_columns = true ->
  (exists out,
     calculate_staff_metrics self staff_agg capacity_data azure_data
     = Value out /\
     Forall2
       (fun staff row =>
          Forall (fun c => CapacityEntry.staff_member c
                           <> identity_string staff) (rows capacity_data) ->
          StaffMetrics.capacity row = default_capacity /\
          StaffMetrics.utilization row =
            guarded_ratio (StaffAggregate.completed_work_total staff)
              default_capacity)
       staff_agg (rows out)) /\
  (exists out,
     calculate_team_metrics self team_agg capacity_data azure_data
     = Value out /\
     Forall2
       (fun team row =>
          TeamMetrics.capacity row =
            team_capacity_sum (TeamAggregate.team team) (rows capacity_data))
       team_agg (rows out)).
Proof.
  intros Hcap Hazure. split.
  - unfold calculate_staff_metrics.
    destruct (mapM_Forall2
                (staff_metrics_row self capacity_data azure_data)
                (fun staff row =>
                   Forall (fun c => CapacityEntry.staff_member c
                                    <> identity_string staff)
                     (rows capacity_data) ->
                   StaffMetrics.capacity row = default_capacity /\
                   StaffMetrics.utilization row =
                     guarded_ratio (StaffAggregate.completed_work_total staff)
                       default_capacity)
                staff_agg) as (ys & -> & Hys).
    { intros staff _.
      destruct (staff_metrics_row_value self _ _ staff Hcap Hazure)
        as (row & Hrow & Hc & Hu & _).
      exists row. split; [exact Hrow|]. intros Hmiss.
      rewrite (no_capacity_row _ _ Hmiss) in Hc.
      split; [exact Hc|]. now rewrite Hu, Hc. }
    eexists. split; [reflexivity|exact Hys].
  - unfold calculate_team_metrics.
    destruct (mapM_Forall2
                (team_metrics_row self capacity_data azure_data)
                (fun team row =>
                   TeamMetrics.capacity row =
                     team_capacity_sum (TeamAggregate.team team)
                       (rows capacity_data))
                team_agg) as (ys & -> & Hys).
    { intros team _.
      destruct (team_metrics_row_value self _ _ team Hcap Hazure)
        as (row & Hrow & Hc & _).
      exists row. split; [exact Hrow|exact Hc]. }
    eexists. split; [reflexivity|exact Hys].
Qed.

(** C2: a capacity sheet without members gives a capacity frame without
    columns, and then the lookup raises instead of falling back to 63 (for
    a staff member) or summing to 0 (for a team). *)
Theorem blank_capacity_sheet_raises :
  rows (get_capacity_data blank_capacity_sheet) = [] /\
  calculate_staff_metrics default_kpi_weights staff_agg_main
    (get_capacity_data blank_capacity_sheet) azure_main
  = Raise (KeyError "staff_member") /\
  calculate_team_metrics default_kpi_weights team_agg_main
    (get_capacity_data blank_capacity_sheet) azure_main
  = Raise (KeyError "team").
Proof. repeat split. Qed.

End CalculatorFacts.

(** ** Tag percentages and the sample run *)

Module MetricFacts.

Import SprintDataProcessor SprintCalculator CalculatorFacts AggregatorFacts.

Lemma team_group_items (items : list WorkItem.t)
    (g : string * list WorkItem.t) :
  In g (team_groups items) ->
  snd g = filter (fun r => cell_eqb (WorkItem.team r) (fst g)) items.
Proof.
  unfold team_groups, groupby. intros Hg.
  apply in_map_iff in Hg as (k & <- & _). simpl.
  apply filter_ext. intros r.
  unfold in_group, team_key, cell_eqb, key_eqb.
  destruct (WorkItem.team r) as [t|]; [|reflexivity].
  destruct (String.eqb_spec t k) as [-> | Hne].
  - now rewrite string_compare_refl.
  - destruct (String.compare k t) eqn:E; try reflexivity.
    apply string_compare_eq in E. congruence.
Qed.

(** The two tag percentages of a group.  For a team group the tagged hours
    are summed over the items of the group.  For a staff group they are
    summed over all items that carry the email of the group, whatever their
    name and team.  The denominator is the completed-work total of the
    group, and a zero total gives 0. *)
Lemma tag_percentages (self : KpiWeights)
    (capacity_data : Frame CapacityEntry.t) (df : Frame WorkItem.t) :
  has_columns capacity_data capacity_columns = true ->
  has_columns df metric_item_columns = true ->
  (forall e n t items, In (e, n, t, items) (staff_groups (rows df)) ->
     exists row,
       staff_metrics_row self capacity_data df
         (staff_aggregate (e, n, t, items)) = Value row /\
       StaffMetrics.midsprint_addition_pct row =
         guarded_ratio
           (tagged_hours WorkItem.has_midsprint_addition
              (items_of_email e (rows df)))
           (hours items) /\
       StaffMetrics.adhoc_pct row =
         guarded_ratio
           (tagged_hours WorkItem.has_adhoc (items_of_email e (rows df)))
           (hours items)) /\
  (forall t items, In (t, items) (team_groups (rows df)) ->
     exists row,
       team_metrics_row self capacity_data df (team_aggregate (t, items))
       = Value row /\
       TeamMetrics.midsprint_addition_pct row =
         guarded_ratio (tagged_hours WorkItem.has_midsprint_addition items)
           (hours items) /\
       TeamMetrics.adhoc_pct row =
         guarded_ratio (tagged_hours WorkItem.has_adhoc items) (hours items)).
Proof.
  intros Hcap Hdf. split.
  - intros e n t items _.
    destruct (staff_metrics_row_value self capacity_data df
                (staff_aggregate (e, n, t, items)) Hcap Hdf)
      as (row & Hrow & _ & _ & _ & _ & Hmid & Hadhoc & _).
    exists row. split; [exact Hrow|]. split; assumption.
  - intros t items Hg.
    destruct (team_metrics_row_value self capacity_data df
                (team_aggregate (t, items)) Hcap Hdf)
      as (row & Hrow & _ & _ & Hmid & Hadhoc).
    exists row. split; [exact Hrow|].
    apply team_group_items in Hg. simpl in Hg, Hmid, Hadhoc.
    rewrite <- Hg in Hmid, Hadhoc. split; assumption.
Qed.

(** C7: one person works in two teams.  The staff group of the first team
    has 2 tagged hours out of 2 completed hours, which is the ratio 1, yet
    its mid-sprint percentage comes out as 5/2: the tagged hours of the
    other team are counted as well. *)
Theorem staff_tag_percentage_two_teams :
  exists items row,
    In ("atalaat@youxel.com", "Ahmed Talaat", "Development", items)%string
      (staff_groups (rows (processed sheet_two_teams))) /\
    staff_metrics_row default_kpi_weights capacity_main
      (processed sheet_two_teams)
      (staff_aggregate
         ("atalaat@youxel.com", "Ahmed Talaat", "Development", items)%string)
    = Value row /\
    StaffMetrics.midsprint_addition_pct row == 5 # 2 /\
    guarded_ratio (tagged_hours WorkItem.has_midsprint_addition items)
      (hours items) == 1 /\
    ~ StaffMetrics.midsprint_addition_pct row ==
      guarded_ratio (tagged_hours WorkItem.has_midsprint_addition items)
        (hours items).
Proof.
  eexists. eexists.
  split; [vm_compute; left; reflexivity|].
  split; [vm_compute; reflexivity|].
  split; [reflexivity|]. split; [reflexivity|].
  vm_compute. discriminate.
Qed.

Ltac decide_Q := vm_compute; first [discriminate | congruence |
                                    let H := fresh in intro H; now apply H].

(** C8, with the numbers the code gives: the performance rate of the
    sample run is 89/65, about 1.3692, the utilization 64/63, about 1.0159,
    the share of done tasks 1, and the KPI with the default weights about
    1.0754. *)
Theorem main_scenario_metrics :
  exists row,
    calculate_staff_metrics default_kpi_weights staff_agg_main capacity_main
      azure_main
    = Value (DataFrame_of_records StaffMetrics.keys [row]) /\
    StaffMetrics.capacity row == 63 /\
    StaffMetrics.performance_rate row == 89 # 65 /\
    approx4 (StaffMetrics.performance_rate row) 1.3692 /\
    StaffMetrics.utilization row == 64 # 63 /\
    approx4 (StaffMetrics.utilization row) 1.0159 /\
    StaffMetrics.done_tasks_pct row == 1 /\
    StaffMetrics.kpi row ==
      (2 # 10) * (89 # 65) + (1 # 10) * (64 # 63) + (7 # 10) * 1 /\
    approx4 (StaffMetrics.kpi row) 1.0754.
Proof.
  eexists. split; [vm_compute; reflexivity|].
  repeat split; decide_Q.
Qed.

(** The sample run does not give the performance rate 0.9846 nor the KPI
    0.9990. *)
Lemma main_scenario_counterexample :
  exists row,
    calculate_staff_metrics default_kpi_weights staff_agg_main capacity_main
      azure_main
    = Value (DataFrame_of_records StaffMetrics.keys [row]) /\
    ~ approx4 (StaffMetrics.performance_rate row) 0.9846 /\
    ~ approx4 (StaffMetrics.kpi row) 0.9990.
Proof.
  eexists. split; [vm_compute; reflexivity|].
  split; decide_Q.
Qed.

End MetricFacts.

(** ** Validator *)

Module ValidatorFacts.

Import SprintDataProcessor SprintCalculator.

Lemma missing_none_iff {R : Type} (df : Frame R) (labels : list string) :
  filter (fun col => negb (has_column df col)) labels = [] <->
  has_columns df labels = true.
Proof.
  unfold has_columns. induction labels as [|c labels IH]; simpl.
  - tauto.
  - destruct (has_column df c); simpl; [exact IH|]. split; discriminate.
Qed.

(** The status of [validate_data] only depends on the required columns. *)
Lemma validate_data_status (df : Frame WorkItem.t)
    (report : ValidationReport) :
  validate_data df = Value report ->
  SprintDataProcessor.status report
  = (if has_columns df required_cols then success else error) /\
  (errors report = [] <-> has_columns df required_cols = true).
Proof.
  unfold validate_data.
  pose proof (missing_none_iff df required_cols) as Hmiss.
  destruct (filter _ required_cols) as [|c l] eqn:Efilter;
    [rewrite (proj1 Hmiss eq_refl)
    |destruct (has_columns df required_cols) eqn:Ecols;
     [destruct Hmiss as [_ Hcontra]; discriminate (Hcontra eq_refl)|]];
    unfold require;
    destruct (has_column df "Assigned To"); cbn [bind]; try discriminate;
    destruct (has_column df "team"); cbn [bind]; try discriminate;
    destruct (0 <? List.length (filter _ (rows df)))%nat; cbn [bind];
    try (destruct (has_column df "Activity"); cbn [bind]; try discriminate);
    destruct (has_column df "Completed Work"); cbn [bind]; try discriminate;
    destruct (has_column df "is_done"); cbn [bind]; try discriminate;
    intros [= <-]; simpl; split; try reflexivity; split; congruence.
Qed.

Lemma validate_data_returns (df : Frame WorkItem.t) :
  has_columns df validated_columns = true -> returns (validate_data df).
Proof.
  intros H. split_columns H. unfold validate_data. columns_present.
  destruct (0 <? List.length (filter _ (rows df)))%nat; columns_present;
    apply returns_Value.
Qed.

Lemma validate_data_empty (df : Frame WorkItem.t) :
  rows df = [] ->
  has_columns df validated_columns_empty = true ->
  exists report,
    validate_data df = Value report /\
    SprintDataProcessor.warnings report = [].
Proof.
  intros Hrows H. split_columns H. unfold validate_data. columns_present.
  rewrite Hrows. simpl. columns_present. eexists. split; reflexivity.
Qed.

Section Metrics.

Context {R : Type} `{MetricsRow R}.

Lemma validate_metrics_value (metrics : Frame R) :
  has_columns metrics metric_columns = true ->
  validate_metrics metrics =
  Value
    (let ws :=
       map (fun r => {| type := high_utilization;
                        staff := row_label metrics r;
                        value := row_utilization r |})
         (filter is_high_util (rows metrics)) ++
       map (fun r => {| type := low_performance_rate;
                        staff := row_label metrics r;
                        value := row_performance_rate r |})
         (filter is_low_perf (rows metrics)) ++
       map (fun r => {| type := kpi_outlier;
                        staff := row_label metrics r;
                        value := row_kpi r |})
         (filter is_kpi_outlier (rows metrics)) in
     {| status := match ws with [] => success | _ :: _ => warning end;
        warnings := ws |}).
Proof.
  intros Hcols. split_columns Hcols. unfold validate_metrics.
  columns_present. cbv zeta. now rewrite <- app_assoc.
Qed.

Lemma validate_metrics_status (metrics : Frame R) (report : MetricsReport) :
  validate_metrics metrics = Value report ->
  status report
  = match warnings report with [] => success | _ :: _ => warning end.
Proof.
  unfold validate_metrics, require.
  destruct (has_column metrics "utilization"); cbn [bind]; try discriminate.
  destruct (has_column metrics "performance_rate"); cbn [bind];
    try discriminate.
  destruct (has_column metrics "kpi"); cbn [bind]; try discriminate.
  intros [= <-]. reflexivity.
Qed.

Lemma Qlt_bool_above (bound x : Q) : Qlt_bool bound x = above bound x.
Proof.
  unfold above. destruct (Qlt_le_dec bound x) as [Hlt | Hle].
  - now apply Qlt_bool_iff.
  - destruct (Qlt_bool bound x) eqn:E; [|reflexivity].
    apply Qlt_bool_iff in E. exfalso. apply (Qlt_not_le _ _ E Hle).
Qed.

Lemma Qlt_bool_below (bound x : Q) : Qlt_bool x bound = below bound x.
Proof. apply Qlt_bool_above. Qed.

Lemma warnings_of_same (ty : WarningType) (f : R -> option string * Q)
    (mk : R -> Warning) (l : list R) :
  (forall r, type (mk r) = ty) ->
  (forall r, (staff (mk r), value (mk r)) = f r) ->
  map (fun w => (staff w, value w))
    (filter (fun w => type_eqb (type w) ty) (map mk l))
  = map f l.
Proof.
  intros Hty Hf. induction l as [|r l IH]; simpl; [reflexivity|].
  rewrite Hty. replace (type_eqb ty ty) with true by now destruct ty.
  simpl. now rewrite Hf, IH.
Qed.

Lemma warnings_of_other (ty : WarningType) (mk : R -> Warning) (l : list R) :
  (forall r, type_eqb (type (mk r)) ty = false) ->
  filter (fun w => type_eqb (type w) ty) (map mk l) = [].
Proof.
  intros Hty. induction l as [|r l IH]; simpl; [reflexivity|].
  now rewrite Hty.
Qed.

(** C4: the entries of each check are the offending rows, one entry per
    row and in the order of the table: utilization above 1.5, performance
    rate below 0.5, KPI below 0.3 or above 1.5. *)
Theorem anomaly_warnings (metrics : Frame R) :
  has_columns metrics metric_columns = true ->
  exists report,
    validate_metrics metrics = Value report /\
    warnings_of high_utilization report
    = map (fun r => (row_label metrics r, row_utilization r))
        (filter (fun r => above 1.5 (row_utilization r)) (rows metrics)) /\
    warnings_of low_performance_rate report
    = map (fun r => (row_label metrics r, row_performance_rate r))
        (filter (fun r => below 0.5 (row_performance_rate r))
           (rows metrics)) /\
    warnings_of kpi_outlier report
    = map (fun r => (row_label metrics r, row_kpi r))
        (filter (fun r => outside 0.3 1.5 (row_kpi r)) (rows metrics)) /\
    List.length (warnings report)
    = (count_true (fun r => above 1.5 (row_utilization r)) (rows metrics) +
       count_true (fun r => below 0.5 (row_performance_rate r))
         (rows metrics) +
       count_true (fun r => outside 0.3 1.5 (row_kpi r)) (rows metrics))%nat.
Proof.
  intros Hcols. eexists. split; [now apply validate_metrics_value|].
  cbv zeta. unfold warnings_of. cbn [warnings].
  rewrite !filter_app, !map_app.
  assert (Hhigh : filter is_high_util (rows metrics)
                  = filter (fun r => above 1.5 (row_utilization r))
                      (rows metrics)).
  { apply filter_ext. intros r. apply Qlt_bool_above. }
  assert (Hlow : filter is_low_perf (rows metrics)
                 = filter (fun r => below 0.5 (row_performance_rate r))
                     (rows metrics)).
  { apply filter_ext. intros r. apply Qlt_bool_below. }
  assert (Hkpi : filter is_kpi_outlier (rows metrics)
                 = filter (fun r => outside 0.3 1.5 (row_kpi r))
                     (rows metrics)).
  { apply filter_ext. intros r. unfold is_kpi_outlier, outside.
    now rewrite Qlt_bool_below, Qlt_bool_above. }
  rewrite Hhigh, Hlow, Hkpi.
  set (mk1 := fun r => {| type := high_utilization;
                          staff := row_label metrics r;
                          value := row_utilization r |}).
  set (mk2 := fun r => {| type := low_performance_rate;
                          staff := row_label metrics r;
                          value := row_performance_rate r |}).
  set (mk3 := fun r => {| type := kpi_outlier;
                          staff := row_label metrics r;
                          value := row_kpi r |}).
  repeat split.
  - rewrite (warnings_of_same high_utilization
               (fun r => (row_label metrics r, row_utilization r)) mk1)
      by (intros; reflexivity).
    rewrite (warnings_of_other high_utilization mk2),
      (warnings_of_other high_utilization mk3) by (intros; reflexivity).
    now rewrite app_nil_r.
  - rewrite (warnings_of_same low_performance_rate
               (fun r => (row_label metrics r, row_performance_rate r)) mk2)
      by (intros; reflexivity).
    rewrite (warnings_of_other low_performance_rate mk1),
      (warnings_of_other low_performance_rate mk3) by (intros; reflexivity).
    now rewrite app_nil_r.
  - rewrite (warnings_of_same kpi_outlier
               (fun r => (row_label metrics r, row_kpi r)) mk3)
      by (intros; reflexivity).
    now rewrite (warnings_of_other kpi_outlier mk1),
      (warnings_of_other kpi_outlier mk2) by (intros; reflexivity).
  - unfold count_true. rewrite !length_app, !length_map. lia.
Qed.

End Metrics.

Lemma anomaly_warnings_witness :
  has_columns metrics_boundary metric_columns = true /\
  exists report,
    validate_metrics metrics_boundary = Value report /\
    warnings_of high_utilization report = [(Some "a"%string, 1.51)] /\
    warnings_of low_performance_rate report = [] /\
    warnings_of kpi_outlier report = [] /\
    List.length (warnings report) = 1%nat.
Proof.
  split; [reflexivity|].
  exact (anomaly_warnings metrics_boundary eq_refl).
Defined.

(** C3, as the code has it: [validate_metrics] reports [warning] when it
    recorded a warning and [success] otherwise; [validate_data] reports
    [error] when a required column is missing and [success] otherwise,
    whatever warnings it recorded, and never [warning]. *)
Theorem validator_status {R : Type} `{MetricsRow R} (df : Frame WorkItem.t)
    (metrics : Frame R) :
  has_columns df validated_columns = true ->
  has_columns metrics metric_columns = true ->
  exists data_report metrics_report,
    validate_data df = Value data_report /\
    validate_metrics metrics = Value metrics_report /\
    SprintDataProcessor.status data_report
    = match errors data_report with [] => success | _ :: _ => error end /\
    (errors data_report = [] <-> has_columns df required_cols = true) /\
    status metrics_report
    = match warnings metrics_report with
      | [] => success
      | _ :: _ => warning
      end.
Proof.
  intros Hdf Hmetrics.
  destruct (validate_data_returns df Hdf) as (data_report & Hdata).
  exists data_report. eexists.
  split; [exact Hdata|].
  split; [now apply validate_metrics_value|].
  destruct (validate_data_status df data_report Hdata) as [Hstatus Herr].
  split; [|split; [exact Herr|]].
  - rewrite Hstatus. destruct (has_columns df required_cols).
    + now rewrite (proj2 Herr eq_refl).
    + destruct (errors data_report); [|reflexivity].
      destruct Herr as [Hcontra _]. discriminate (Hcontra eq_refl).
  - apply (validate_metrics_status metrics).
    now apply validate_metrics_value.
Qed.

Lemma validator_status_witness :
  has_columns (processed sheet_one_unassigned) validated_columns = true /\
  has_columns metrics_boundary metric_columns = true /\
  exists data_report metrics_report,
    validate_data (processed sheet_one_unassigned) = Value data_report /\
    validate_metrics metrics_boundary = Value metrics_report /\
    SprintDataProcessor.status data_report
    = match errors data_report with [] => success | _ :: _ => error end /\
    (errors data_report = [] <->
     has_columns (processed sheet_one_unassigned) required_cols = true) /\
    status metrics_report
    = match warnings metrics_report with
      | [] => success
      | _ :: _ => warning
      end.
Proof.
  split; [reflexivity|]. split; [reflexivity|].
  exact (validator_status (processed sheet_one_unassigned) metrics_boundary
           eq_refl eq_refl).
Defined.

(** A sheet with an unassigned work item: [validate_data] records two
    warnings and no error, and its status is [success]. *)
Lemma validate_data_status_counterexample :
  exists report,
    validate_data (processed sheet_one_unassigned) = Value report /\
    errors report = [] /\
    SprintDataProcessor.warnings report
    = [missing_assignments 1; incomplete_tasks_with_work 1] /\
    SprintDataProcessor.status report = success /\
    SprintDataProcessor.status report
    <> spec_status (errors report) (SprintDataProcessor.warnings report).
Proof.
  eexists. split; [vm_compute; reflexivity|].
  repeat split. discriminate.
Qed.

(** C9, as the code has it: on a frame without work items that holds the
    columns [validate_data] reads, validation returns a report without
    warnings whose status is [error] when a required column is missing and
    [success] otherwise; the two aggregations give no group when the
    grouping columns are there; and the metric tables of no groups are
    empty. *)
Theorem empty_input_pipeline (df : Frame WorkItem.t) (self : KpiWeights)
    (capacity_data : Frame CapacityEntry.t) :
  rows df = [] ->
  has_columns df validated_columns_empty = true ->
  (exists report,
     validate_data df = Value report /\
     SprintDataProcessor.warnings report = [] /\
     SprintDataProcessor.status report
     = (if has_columns df required_cols then success else error)) /\
  (has_columns df group_columns = true ->
   aggregate_by_staff df = Value [] /\ aggregate_by_team df = Value []) /\
  calculate_staff_metrics self [] capacity_data df
  = Value {| columns := []; rows := [] |} /\
  calculate_team_metrics self [] capacity_data df
  = Value {| columns := []; rows := [] |}.
Proof.
  intros Hrows Hcols. split; [|split; [|split; reflexivity]].
  - destruct (validate_data_empty df Hrows Hcols) as (report & Hrep & Hw).
    exists report. split; [exact Hrep|]. split; [exact Hw|].
    now apply validate_data_status.
  - intros Hgroup.
    rewrite (AggregatorFacts.aggregate_by_staff_eq df Hgroup),
      (AggregatorFacts.aggregate_by_team_eq df Hgroup), Hrows.
    split; reflexivity.
Qed.

Lemma empty_input_pipeline_witness :
  rows (processed sheet_empty) = [] /\
  has_columns (processed sheet_empty) validated_columns_empty = true /\
  (exists report,
     validate_data (processed sheet_empty) = Value report /\
     SprintDataProcessor.warnings report = [] /\
     SprintDataProcessor.status report
     = (if has_columns (processed sheet_empty) required_cols
        then success else error)) /\
  (has_columns (processed sheet_empty) group_columns = true ->
   aggregate_by_staff (processed sheet_empty) = Value [] /\
   aggregate_by_team (processed sheet_empty) = Value []) /\
  calculate_staff_metrics default_kpi_weights [] capacity_main
    (processed sheet_empty)
  = Value {| columns := []; rows := [] |} /\
  calculate_team_metrics default_kpi_weights [] capacity_main
    (processed sheet_empty)
  = Value {| columns := []; rows := [] |}.
Proof.
  split; [reflexivity|]. split; [reflexivity|].
  exact (empty_input_pipeline (processed sheet_empty) default_kpi_weights
           capacity_main eq_refl eq_refl).
Defined.

(** A sheet without work items and with every column: the status is
    [success], neither [warning] nor [error]. *)
Lemma empty_input_status_counterexample :
  exists report,
    validate_data (processed sheet_empty) = Value report /\
    SprintDataProcessor.status report = success /\
    ~ (SprintDataProcessor.status report = warning \/
       SprintDataProcessor.status report = error).
Proof.
  eexists. split; [vm_compute; reflexivity|].
  split; [reflexivity|]. intros [H | H]; discriminate H.
Qed.

(** A frame without the column of the assignees: the missing column is
    recorded, and then reading it raises. *)
Example validate_data_without_assignee_column :
  validate_data {| columns := []; rows := [] |}
  = Raise (KeyError "Assigned To").
Proof. reflexivity. Qed.

(** The metric table of no groups has no columns, and checking it raises. *)
Example validate_metrics_empty_table :
  (metrics <- calculate_staff_metrics default_kpi_weights [] capacity_main
                (processed sheet_empty) ;;
   validate_metrics metrics)
  = Raise (KeyError "utilization").
Proof. reflexivity. Qed.

End ValidatorFacts.

(** * Further properties of the pipeline *)

(** ** Normalization of a sheet *)

Module ProcessFacts.

Import SprintDataProcessor.

Lemma has_column_add {R : Type} (label c : string) (cols : list string)
    (l : list R) :
  has_column {| columns := add_column label cols; rows := l |} c
  = (String.eqb c label
     || has_column {| columns := cols; rows := l |} c)%bool.
Proof.
  unfold has_column, add_column. simpl.
  destruct (existsb (String.eqb label) cols) eqn:E.
  - destruct (String.eqb_spec c label) as [-> | _]; [|reflexivity].
    now rewrite E.
  - rewrite existsb_app. simpl. rewrite orb_false_r. apply orb_comm.
Qed.

Lemma has_column_processed {R : Type} (c : string) (cols : list string)
    (l : list R) :
  has_column
    {| columns :=
         fold_left (fun cols label => add_column label cols) derived_columns
           cols;
       rows := l |} c
  = (has_column {| columns := cols; rows := l |} c
     || existsb (String.eqb c) derived_columns)%bool.
Proof.
  unfold derived_columns. simpl fold_left. rewrite !has_column_add.
  simpl existsb.
  destruct (has_column {| columns := cols; rows := l |} c);
    repeat match goal with
           | |- context [String.eqb c ?s] => destruct (String.eqb c s)
           end; reflexivity.
Qed.

Lemma has_column_rows {R S : Type} (cols : list string) (l : list R)
    (l' : list S) (c : string) :
  has_column {| columns := cols; rows := l |} c
  = has_column {| columns := cols; rows := l' |} c.
Proof. reflexivity. Qed.

Lemma str_accessor_assignee (sheet : Frame RawRow.t) :
  str_accessor (map RawRow.Assigned_To (rows sheet))
  = if no_assignee sheet then Raise AttributeError else Value tt.
Proof.
  unfold str_accessor, no_assignee.
  assert (E : forall l : list RawRow.t,
            forallb is_none (map RawRow.Assigned_To l)
            = negb (existsb (fun r => negb (is_none (RawRow.Assigned_To r)))
                      l)).
  { induction l as [|r l IH]; simpl; [reflexivity|].
    rewrite IH. now destruct (is_none (RawRow.Assigned_To r)). }
  destruct (rows sheet) as [|r l] eqn:El; [reflexivity|].
  cbv beta iota. rewrite <- E. reflexivity.
Qed.

(** What [process_azure_data] returns when the four columns it reads are
    there and some row has an assignee. *)
Lemma process_azure_data_value (sheet : Frame RawRow.t) :
  has_columns (stripped sheet) read_columns = true ->
  no_assignee sheet = false ->
  process_azure_data sheet =
  Value {| columns :=
             fold_left (fun cols label => add_column label cols)
               derived_columns (map strip (columns sheet));
           rows := map process_row (rows sheet) |}.
Proof.
  intros H Hsome. split_columns H. unfold process_azure_data.
  fold (stripped sheet). columns_present.
  change (rows (stripped sheet)) with (rows sheet).
  rewrite str_accessor_assignee, Hsome. cbn [bind].
  columns_present. reflexivity.
Qed.

Lemma process_azure_data_assignee (sheet : Frame RawRow.t)
    (df : Frame WorkItem.t) :
  process_azure_data sheet = Value df -> no_assignee sheet = false.
Proof.
  unfold process_azure_data. fold (stripped sheet).
  change (rows (stripped sheet)) with (rows sheet).
  rewrite str_accessor_assignee. unfold require.
  destruct (has_column (stripped sheet) "Assigned To"); [|discriminate].
  cbn [bind]. destruct (no_assignee sheet); [discriminate|reflexivity].
Qed.

Lemma process_azure_data_inv (sheet : Frame RawRow.t)
    (df : Frame WorkItem.t) :
  process_azure_data sheet = Value df ->
  has_columns (stripped sheet) read_columns = true /\
  df = {| columns :=
            fold_left (fun cols label => add_column label cols)
              derived_columns (map strip (columns sheet));
          rows := map process_row (rows sheet) |}.
Proof.
  intros H. pose proof (process_azure_data_assignee sheet df H) as Hsome.
  destruct (has_columns (stripped sheet) read_columns) eqn:E.
  - rewrite (process_azure_data_value sheet E Hsome) in H.
    now injection H as <-.
  - exfalso. revert H. unfold process_azure_data. fold (stripped sheet).
    unfold has_columns, read_columns in E. simpl forallb in E.
    unfold require.
    destruct (has_column (stripped sheet) "Assigned To"); [|discriminate].
    cbn [bind]. destruct (str_accessor _); [|discriminate]. cbn [bind].
    destruct (has_column (stripped sheet) "Activity"); [|discriminate].
    destruct (has_column (stripped sheet) "Tags"); [|discriminate].
    destruct (has_column (stripped sheet) "State"); discriminate.
Qed.

(** The columns of a processed frame: those of the sheet and the six
    derived ones. *)
Lemma processed_has_column (sheet : Frame RawRow.t) (df : Frame WorkItem.t)
    (c : string) :
  process_azure_data sheet = Value df ->
  has_column df c
  = (has_column (stripped sheet) c
     || existsb (String.eqb c) derived_columns)%bool.
Proof.
  intros H. apply process_azure_data_inv in H as [_ ->].
  rewrite has_column_processed. reflexivity.
Qed.

(** X1: [process_azure_data] raises [KeyError] when the stripped header
    lacks Assigned To; else [AttributeError] when the sheet has rows and
    none of them has an assignee; else [KeyError] for the first of
    Activity, Tags, State that the header lacks.  Otherwise it returns a
    frame with one row per row of the sheet, with the six derived columns,
    and with every column of the sheet. *)
Theorem process_azure_data_outcome (sheet : Frame RawRow.t) :
  if negb (has_column (stripped sheet) "Assigned To") then
    process_azure_data sheet = Raise (KeyError "Assigned To")
  else if no_assignee sheet then
    process_azure_data sheet = Raise AttributeError
  else
    match first_missing (stripped sheet) ["Activity"; "Tags"; "State"]%string
    with
    | Some c => process_azure_data sheet = Raise (KeyError c)
    | None =>
        exists df,
          process_azure_data sheet = Value df /\
          rows df = map process_row (rows sheet) /\
          has_columns df derived_columns = true /\
          (forall c, has_column (stripped sheet) c = true ->
                     has_column df c = true)
    end.
Proof.
  assert (Hcode : process_azure_data sheet
                  = (_ <- require (stripped sheet) "Assigned To" ;;
                     _ <- (if no_assignee sheet then Raise AttributeError
                           else Value tt) ;;
                     _ <- require (stripped sheet) "Activity" ;;
                     _ <- require (stripped sheet) "Tags" ;;
                     _ <- require (stripped sheet) "State" ;;
                     Value {| columns :=
                                fold_left
                                  (fun cols label => add_column label cols)
                                  derived_columns (columns (stripped sheet));
                              rows := map process_row
                                        (rows (stripped sheet)) |})).
  { unfold process_azure_data. fold (stripped sheet).
    change (rows (stripped sheet)) with (rows sheet).
    now rewrite str_accessor_assignee. }
  unfold first_missing. simpl find. unfold require in Hcode.
  destruct (has_column (stripped sheet) "Assigned To") eqn:E1; simpl negb;
    cbv iota; [|exact Hcode].
  destruct (no_assignee sheet) eqn:E0; [exact Hcode|].
  destruct (has_column (stripped sheet) "Activity") eqn:E2; simpl negb;
    cbv iota; [|exact Hcode].
  destruct (has_column (stripped sheet) "Tags") eqn:E3; simpl negb; cbv iota;
    [|exact Hcode].
  destruct (has_column (stripped sheet) "State") eqn:E4; simpl negb; cbv iota;
    [|exact Hcode].
  cbn [bind] in Hcode.
  eexists. split; [exact Hcode|].
  split; [reflexivity|]. split.
  - unfold has_columns. apply forallb_forall. intros c Hc.
    rewrite has_column_processed. apply orb_true_iff. right.
    apply existsb_exists. exists c. split; [exact Hc|apply String.eqb_refl].
  - intros c Hc. rewrite has_column_processed.
    unfold stripped in Hc. simpl in Hc. unfold stripped. simpl columns.
    rewrite (has_column_rows _ _ (rows sheet)). now rewrite Hc.
Qed.

(** A sheet whose work items are all unassigned is not processed, though
    its header is complete. *)
Example unassigned_sheet_raises :
  has_columns (stripped sheet_no_assignee) read_columns = true /\
  process_azure_data sheet_no_assignee = Raise AttributeError.
Proof. split; reflexivity. Qed.

Lemma processed_column_present (sheet : Frame RawRow.t)
    (df : Frame WorkItem.t) (c : string) :
  process_azure_data sheet = Value df ->
  In c (read_columns ++ derived_columns) ->
  has_column df c = true.
Proof.
  intros H Hc. rewrite (processed_has_column sheet df c H).
  pose proof H as Hinv. apply process_azure_data_inv in Hinv as [Hread _].
  apply in_app_or in Hc as [Hc | Hc].
  - unfold has_columns in Hread. rewrite forallb_forall in Hread.
    now rewrite (Hread c Hc).
  - apply orb_true_iff. right. apply existsb_exists.
    exists c. split; [exact Hc|apply String.eqb_refl].
Qed.

(** The column facts that processing guarantees, as hypotheses. *)
Ltac processed_columns H :=
  let have c :=
    let Hc := fresh "Hcol" in
    assert (Hc : has_column _ c = true)
      by (apply (processed_column_present _ _ c H); simpl; tauto) in
  have "Assigned To"%string; have "Activity"%string; have "Tags"%string;
  have "State"%string; have "staff_email"%string; have "staff_name"%string;
  have "team"%string; have "has_midsprint_addition"%string;
  have "has_adhoc"%string; have "is_done"%string.

Lemma validate_data_after_processing (sheet : Frame RawRow.t)
    (df : Frame WorkItem.t) :
  process_azure_data sheet = Value df ->
  match has_column df "Completed Work" with
  | true => returns (validate_data df)
  | false => validate_data df = Raise (KeyError "Completed Work")
  end.
Proof.
  intros H. processed_columns H.
  destruct (has_column df "Completed Work") eqn:E;
    unfold validate_data; columns_present;
    destruct (0 <? List.length (filter _ (rows df)))%nat; columns_present;
    try apply returns_Value; unfold require; now rewrite E.
Qed.

(** X2: once [process_azure_data] has returned a frame, [validate_data]
    returns on it exactly when the sheet has a Completed Work column; and
    its status is [error] exactly when one of Work Item Type, Title or
    Original Estimate is missing, the other required columns being
    guaranteed by then. *)
Theorem validation_after_processing (sheet : Frame RawRow.t)
    (df : Frame WorkItem.t) :
  process_azure_data sheet = Value df ->
  (returns (validate_data df) <-> has_column df "Completed Work" = true) /\
  (forall report, validate_data df = Value report ->
     (status report = error <->
      has_columns df ["Work Item Type"; "Title"; "Original Estimate"]%string
      = false) /\
     (status report = success <->
      has_columns df ["Work Item Type"; "Title"; "Original Estimate"]%string
      = true)).
Proof.
  intros H. pose proof (validate_data_after_processing sheet df H) as Hv.
  split.
  - destruct (has_column df "Completed Work") eqn:E.
    + tauto.
    + split; [|discriminate]. intros [a Ha]. rewrite Hv in Ha.
      discriminate Ha.
  - intros report Hreport.
    destruct (has_column df "Completed Work") eqn:E.
    2:{ rewrite Hv in Hreport. discriminate Hreport. }
    destruct (ValidatorFacts.validate_data_status df report Hreport)
      as [Hstatus _].
    processed_columns H.
    assert (Hreq : has_columns df required_cols
                   = has_columns df
                       ["Work Item Type"; "Title"; "Original Estimate"]%string).
    { unfold has_columns, required_cols. simpl forallb.
      rewrite E.
      repeat match goal with
             | Hc : has_column df ?c = true |- _ => rewrite Hc; clear Hc
             end.
      now rewrite !andb_true_r. }
    rewrite Hstatus, Hreq. clear Hstatus Hreq.
    destruct (has_columns df _); split; split; intros Heq;
      first [reflexivity | discriminate Heq].
Qed.

Lemma validation_after_processing_witness :
  process_azure_data sheet_one_unassigned
  = Value (processed sheet_one_unassigned) /\
  returns (validate_data (processed sheet_one_unassigned)).
Proof.
  split; [reflexivity|].
  apply (proj1 (validation_after_processing sheet_one_unassigned
                  (processed sheet_one_unassigned) eq_refl)).
  reflexivity.
Defined.

(** X3: the Remaining Work column is not among the required columns.  A
    sheet without it is processed and validated with status [success], and
    then both aggregations raise [KeyError]. *)
Theorem remaining_work_not_validated (sheet : Frame RawRow.t)
    (df : Frame WorkItem.t) :
  process_azure_data sheet = Value df ->
  has_columns df required_cols = true ->
  has_column df "Remaining Work" = false ->
  (exists report,
     validate_data df = Value report /\ status report = success) /\
  (exists c, aggregate_by_staff df = Raise (KeyError c)) /\
  (exists c, aggregate_by_team df = Raise (KeyError c)).
Proof.
  intros H Hreq Hrem. processed_columns H.
  pose proof Hreq as Hreq'. split_columns Hreq'.
  split; [|split].
  - pose proof (validate_data_after_processing sheet df H) as Hv.
    match goal with
    | Hc : has_column df "Completed Work" = true |- _ => rewrite Hc in Hv
    end.
    destruct Hv as [report Hreport]. exists report.
    split; [exact Hreport|].
    destruct (ValidatorFacts.validate_data_status df report Hreport)
      as [Hstatus _].
    now rewrite Hstatus, Hreq.
  - exists "Remaining Work"%string. unfold aggregate_by_staff, agg_columns.
    simpl require_all. columns_present. unfold require. now rewrite Hrem.
  - exists "Remaining Work"%string. unfold aggregate_by_team, agg_columns.
    simpl require_all. columns_present. unfold require. now rewrite Hrem.
Qed.

Lemma remaining_work_not_validated_witness :
  process_azure_data sheet_without_remaining_work
  = Value (processed sheet_without_remaining_work) /\
  has_columns (processed sheet_without_remaining_work) required_cols = true /\
  has_column (processed sheet_without_remaining_work) "Remaining Work"
  = false /\
  (exists report,
     validate_data (processed sheet_without_remaining_work) = Value report /\
     status report = success) /\
  (exists c, aggregate_by_staff (processed sheet_without_remaining_work)
             = Raise (KeyError c)) /\
  (exists c, aggregate_by_team (processed sheet_without_remaining_work)
             = Raise (KeyError c)).
Proof.
  split; [reflexivity|]. split; [reflexivity|]. split; [reflexivity|].
  exact (remaining_work_not_validated sheet_without_remaining_work
           (processed sheet_without_remaining_work) eq_refl eq_refl eq_refl).
Defined.

End ProcessFacts.

(** ** What the identity patterns can match *)

Module ExtractionFacts.

Import Regex SprintDataProcessor RegexFacts.

Lemma spaces_then_bracket_sound (s : list ascii) (pos gs ge : nat)
    (r : nat * nat) :
  match_here spaces_then_bracket pos s gs ge = Some r ->
  exists w t,
    s = w ++ "<"%char :: t /\ forallb is_space w = true /\ r = (gs, ge).
Proof.
  unfold spaces_then_bracket. revert pos.
  induction s as [|c s IH]; intros pos H.
  - discriminate H.
  - rewrite match_here_star_cons in H. unfold cclass_matches at 1 in H.
    destruct (is_space c) eqn:Hc.
    + destruct (match_here [AStar CSpace; AOne (CChar "<")] (S pos) s gs ge)
        as [r'|] eqn:E.
      * injection H as <-. destruct (IH _ E) as (w & t & -> & Hw & ->).
        exists (c :: w), t. repeat split. simpl. now rewrite Hc.
      * rewrite bracket_fails in H by now apply space_is_no_bracket.
        discriminate H.
    + rewrite match_here_one in H. unfold cclass_matches in H.
      destruct (Ascii.eqb_spec "<" c) as [<- | _]; [|discriminate H].
      injection H as <-. exists [], s. repeat split.
Qed.

Lemma right_trimmed_cons (c d : ascii) (n w t : list ascii)
    (pos gs ge : nat) :
  match_here spaces_then_bracket pos (d :: n ++ w ++ "<"%char :: t) gs ge
  = None ->
  forallb is_space w = true ->
  right_trimmed (d :: n) = true ->
  right_trimmed (c :: d :: n) = true.
Proof.
  intros Hfail Hw Htrim. destruct n as [|d' n].
  - unfold right_trimmed. simpl last.
    destruct (is_space d) eqn:Hd.
    + rewrite (spaces_then_bracket_matches (d :: w) t) in Hfail.
      * discriminate Hfail.
      * simpl. now rewrite Hd.
    + destruct (Ascii.eqb_spec d "<") as [-> | _]; [|reflexivity].
      change ("<"%char :: [] ++ w ++ "<"%char :: t)
        with ([] ++ "<"%char :: (w ++ "<"%char :: t)) in Hfail.
      rewrite (spaces_then_bracket_matches [] (w ++ "<"%char :: t)) in Hfail
        by reflexivity.
      discriminate Hfail.
  - exact Htrim.
Qed.

Lemma name_body_sound (s : list ascii) (pos gs ge : nat) (r : nat * nat) :
  match_here name_body pos s gs ge = Some r ->
  exists n w t,
    s = n ++ w ++ "<"%char :: t /\
    n <> [] /\
    no_newline n = true /\
    forallb is_space w = true /\
    right_trimmed n = true /\
    r = (gs, (pos + List.length n)%nat).
Proof.
  unfold name_body, spaces_then_bracket. revert pos.
  induction s as [|c s IH]; intros pos H.
  - discriminate H.
  - rewrite match_here_plus_cons in H. unfold cclass_matches at 1 in H.
    destruct (Ascii.eqb c "010") eqn:Hnl; [discriminate H|].
    simpl negb in H. cbv iota in H. rewrite match_here_close in H.
    fold spaces_then_bracket in H.
    destruct (match_here spaces_then_bracket (S pos) s gs (S pos))
      as [r'|] eqn:E.
    + injection H as <-.
      destruct (spaces_then_bracket_sound _ _ _ _ _ E) as (w & t & -> & Hw & ->).
      exists [c], w, t. repeat split; try easy.
      * unfold no_newline, newline. simpl. now rewrite Hnl.
      * f_equal. simpl. lia.
    + unfold spaces_then_bracket in H.
      destruct (IH _ H) as (n & w & t & -> & Hn & Hnonl & Hw & Htrim & ->).
      exists (c :: n), w, t. repeat split; try easy.
      * unfold no_newline, newline in *. simpl. now rewrite Hnl, Hnonl.
      * destruct n as [|d n]; [contradiction|].
        now apply (right_trimmed_cons c d n w t (S pos) gs (S pos)).
      * f_equal. simpl. lia.
Qed.

Lemma name_search_sound (s : list ascii) (r : nat * nat) :
  search name_pattern s = Some r ->
  exists n w t,
    s = n ++ w ++ "<"%char :: t /\
    n <> [] /\
    no_newline n = true /\
    forallb is_space w = true /\
    right_trimmed n = true /\
    r = (0%nat, List.length n).
Proof.
  unfold search. destruct s as [|c s]; [discriminate|].
  rewrite search_from_cons.
  change (match_here name_pattern 0 (c :: s) 0 0)
    with (match_here name_body 0 (c :: s) 0 0).
  destruct (match_here name_body 0 (c :: s) 0 0) as [r'|] eqn:E.
  - intros [= <-]. now apply name_body_sound in E.
  - now rewrite name_pattern_late.
Qed.

Lemma email_body_sound (s : list ascii) (pos gs ge : nat) (r : nat * nat) :
  match_here email_body pos s gs ge = Some r ->
  exists c e t,
    s = c :: e ++ ">"%char :: t /\
    no_newline (c :: e) = true /\
    no_closing_bracket e = true /\
    r = (gs, (pos + S (List.length e))%nat).
Proof.
  unfold email_body. revert pos.
  induction s as [|c s IH]; intros pos H.
  - discriminate H.
  - rewrite match_here_plus_cons in H. unfold cclass_matches at 1 in H.
    destruct (Ascii.eqb c "010") eqn:Hnl; [discriminate H|].
    simpl negb in H. cbv iota in H. rewrite match_here_close in H.
    destruct s as [|d s].
    + discriminate H.
    + rewrite match_here_one in H. unfold cclass_matches at 1 in H.
      destruct (Ascii.eqb_spec ">" d) as [<- | Hd].
      * injection H as <-. exists c, [], s. repeat split.
        -- unfold no_newline, newline. simpl. now rewrite Hnl.
        -- simpl List.length. f_equal. lia.
      * destruct (IH _ H) as (c' & e & t & Heq & Hnonl & Hgt & ->).
        injection Heq as <- ->.
        exists c, (d :: e), t. repeat split.
        -- unfold no_newline, newline in *. simpl in *. now rewrite Hnl.
        -- unfold no_closing_bracket in *. simpl. rewrite Hgt.
           destruct (Ascii.eqb_spec d ">") as [-> | _]; [contradiction|].
           reflexivity.
        -- simpl List.length. f_equal. lia.
Qed.

Lemma email_search_sound (s : list ascii) (pos : nat) (r : nat * nat) :
  search_from email_pattern pos s = Some r ->
  exists a c e t,
    s = a ++ "<"%char :: (c :: e) ++ ">"%char :: t /\
    no_newline (c :: e) = true /\
    no_closing_bracket e = true /\
    r = ((pos + S (List.length a))%nat,
         (pos + S (List.length a) + S (List.length e))%nat).
Proof.
  revert pos. induction s as [|x s IH]; intros pos H.
  - discriminate H.
  - rewrite search_from_cons in H.
    destruct (match_here email_pattern pos (x :: s) 0 0) as [r'|] eqn:E.
    + injection H as <-. unfold email_pattern in E.
      rewrite match_here_one in E. unfold cclass_matches in E.
      destruct (Ascii.eqb_spec "<" x) as [<- | _]; [|discriminate E].
      change (match_here email_body (S pos) s (S pos) 0 = Some r') in E.
      apply email_body_sound in E as (c & e & t & -> & Hnonl & Hgt & ->).
      exists [], c, e, t. repeat split; try easy.
      simpl. f_equal; lia.
    + destruct (IH _ H) as (a & c & e & t & -> & Hnonl & Hgt & ->).
      exists (x :: a), c, e, t. repeat split; try easy.
      simpl. f_equal; lia.
Qed.

Lemma slice_between (p m r : list ascii) (start stop : nat) :
  start = List.length p ->
  stop = (List.length p + List.length m)%nat ->
  slice (p ++ m ++ r) start stop = m.
Proof. intros -> ->. apply slice_middle. Qed.

Lemma string_not_empty (l : list ascii) :
  l <> [] -> string_of_list_ascii l <> EmptyString.
Proof. now destruct l. Qed.

(** X4: whenever normalization yields a staff name, the combined string
    starts with that name, followed by white space and a [<]; the name is
    not empty, holds no newline, and, unless it is a single character, ends
    neither in white space nor in [<]. *)
Theorem extracted_name_shape (r : RawRow.t) (name : string) :
  WorkItem.staff_name (process_row r) = Some name ->
  exists s, RawRow.Assigned_To r = Some s /\ name_shape s name.
Proof.
  change (WorkItem.staff_name (process_row r))
    with (extract_name (RawRow.Assigned_To r)).
  unfold extract_name, str_extract.
  destruct (RawRow.Assigned_To r) as [s|]; [|discriminate].
  destruct (search name_pattern (list_ascii_of_string s)) as [[gs ge]|] eqn:E;
    [|discriminate].
  intros [= <-]. exists s. split; [reflexivity|].
  apply name_search_sound in E
    as (n & w & t & Hs & Hn & Hnonl & Hw & Htrim & [= -> ->]).
  unfold name_shape. exists w, t. rewrite Hs.
  change (n ++ w ++ "<"%char :: t) with ([] ++ n ++ (w ++ "<"%char :: t)).
  rewrite (slice_middle [] n). simpl app.
  rewrite list_ascii_of_string_of_list_ascii.
  repeat split; try assumption. now apply string_not_empty.
Qed.

Lemma extracted_name_shape_witness :
  WorkItem.staff_name (process_row row_ahmed) = Some "Ahmed Talaat"%string /\
  exists s, RawRow.Assigned_To row_ahmed = Some s /\
            name_shape s "Ahmed Talaat".
Proof.
  split; [reflexivity|].
  exact (extracted_name_shape row_ahmed "Ahmed Talaat" eq_refl).
Defined.

(** X5: whenever normalization yields a staff email, the combined string
    holds a [<], then that email, then a [>]; the email is not empty, holds
    no newline, and no [>] after its first character. *)
Theorem extracted_email_shape (r : RawRow.t) (email : string) :
  WorkItem.staff_email (process_row r) = Some email ->
  exists s, RawRow.Assigned_To r = Some s /\ email_shape s email.
Proof.
  change (WorkItem.staff_email (process_row r))
    with (extract_email (RawRow.Assigned_To r)).
  unfold extract_email, str_extract.
  destruct (RawRow.Assigned_To r) as [s|]; [|discriminate].
  destruct (search email_pattern (list_ascii_of_string s)) as [[gs ge]|] eqn:E;
    [|discriminate].
  intros [= <-]. exists s. split; [reflexivity|].
  apply email_search_sound in E
    as (a & c & e & t & Hs & Hnonl & Hgt & [= -> ->]).
  unfold email_shape. exists a, t.
  match goal with
  | |- context [slice ?l ?x ?y] => replace (slice l x y) with (c :: e)
  end.
  2:{ symmetry. rewrite Hs.
      replace (a ++ "<"%char :: (c :: e) ++ ">"%char :: t)
        with ((a ++ ["<"%char]) ++ (c :: e) ++ (">"%char :: t))
        by (now rewrite <- app_assoc).
      apply slice_between; rewrite length_app; simpl; lia. }
  rewrite list_ascii_of_string_of_list_ascii.
  repeat split; try assumption. discriminate.
Qed.

Lemma extracted_email_shape_witness :
  WorkItem.staff_email (process_row row_ahmed)
  = Some "atalaat@youxel.com"%string /\
  exists s, RawRow.Assigned_To row_ahmed = Some s /\
            email_shape s "atalaat@youxel.com".
Proof.
  split; [reflexivity|].
  exact (extracted_email_shape row_ahmed "atalaat@youxel.com" eq_refl).
Defined.

End ExtractionFacts.

(** ** Tag flags *)

Module TagFacts.

Import SprintDataProcessor.

Lemma to_lower_idempotent (c : ascii) : to_lower (to_lower c) = to_lower c.
Proof.
  destruct c as [[] [] [] [] [] [] [] []]; reflexivity.
Qed.

Lemma prefix_ci_iff (p s : list ascii) :
  prefix_ci p s = true <->
  exists m b, s = m ++ b /\ map to_lower m = map to_lower p.
Proof.
  revert s. induction p as [|a p IH]; intros s; simpl.
  - split; [|reflexivity]. intros _. now exists [], s.
  - destruct s as [|c s].
    + split; [discriminate|]. intros (m & b & Hs & Hm).
      destruct m; [discriminate Hm|discriminate Hs].
    + rewrite andb_true_iff, IH, Ascii.eqb_eq. split.
      * intros (Hac & m & b & -> & Hm). exists (c :: m), b.
        split; [reflexivity|]. simpl. now rewrite Hm, Hac.
      * intros (m & b & Hs & Hm). destruct m as [|c' m]; [discriminate Hm|].
        injection Hs as <- ->. injection Hm as Hc Hm.
        split; [now symmetry|]. now exists m, b.
Qed.

Lemma contains_ci_iff (p s : list ascii) :
  contains_ci p s = true <->
  exists a m b, s = a ++ m ++ b /\ map to_lower m = map to_lower p.
Proof.
  induction s as [|c s IH].
  - simpl. rewrite orb_false_r, prefix_ci_iff. split.
    + intros (m & b & Hs & Hm). now exists [], m, b.
    + intros (a & m & b & Hs & Hm). destruct a; [|discriminate Hs].
      now exists m, b.
  - simpl. rewrite orb_true_iff, IH, prefix_ci_iff. split.
    + intros [(m & b & Hs & Hm) | (a & m & b & -> & Hm)].
      * now exists [], m, b.
      * now exists (c :: a), m, b.
    + intros (a & m & b & Hs & Hm). destruct a as [|c' a].
      * left. now exists m, b.
      * right. injection Hs as <- ->. now exists a, m, b.
Qed.

Lemma prefix_ci_lower (p s : list ascii) :
  prefix_ci p (map to_lower s) = prefix_ci p s.
Proof.
  revert s. induction p as [|a p IH]; intros [|c s]; simpl; try reflexivity.
  now rewrite to_lower_idempotent, IH.
Qed.

Lemma contains_ci_lower (p s : list ascii) :
  contains_ci p (map to_lower s) = contains_ci p s.
Proof.
  induction s as [|c s IH].
  - reflexivity.
  - simpl contains_ci at 2. rewrite <- IH, <- (prefix_ci_lower p (c :: s)).
    reflexivity.
Qed.

Lemma str_contains_ci_iff (marker : string) (tags : option string) :
  marker <> EmptyString ->
  str_contains_ci marker (fillna_empty tags) = true <->
  exists t, tags = Some t /\ holds_marker marker t.
Proof.
  intros Hmarker. unfold str_contains_ci, holds_marker.
  rewrite contains_ci_iff. destruct tags as [t|]; simpl.
  - split.
    + intros H. now exists t.
    + now intros (t' & [= <-] & H).
  - split.
    + intros (a & m & b & Hs & Hm).
      destruct a; [|discriminate Hs]. destruct m; [|discriminate Hs].
      destruct marker; [contradiction|discriminate Hm].
    + now intros (t & Ht & _).
Qed.

(** X6: a row carries the mid-sprint flag exactly when its Tags cell holds
    the text MidSprint_Addition somewhere, in any mix of upper and lower
    case, and the ad-hoc flag likewise for Ad-hoc; an empty Tags cell gives
    neither. *)
Theorem tag_flags (r : RawRow.t) :
  (WorkItem.has_midsprint_addition (process_row r) = true <->
   exists tags, RawRow.Tags r = Some tags /\
                holds_marker "MidSprint_Addition" tags) /\
  (WorkItem.has_adhoc (process_row r) = true <->
   exists tags, RawRow.Tags r = Some tags /\ holds_marker "Ad-hoc" tags).
Proof.
  split; apply str_contains_ci_iff; discriminate.
Qed.

(** X7: the two flags do not depend on the case of the letters of the
    Tags cell. *)
Theorem tag_flags_ignore_case (r r' : RawRow.t) (tags tags' : string) :
  RawRow.Tags r = Some tags ->
  RawRow.Tags r' = Some tags' ->
  same_up_to_case tags tags' ->
  WorkItem.has_midsprint_addition (process_row r)
  = WorkItem.has_midsprint_addition (process_row r') /\
  WorkItem.has_adhoc (process_row r) = WorkItem.has_adhoc (process_row r').
Proof.
  intros Ht Ht' Hsame. unfold same_up_to_case in Hsame.
  cbn [process_row WorkItem.has_midsprint_addition WorkItem.has_adhoc].
  rewrite Ht, Ht'. unfold str_contains_ci, fillna_empty.
  split.
  - rewrite <- (contains_ci_lower _ (list_ascii_of_string tags)), Hsame.
    apply contains_ci_lower.
  - rewrite <- (contains_ci_lower _ (list_ascii_of_string tags)), Hsame.
    apply contains_ci_lower.
Qed.

Lemma tag_flags_ignore_case_witness :
  same_up_to_case "Ad-hoc; Late" "AD-HOC; late" /\
  WorkItem.has_adhoc
    (process_row (raw_row None None (Some "Ad-hoc; Late"%string) None 0 0 0))
  = WorkItem.has_adhoc
      (process_row
         (raw_row None None (Some "AD-HOC; late"%string) None 0 0 0)).
Proof.
  split; [reflexivity|].
  exact (proj2 (tag_flags_ignore_case
                  (raw_row None None (Some "Ad-hoc; Late"%string) None 0 0 0)
                  (raw_row None None (Some "AD-HOC; late"%string) None 0 0 0)
                  "Ad-hoc; Late" "AD-HOC; late" eq_refl eq_refl eq_refl)).
Defined.

End TagFacts.

(** ** The report of [validate_data] *)

Module ReportFacts.

Import SprintDataProcessor.

Lemma opt_string_eqb_eq (a b : option string) :
  opt_string_eqb a b = true <-> a = b.
Proof.
  destruct a as [x|], b as [y|]; simpl; try (split; congruence).
  rewrite String.eqb_eq. split; congruence.
Qed.

Lemma In_unique (l : list (option string)) (x : option string) :
  In x (unique l) <-> In x l.
Proof.
  induction l as [|a l IH]; simpl; [tauto|].
  rewrite filter_In, IH, negb_true_iff. split.
  - intros [-> | [Hin _]]; auto.
  - intros [-> | Hin]; [now left|].
    destruct (opt_string_eqb a x) eqn:E.
    + left. now apply opt_string_eqb_eq.
    + right. now split.
Qed.

Lemma NoDup_unique (l : list (option string)) : NoDup (unique l).
Proof.
  induction l as [|a l IH]; simpl; constructor.
  - rewrite filter_In, negb_true_iff. intros [_ Hneq].
    assert (Heq : opt_string_eqb a a = true) by now apply opt_string_eqb_eq.
    congruence.
  - now apply GroupByFacts.NoDup_filter.
Qed.

(** The three checks of [validate_data], in the order it makes them. *)
Lemma validate_data_warnings (df : Frame WorkItem.t)
    (report : ValidationReport) :
  validate_data df = Value report ->
  let unassigned :=
    count_true (fun r => is_none (WorkItem.Assigned_To r)) (rows df) in
  let unmapped := filter (fun r => is_none (WorkItem.team r)) (rows df) in
  let incomplete :=
    count_true (fun r => Qlt_bool 0 (WorkItem.Completed_Work r) &&
                         negb (WorkItem.is_done r)) (rows df) in
  warnings report =
  (if (0 <? unassigned)%nat then [missing_assignments unassigned] else []) ++
  (if (0 <? List.length unmapped)%nat
   then [unmapped_activities (unique (map WorkItem.Activity unmapped))]
   else []) ++
  (if (0 <? incomplete)%nat then [incomplete_tasks_with_work incomplete]
   else []).
Proof.
  unfold validate_data, require, count_true.
  set (n1 := List.length
               (filter (fun r => is_none (WorkItem.Assigned_To r)) (rows df))).
  set (um := filter (fun r => is_none (WorkItem.team r)) (rows df)).
  set (n3 := List.length
               (filter (fun r => Qlt_bool 0 (WorkItem.Completed_Work r) &&
                                 negb (WorkItem.is_done r)) (rows df))).
  destruct (has_column df "Assigned To"); cbn [bind]; [|discriminate].
  destruct (has_column df "team"); cbn [bind]; [|discriminate].
  destruct (0 <? n1)%nat; destruct (0 <? List.length um)%nat; cbn [bind];
    try (destruct (has_column df "Activity"); cbn [bind]; [|discriminate]);
    (destruct (has_column df "Completed Work"); cbn [bind]; [|discriminate]);
    (destruct (has_column df "is_done"); cbn [bind]; [|discriminate]);
    destruct (0 <? n3)%nat; intros [= <-]; reflexivity.
Qed.

Lemma dict_get_none (d : list (string * string)) (k : string) :
  dict_get d k = None <-> ~ In k (map fst d).
Proof.
  induction d as [|[k' v] d IH]; simpl.
  - tauto.
  - destruct (String.eqb_spec k' k) as [-> | Hne].
    + split; [discriminate|]. intros H. exfalso. apply H. now left.
    + rewrite IH. tauto.
Qed.

Lemma team_of_unmapped (a : option string) :
  series_map team_mapping a = None <-> ~ mapped_activity a.
Proof.
  unfold mapped_activity. destruct a as [a|]; unfold series_map.
  - rewrite dict_get_none.
    change (map fst team_mapping) with known_activities. split.
    + intros Hnot (x & [= <-] & Hin). contradiction.
    + intros Hnot Hin. apply Hnot. now exists a.
  - split; [|reflexivity]. intros _ (x & Hx & _). discriminate Hx.
Qed.

Lemma In_unmapped_warning (w1 w3 : list Issue) (um : list WorkItem.t)
    (listed acts : list (option string)) :
  (forall a, ~ In (unmapped_activities a) w1) ->
  (forall a, ~ In (unmapped_activities a) w3) ->
  In (unmapped_activities acts)
    (w1 ++
     (if (0 <? List.length um)%nat then [unmapped_activities listed]
      else []) ++ w3) <->
  um <> [] /\ acts = listed.
Proof.
  intros H1 H3. rewrite !in_app_iff. destruct um as [|u um]; simpl.
  - split.
    + intros [H | [[] | H]]; [now apply H1 in H|now apply H3 in H].
    + intros [Hne _]. contradiction.
  - split.
    + intros [H | [[H | []] | H]];
        [now apply H1 in H| |now apply H3 in H].
      injection H as <-. split; [discriminate|reflexivity].
    + intros [_ ->]. right. left. now left.
Qed.

(** X8: after [process_azure_data], [validate_data] warns about unmapped
    activities exactly when some row has an activity outside the five
    known ones (an empty cell included), and the warning lists each such
    activity once. *)
Theorem unmapped_activities_listed (sheet : Frame RawRow.t)
    (df : Frame WorkItem.t) (report : ValidationReport) :
  process_azure_data sheet = Value df ->
  validate_data df = Value report ->
  ((exists acts, In (unmapped_activities acts) (warnings report)) <->
   (exists r, In r (rows sheet) /\ ~ mapped_activity (RawRow.Activity r))) /\
  (forall acts, In (unmapped_activities acts) (warnings report) ->
     NoDup acts /\
     forall a, In a acts <->
               ~ mapped_activity a /\
               exists r, In r (rows sheet) /\ RawRow.Activity r = a).
Proof.
  intros Hdf Hreport.
  pose proof (validate_data_warnings df report Hreport) as Hw.
  cbv zeta in Hw.
  apply ProcessFacts.process_azure_data_inv in Hdf as [_ ->].
  cbn [rows] in Hw.
  remember (filter (fun r => is_none (WorkItem.team r))
              (map process_row (rows sheet))) as unmapped eqn:Hum.
  assert (Hunmapped : forall a,
            In a (map WorkItem.Activity unmapped) <->
            ~ mapped_activity a /\
            exists r, In r (rows sheet) /\ RawRow.Activity r = a).
  { intros a. rewrite Hum, in_map_iff. split.
    - intros (item & <- & Hin). apply filter_In in Hin as [Hin Hnone].
      apply in_map_iff in Hin as (r & <- & Hr).
      cbn [process_row WorkItem.team WorkItem.Activity] in *.
      split; [|now exists r]. apply team_of_unmapped.
      now destruct (series_map team_mapping (RawRow.Activity r)).
    - intros (Hnot & r & Hr & <-). exists (process_row r).
      split; [reflexivity|]. apply filter_In. split.
      + now apply in_map.
      + cbn [process_row WorkItem.team].
        apply team_of_unmapped in Hnot. now rewrite Hnot. }
  clear Hum.
  assert (Hshape : forall acts,
            In (unmapped_activities acts) (warnings report) <->
            unmapped <> [] /\
            acts = unique (map WorkItem.Activity unmapped)).
  { intros acts. rewrite Hw. apply In_unmapped_warning.
    - intros a Hin. destruct (0 <? _)%nat in Hin; simpl in Hin.
      + destruct Hin as [H | []]. discriminate H.
      + exact Hin.
    - intros a Hin. destruct (0 <? _)%nat in Hin; simpl in Hin.
      + destruct Hin as [H | []]. discriminate H.
      + exact Hin. }
  split.
  - split.
    + intros (acts & Hin). apply Hshape in Hin as [Hne _].
      destruct unmapped as [|u l] eqn:E; [contradiction|].
      destruct (proj1 (Hunmapped (WorkItem.Activity u)))
        as (Hnot & r & Hr & Ha).
      { now left. }
      exists r. split; [exact Hr|]. now rewrite Ha.
    + intros (r & Hr & Hnot).
      exists (unique (map WorkItem.Activity unmapped)). apply Hshape.
      split; [|reflexivity].
      assert (Hin : In (RawRow.Activity r) (map WorkItem.Activity unmapped)).
      { apply Hunmapped. split; [exact Hnot|]. now exists r. }
      intros Hnil. rewrite Hnil in Hin. contradiction.
  - intros acts Hin. apply Hshape in Hin as [_ ->].
    split; [apply NoDup_unique|]. intros a.
    now rewrite In_unique.
Qed.

Lemma unmapped_activities_listed_witness :
  process_azure_data sheet_unmapped = Value (processed sheet_unmapped) /\
  exists report,
    validate_data (processed sheet_unmapped) = Value report /\
    In (unmapped_activities [Some "Research"%string; None]) (warnings report)
    /\
    (exists r, In r (rows sheet_unmapped) /\
               ~ mapped_activity (RawRow.Activity r)).
Proof.
  split; [reflexivity|].
  eexists. split; [reflexivity|]. split; [left; reflexivity|].
  apply (proj1 (unmapped_activities_listed sheet_unmapped
                  (processed sheet_unmapped) _ eq_refl eq_refl)).
  eexists. left. reflexivity.
Defined.

End ReportFacts.

(** ** Order, cover and totals of the groups *)

Module GroupFacts.

Import SprintDataProcessor.

Section Generic.

Variable K : Type.
Variable cmp : K -> K -> comparison.
Variable key : WorkItem.t -> option K.
Hypothesis cmp_eq : forall a b, cmp a b = Eq <-> a = b.
Hypothesis cmp_gt : forall a b, cmp a b = Gt -> cmp b a = Lt.

Lemma ascending_tail (a : K) (l : list K) : ascending cmp (a :: l) -> ascending cmp l.
Proof. destruct l; simpl; tauto. Qed.

Lemma insert_sorted_ascending (k : K) (l : list K) :
  ascending cmp l -> ascending cmp (insert_sorted cmp k l).
Proof.
  induction l as [|a l IH]; intros Hl.
  - exact I.
  - simpl insert_sorted. destruct (cmp k a) eqn:E.
    + simpl. split; [congruence|exact Hl].
    + simpl. split; [congruence|exact Hl].
    + specialize (IH (ascending_tail _ _ Hl)).
      destruct l as [|b l].
      * simpl. split; [|exact I]. rewrite (cmp_gt _ _ E). discriminate.
      * simpl insert_sorted in *. destruct (cmp k b) eqn:E'.
        -- split; [|exact IH]. rewrite (cmp_gt _ _ E). discriminate.
        -- split; [|exact IH]. rewrite (cmp_gt _ _ E). discriminate.
        -- split; [|exact IH]. now destruct Hl.
Qed.

Lemma sort_keys_ascending (l : list K) : ascending cmp (sort_keys cmp l).
Proof.
  induction l as [|a l IH]; simpl; [exact I|].
  now apply insert_sorted_ascending.
Qed.

Lemma ascending_strict (l : list K) :
  ascending cmp l -> NoDup l -> strictly_increasing cmp l.
Proof.
  induction l as [|a l IH]; intros Hasc Hnd; [exact I|].
  destruct l as [|b l]; [exact I|].
  destruct Hasc as [Hab Hasc]. inversion Hnd as [|? ? Hnotin Hnd']; subst.
  split; [|now apply IH].
  destruct (cmp a b) eqn:E; [|reflexivity|contradiction].
  apply cmp_eq in E. subst. exfalso. apply Hnotin. now left.
Qed.

Lemma group_keys_increasing (items : list WorkItem.t) :
  strictly_increasing cmp (group_keys cmp key items).
Proof.
  apply ascending_strict.
  - apply sort_keys_ascending.
  - now apply GroupByFacts.NoDup_group_keys.
Qed.

Lemma groupby_keys (items : list WorkItem.t) :
  map fst (groupby cmp key items) = group_keys cmp key items.
Proof.
  unfold groupby. rewrite map_map. simpl. apply map_id.
Qed.

(** A group is never empty, and its members are rows of the frame. *)
Lemma group_not_empty (items : list WorkItem.t) (g : K * list WorkItem.t) :
  In g (groupby cmp key items) ->
  exists r, In r (snd g) /\ In r items /\ key r = Some (fst g).
Proof.
  unfold groupby. intros Hg. apply in_map_iff in Hg as (k & <- & Hk).
  apply (GroupByFacts.In_group_keys _ _ _ cmp_eq) in Hk as (r & Hr & Hkey).
  exists r. simpl. split; [|now split].
  apply filter_In. split; [exact Hr|].
  now apply (GroupByFacts.in_group_iff _ _ _ cmp_eq).
Qed.

(** *** Sums over the groups *)






End Generic.

End GroupFacts.

(** ** The two aggregations *)

Module AggregateFacts.

Import SprintDataProcessor AggregatorFacts.

Lemma string_compare_gt (a b : string) :
  String.compare a b = Gt -> String.compare b a = Lt.
Proof.
  rewrite String.compare_antisym. now destruct (String.compare b a).
Qed.

Lemma staff_key_compare_gt (a b : string * string * string) :
  staff_key_compare a b = Gt -> staff_key_compare b a = Lt.
Proof.
  destruct a as [[e1 n1] t1], b as [[e2 n2] t2]. unfold staff_key_compare.
  rewrite (String.compare_antisym e1 e2), (String.compare_antisym n1 n2),
    (String.compare_antisym t1 t2).
  destruct (String.compare e2 e1); simpl; try congruence.
  destruct (String.compare n2 n1); simpl; try congruence.
  now destruct (String.compare t2 t1).
Qed.

Lemma staff_key_of_aggregate (g : string * string * string * list WorkItem.t) :
  staff_key_of (staff_aggregate g) = fst g.
Proof. now destruct g as [[[e n] t] l]. Qed.

Lemma team_of_aggregate (g : string * list WorkItem.t) :
  TeamAggregate.team (team_aggregate g) = fst g.
Proof. now destruct g as [t l]. Qed.

Lemma staff_keys (items : list WorkItem.t) :
  map staff_key_of (map staff_aggregate (staff_groups items))
  = group_keys staff_key_compare staff_key items.
Proof.
  rewrite map_map, (map_ext _ fst staff_key_of_aggregate).
  apply GroupFacts.groupby_keys.
Qed.

Lemma team_keys (items : list WorkItem.t) :
  map TeamAggregate.team (map team_aggregate (team_groups items))
  = group_keys String.compare team_key items.
Proof.
  rewrite map_map, (map_ext _ fst team_of_aggregate).
  apply GroupFacts.groupby_keys.
Qed.

(** X9: both aggregations return their groups in strictly increasing key
    order, so no key occurs twice: staff groups by email, then name, then
    team, and team groups by team name, each compared character by
    character. *)
Theorem aggregates_sorted (df : Frame WorkItem.t) :
  has_columns df group_columns = true ->
  exists staff_agg team_agg,
    aggregate_by_staff df = Value staff_agg /\
    aggregate_by_team df = Value team_agg /\
    strictly_increasing staff_key_compare (map staff_key_of staff_agg) /\
    NoDup (map staff_key_of staff_agg) /\
    strictly_increasing String.compare
      (map TeamAggregate.team team_agg) /\
    NoDup (map TeamAggregate.team team_agg).
Proof.
  intros Hcols. eexists. eexists.
  split; [now apply aggregate_by_staff_eq|].
  split; [now apply aggregate_by_team_eq|].
  rewrite staff_keys, team_keys. repeat split.
  - apply GroupFacts.group_keys_increasing;
      [apply staff_key_compare_eq|apply staff_key_compare_gt].
  - apply GroupByFacts.NoDup_group_keys. apply staff_key_compare_eq.
  - apply GroupFacts.group_keys_increasing;
      [apply string_compare_eq|apply string_compare_gt].
  - apply GroupByFacts.NoDup_group_keys. apply string_compare_eq.
Qed.

Lemma aggregates_sorted_witness :
  has_columns (processed sheet_two_teams) group_columns = true /\
  exists staff_agg team_agg,
    aggregate_by_staff (processed sheet_two_teams) = Value staff_agg /\
    aggregate_by_team (processed sheet_two_teams) = Value team_agg /\
    strictly_increasing staff_key_compare (map staff_key_of staff_agg) /\
    NoDup (map staff_key_of staff_agg) /\
    strictly_increasing String.compare
      (map TeamAggregate.team team_agg) /\
    NoDup (map TeamAggregate.team team_agg).
Proof.
  split; [reflexivity|].
  exact (aggregates_sorted (processed sheet_two_teams) eq_refl).
Defined.

(** X10: every group of either aggregation holds at least one work item
    of the frame, and that item carries the key of the group; the counts of
    tagged items never exceed the size of the group. *)
Theorem aggregates_inhabited (df : Frame WorkItem.t) :
  has_columns df group_columns = true ->
  exists staff_agg team_agg,
    aggregate_by_staff df = Value staff_agg /\
    aggregate_by_team df = Value team_agg /\
    Forall
      (fun a =>
         (1 <= StaffAggregate.total_count a)%nat /\
         (StaffAggregate.midsprint_count a
          <= StaffAggregate.total_count a)%nat /\
         (StaffAggregate.adhoc_count a <= StaffAggregate.total_count a)%nat /\
         exists r, In r (rows df) /\ staff_key r = Some (staff_key_of a))
      staff_agg /\
    Forall
      (fun a =>
         (1 <= TeamAggregate.total_count a)%nat /\
         (TeamAggregate.midsprint_count a
          <= TeamAggregate.total_count a)%nat /\
         (TeamAggregate.adhoc_count a <= TeamAggregate.total_count a)%nat /\
         exists r, In r (rows df) /\
                   WorkItem.team r = Some (TeamAggregate.team a))
      team_agg.
Proof.
  intros Hcols. eexists. eexists.
  split; [now apply aggregate_by_staff_eq|].
  split; [now apply aggregate_by_team_eq|].
  split; apply Forall_forall; intros a Ha;
    apply in_map_iff in Ha as (g & <- & Hg).
  - destruct (GroupFacts.group_not_empty _ _ _ staff_key_compare_eq _ _ Hg)
      as (r & Hin & Hr & Hkey).
    rewrite staff_key_of_aggregate.
    destruct g as [[[e n] t] l]. simpl in *.
    repeat split; try apply count_true_length.
    + destruct l; [contradiction|simpl; lia].
    + now exists r.
  - destruct (GroupFacts.group_not_empty _ _ team_key string_compare_eq
                _ _ Hg) as (r & Hin & Hr & Hkey).
    rewrite team_of_aggregate.
    destruct g as [t l]. simpl in *.
    repeat split; try apply count_true_length.
    + destruct l; [contradiction|simpl; lia].
    + now exists r.
Qed.

Lemma aggregates_inhabited_witness :
  has_columns (processed sheet_two_teams) group_columns = true /\
  exists staff_agg team_agg,
    aggregate_by_staff (processed sheet_two_teams) = Value staff_agg /\
    aggregate_by_team (processed sheet_two_teams) = Value team_agg /\
    Forall (fun a => (1 <= StaffAggregate.total_count a)%nat) staff_agg /\
    Forall (fun a => (1 <= TeamAggregate.total_count a)%nat) team_agg.
Proof.
  split; [reflexivity|].
  destruct (aggregates_inhabited (processed sheet_two_teams) eq_refl)
    as (sa & ta & Hs & Ht & Hsa & Hta).
  exists sa, ta. split; [exact Hs|]. split; [exact Ht|].
  split; eapply Forall_impl; try eassumption; simpl; tauto.
Defined.






Lemma count_filter_le {A : Type} (p f g : A -> bool) (l : list A) :
  (forall a, f a = true -> g a = true) ->
  (count_true p (filter f l) <= count_true p (filter g l))%nat.
Proof.
  intros Hfg. unfold count_true.
  induction l as [|a l IH]; simpl; [lia|].
  destruct (f a) eqn:Ef.
  - rewrite (Hfg a Ef). simpl. destruct (p a); simpl; lia.
  - destruct (g a); simpl; [destruct (p a); simpl; lia|lia].
Qed.

Lemma length_filter_le {A : Type} (f g : A -> bool) (l : list A) :
  (forall a, f a = true -> g a = true) ->
  (List.length (filter f l) <= List.length (filter g l))%nat.
Proof.
  intros Hfg. induction l as [|a l IH]; simpl; [lia|].
  destruct (f a) eqn:Ef.
  - rewrite (Hfg a Ef). simpl. lia.
  - destruct (g a); simpl; lia.
Qed.

Lemma staff_group_in_team_group (e n t : string) (r : WorkItem.t) :
  in_group staff_key_compare staff_key (e, n, t) r = true ->
  in_group String.compare team_key t r = true.
Proof.
  rewrite (GroupByFacts.in_group_iff _ _ _ staff_key_compare_eq),
    (GroupByFacts.in_group_iff _ _ team_key string_compare_eq).
  unfold staff_key, team_key.
  destruct (WorkItem.staff_email r), (WorkItem.staff_name r),
    (WorkItem.team r); congruence.
Qed.

(** X12: every staff group lies within the team group of its team.  That
    team group exists, and the number of items, of done items and of
    tagged items of the staff group are at most those of the team group. *)
Theorem staff_groups_within_teams (df : Frame WorkItem.t) :
  has_columns df group_columns = true ->
  exists staff_agg team_agg,
    aggregate_by_staff df = Value staff_agg /\
    aggregate_by_team df = Value team_agg /\
    forall a, In a staff_agg ->
      exists b, In b team_agg /\
        TeamAggregate.team b = StaffAggregate.team a /\
        (StaffAggregate.total_count a <= TeamAggregate.total_count b)%nat /\
        (StaffAggregate.done_count a <= TeamAggregate.done_count b)%nat /\
        (StaffAggregate.midsprint_count a
         <= TeamAggregate.midsprint_count b)%nat /\
        (StaffAggregate.adhoc_count a <= TeamAggregate.adhoc_count b)%nat.
Proof.
  intros Hcols. eexists. eexists.
  split; [now apply aggregate_by_staff_eq|].
  split; [now apply aggregate_by_team_eq|].
  intros a Ha. apply in_map_iff in Ha as (g & <- & Hg).
  destruct (GroupFacts.group_not_empty _ _ _ staff_key_compare_eq _ _ Hg)
    as (r & _ & Hr & Hkey).
  unfold staff_groups, groupby in Hg.
  apply in_map_iff in Hg as ([[e n] t] & <- & _). simpl in Hkey.
  exists (team_aggregate
            (t, filter (in_group String.compare team_key t) (rows df))).
  split.
  - apply in_map. unfold team_groups, groupby. apply in_map_iff.
    exists t. split; [reflexivity|].
    apply (GroupByFacts.In_group_keys _ _ team_key string_compare_eq).
    exists r. split; [exact Hr|].
    unfold staff_key, team_key in *.
    destruct (WorkItem.staff_email r), (WorkItem.staff_name r),
      (WorkItem.team r); congruence.
  - simpl. split; [reflexivity|].
    split; [apply length_filter_le, staff_group_in_team_group|].
    repeat split; apply count_filter_le, staff_group_in_team_group.
Qed.

Lemma staff_groups_within_teams_witness :
  has_columns (processed sheet_one_unassigned) group_columns = true /\
  exists staff_agg team_agg,
    aggregate_by_staff (processed sheet_one_unassigned) = Value staff_agg /\
    aggregate_by_team (processed sheet_one_unassigned) = Value team_agg /\
    forall a, In a staff_agg ->
      exists b, In b team_agg /\
        TeamAggregate.team b = StaffAggregate.team a /\
        (StaffAggregate.total_count a <= TeamAggregate.total_count b)%nat /\
        (StaffAggregate.done_count a <= TeamAggregate.done_count b)%nat /\
        (StaffAggregate.midsprint_count a
         <= TeamAggregate.midsprint_count b)%nat /\
        (StaffAggregate.adhoc_count a <= TeamAggregate.adhoc_count b)%nat.
Proof.
  split; [reflexivity|].
  exact (staff_groups_within_teams (processed sheet_one_unassigned) eq_refl).
Defined.

End AggregateFacts.

(** ** Items without a key *)

Module DroppedItemFacts.

Import SprintDataProcessor AggregatorFacts.

Section Generic.

Variable K : Type.
Variable cmp : K -> K -> comparison.
Variable key : WorkItem.t -> option K.
Variable p : WorkItem.t -> bool.
Hypothesis keyed_kept : forall r, p r = false -> key r = None.

Lemma key_list_filter (items : list WorkItem.t) :
  key_list key (filter p items) = key_list key items.
Proof.
  induction items as [|r items IH]; simpl; [reflexivity|].
  destruct (p r) eqn:Hp; simpl.
  - now rewrite IH.
  - now rewrite (keyed_kept r Hp).
Qed.

Lemma in_group_filter (k : K) (items : list WorkItem.t) :
  filter (in_group cmp key k) (filter p items)
  = filter (in_group cmp key k) items.
Proof.
  induction items as [|r items IH]; simpl; [reflexivity|].
  destruct (p r) eqn:Hp; simpl.
  - now rewrite IH.
  - unfold in_group at 2. now rewrite (keyed_kept r Hp).
Qed.

Lemma groupby_filter (items : list WorkItem.t) :
  groupby cmp key (filter p items) = groupby cmp key items.
Proof.
  unfold groupby, group_keys. rewrite key_list_filter.
  apply map_ext. intros k. now rewrite in_group_filter.
Qed.

End Generic.

Lemma carries_staff_key_iff (k : string * string * string) (r : WorkItem.t) :
  carries_staff_key k r = true <-> staff_key r = Some k.
Proof.
  unfold carries_staff_key, staff_key. destruct k as [[e n] t].
  destruct (WorkItem.staff_email r) as [e'|],
    (WorkItem.staff_name r) as [n'|], (WorkItem.team r) as [t'|];
    try (split; discriminate).
  simpl. rewrite !andb_true_iff, !String.eqb_eq. split.
  - intros [[-> ->] ->]. reflexivity.
  - intros [= -> -> ->]. auto.
Qed.

Lemma in_staff_group (k : string * string * string) (r : WorkItem.t) :
  in_group staff_key_compare staff_key k r = carries_staff_key k r.
Proof.
  pose proof (GroupByFacts.in_group_iff _ _ staff_key staff_key_compare_eq
                k r) as Hin.
  pose proof (carries_staff_key_iff k r) as Hc.
  destruct (in_group staff_key_compare staff_key k r),
    (carries_staff_key k r); try reflexivity.
  - symmetry. apply Hc. now apply Hin.
  - apply Hin. now apply Hc.
Qed.

Lemma in_team_group (t : string) (r : WorkItem.t) :
  in_group String.compare team_key t r = carries_team t r.
Proof.
  pose proof (GroupByFacts.in_group_iff _ _ team_key string_compare_eq t r)
    as Hin.
  unfold carries_team, cell_eqb, team_key in *.
  destruct (WorkItem.team r) as [t'|].
  - destruct (String.eqb_spec t' t) as [-> | Hne].
    + now apply Hin.
    + destruct (in_group String.compare _ t r); [|reflexivity].
      destruct Hin as [Hin _]. specialize (Hin eq_refl). congruence.
  - destruct (in_group String.compare _ t r); [|reflexivity].
    destruct Hin as [Hin _]. discriminate (Hin eq_refl).
Qed.

Lemma staff_aggregate_summary (k : string * string * string)
    (items : list WorkItem.t) :
  staff_summary_of (staff_aggregate (k, items)) items.
Proof. destruct k as [[e n] t]. repeat split. Qed.

Lemma team_aggregate_summary (t : string) (items : list WorkItem.t) :
  team_summary_of (team_aggregate (t, items)) items.
Proof. repeat split. Qed.

Lemma staff_groups_keep (q : WorkItem.t -> bool) (items : list WorkItem.t) :
  (forall r, q r = false -> staff_key r = None) ->
  staff_groups (filter q items) = staff_groups items.
Proof. intros Hq. now apply groupby_filter. Qed.

Lemma team_groups_keep (q : WorkItem.t -> bool) (items : list WorkItem.t) :
  (forall r, q r = false -> team_key r = None) ->
  team_groups (filter q items) = team_groups items.
Proof. intros Hq. now apply groupby_filter. Qed.

Lemma no_identity_no_key (r : WorkItem.t) :
  complete_identity r = false -> staff_key r = None.
Proof.
  unfold complete_identity, staff_key.
  now destruct (WorkItem.staff_email r), (WorkItem.staff_name r),
    (WorkItem.team r).
Qed.

Lemma no_team_no_staff_key (r : WorkItem.t) :
  has_team r = false -> staff_key r = None.
Proof.
  unfold has_team, staff_key.
  now destruct (WorkItem.staff_email r), (WorkItem.staff_name r),
    (WorkItem.team r).
Qed.

Lemma no_team_no_team_key (r : WorkItem.t) :
  has_team r = false -> team_key r = None.
Proof. unfold has_team, team_key. now destruct (WorkItem.team r). Qed.

(** C10, as the code has it: each pass drops the items that lack a
    component of its own key, and only those.  The staff pass returns one
    aggregate for each email, name and team carried in full by some item,
    and the totals and counts of the aggregate are those of exactly the
    items that carry the three; the team pass likewise for each team.
    Taking the items without a complete identity out of the frame does not
    change the staff aggregates, and taking the items without a team out of
    it changes neither result.  An item that has a team is counted by the
    team pass whether or not it has an email and a name. *)
Theorem grouping_drops_absent_keys (df : Frame WorkItem.t) :
  has_columns df group_columns = true ->
  exists staff_agg team_agg,
    aggregate_by_staff df = Value staff_agg /\
    aggregate_by_team df = Value team_agg /\
    NoDup (map staff_key_of staff_agg) /\
    NoDup (map TeamAggregate.team team_agg) /\
    (forall k, In k (map staff_key_of staff_agg) <->
               exists r, In r (rows df) /\ carries_staff_key k r = true) /\
    (forall t, In t (map TeamAggregate.team team_agg) <->
               exists r, In r (rows df) /\ carries_team t r = true) /\
    (forall a, In a staff_agg ->
       staff_summary_of a
         (filter (carries_staff_key (staff_key_of a)) (rows df))) /\
    (forall a, In a team_agg ->
       team_summary_of a
         (filter (carries_team (TeamAggregate.team a)) (rows df))) /\
    aggregate_by_staff (keep complete_identity df) = Value staff_agg /\
    aggregate_by_staff (keep has_team df) = Value staff_agg /\
    aggregate_by_team (keep has_team df) = Value team_agg.
Proof.
  intros Hcols.
  exists (map staff_aggregate (staff_groups (rows df))),
    (map team_aggregate (team_groups (rows df))).
  split; [now apply aggregate_by_staff_eq|].
  split; [now apply aggregate_by_team_eq|].
  split.
  { rewrite AggregateFacts.staff_keys.
    apply (GroupByFacts.NoDup_group_keys _ _ _ staff_key_compare_eq). }
  split.
  { rewrite AggregateFacts.team_keys.
    apply (GroupByFacts.NoDup_group_keys _ _ _ string_compare_eq). }
  split.
  { intros k. rewrite AggregateFacts.staff_keys.
    rewrite (GroupByFacts.In_group_keys _ _ _ staff_key_compare_eq).
    split; intros (r & Hr & Hk); exists r; (split; [exact Hr|]);
      now apply carries_staff_key_iff. }
  split.
  { intros t. rewrite AggregateFacts.team_keys.
    rewrite (GroupByFacts.In_group_keys _ _ _ string_compare_eq).
    split; intros (r & Hr & Hk); exists r; (split; [exact Hr|]).
    - rewrite <- in_team_group.
      now apply (GroupByFacts.in_group_iff _ _ team_key string_compare_eq).
    - rewrite <- in_team_group in Hk.
      now apply (GroupByFacts.in_group_iff _ _ team_key string_compare_eq)
        in Hk. }
  split.
  { intros a Ha. apply in_map_iff in Ha as (g & <- & Hg).
    unfold staff_groups, groupby in Hg.
    apply in_map_iff in Hg as (k & <- & _).
    rewrite AggregateFacts.staff_key_of_aggregate. simpl fst.
    rewrite (filter_ext _ _ (in_staff_group k)).
    apply staff_aggregate_summary. }
  split.
  { intros a Ha. apply in_map_iff in Ha as (g & <- & Hg).
    unfold team_groups, groupby in Hg.
    apply in_map_iff in Hg as (t & <- & _).
    rewrite AggregateFacts.team_of_aggregate. simpl fst.
    rewrite (filter_ext _ _ (in_team_group t)).
    apply team_aggregate_summary. }
  split; [|split].
  - rewrite (aggregate_by_staff_eq (keep complete_identity df) Hcols).
    simpl rows. now rewrite (staff_groups_keep _ _ no_identity_no_key).
  - rewrite (aggregate_by_staff_eq (keep has_team df) Hcols).
    simpl rows. now rewrite (staff_groups_keep _ _ no_team_no_staff_key).
  - rewrite (aggregate_by_team_eq (keep has_team df) Hcols).
    simpl rows. now rewrite (team_groups_keep _ _ no_team_no_team_key).
Qed.

Lemma grouping_drops_absent_keys_witness :
  has_columns (processed sheet_one_unassigned) group_columns = true /\
  exists staff_agg team_agg,
    aggregate_by_staff (processed sheet_one_unassigned) = Value staff_agg /\
    aggregate_by_team (processed sheet_one_unassigned) = Value team_agg /\
    aggregate_by_staff (keep complete_identity
                          (processed sheet_one_unassigned))
    = Value staff_agg /\
    aggregate_by_team (keep has_team (processed sheet_one_unassigned))
    = Value team_agg.
Proof.
  split; [reflexivity|].
  destruct (grouping_drops_absent_keys (processed sheet_one_unassigned)
              eq_refl)
    as (staff_agg & team_agg & Hs & Ht & _ & _ & _ & _ & _ & _ & Hks & _
        & Hkt).
  exists staff_agg, team_agg. repeat split; assumption.
Defined.

(** A work item with a team and without an assignee has neither email nor
    name, and the team pass counts it: its team aggregate has two items
    and 67 completed hours, and taking the item out of the frame changes
    the team aggregates. *)
Lemma unassigned_item_counted_counterexample :
  In item_unassigned (rows (processed sheet_one_unassigned)) /\
  WorkItem.staff_email item_unassigned = None /\
  WorkItem.staff_name item_unassigned = None /\
  exists team_agg a,
    aggregate_by_team (processed sheet_one_unassigned) = Value team_agg /\
    In a team_agg /\
    carries_team (TeamAggregate.team a) item_unassigned = true /\
    TeamAggregate.total_count a = 2%nat /\
    TeamAggregate.completed_work_total a == 67 /\
    aggregate_by_team (keep has_email (processed sheet_one_unassigned))
    <> Value team_agg.
Proof.
  split; [right; left; reflexivity|].
  split; [reflexivity|]. split; [reflexivity|].
  eexists. eexists. split; [reflexivity|].
  split; [left; reflexivity|].
  split; [reflexivity|]. split; [reflexivity|]. split; [reflexivity|].
  vm_compute. discriminate.
Qed.

End DroppedItemFacts.

(** ** The capacity table *)

Module CapacityFacts.

Import SprintDataProcessor.

Lemma flat_map_ext_in {A B : Type} (f g : A -> list B) (l : list A) :
  (forall a, In a l -> f a = g a) -> flat_map f l = flat_map g l.
Proof.
  induction l as [|a l IH]; intros H; simpl; [reflexivity|].
  rewrite (H a (or_introl eq_refl)), IH; [reflexivity|].
  intros b Hb. apply H. now right.
Qed.

Lemma flat_map_length_le {A B : Type} (f : A -> list B) (l : list A) :
  (forall a, (List.length (f a) <= 1)%nat) ->
  (List.length (flat_map f l) <= List.length l)%nat.
Proof.
  intros Hf. induction l as [|a l IH]; simpl; [lia|].
  rewrite length_app. specialize (Hf a). lia.
Qed.

Lemma flat_map_nil {A B : Type} (f : A -> list B) (l : list A) :
  flat_map f l = [] <-> forall a, In a l -> f a = [].
Proof.
  induction l as [|a l IH]; simpl.
  - split; [intros _ a []|reflexivity].
  - split.
    + intros H. apply app_eq_nil in H as [Ha Hl].
      intros b [<- | Hb]; [exact Ha|]. now apply IH.
    + intros H. rewrite (H a (or_introl eq_refl)). simpl.
      apply IH. intros b Hb. apply H. now right.
Qed.

Lemma in_range_seq (n : nat) : In n (seq 4 11) <-> in_capacity_range n.
Proof. rewrite in_seq. unfold in_capacity_range. lia. Qed.

Lemma get_capacity_data_rows (sheet : nat -> CapacityCells.t) :
  rows (get_capacity_data sheet)
  = flat_map (fun n => entry_of (sheet n)) (seq 4 11).
Proof. reflexivity. Qed.

Lemma get_capacity_data_columns (sheet : nat -> CapacityCells.t) :
  columns (get_capacity_data sheet) = [] <->
  rows (get_capacity_data sheet) = [].
Proof.
  rewrite get_capacity_data_rows.
  unfold get_capacity_data, DataFrame_of_records.
  change (flat_map _ (seq 4 11))
    with (flat_map (fun n => entry_of (sheet n)) (seq 4 11)).
  destruct (flat_map (fun n => entry_of (sheet n)) (seq 4 11));
    simpl; split; try reflexivity; discriminate.
Qed.

Lemma get_capacity_data_ext (sheet sheet' : nat -> CapacityCells.t) :
  (forall n, in_capacity_range n -> sheet n = sheet' n) ->
  get_capacity_data sheet = get_capacity_data sheet'.
Proof.
  intros Hagree. unfold get_capacity_data. f_equal.
  apply (flat_map_ext_in (fun n => entry_of (sheet n))
           (fun n => entry_of (sheet' n))).
  intros n Hn. now rewrite (Hagree n (proj1 (in_range_seq n) Hn)).
Qed.

Lemma get_capacity_data_blank (sheet : nat -> CapacityCells.t) :
  (forall n, in_capacity_range n -> CapacityCells.member (sheet n) = None) ->
  get_capacity_data sheet = {| columns := []; rows := [] |}.
Proof.
  intros Hblank. unfold get_capacity_data.
  change (flat_map _ (seq 4 11))
    with (flat_map (fun n => entry_of (sheet n)) (seq 4 11)).
  assert (E : flat_map (fun n => entry_of (sheet n)) (seq 4 11) = []).
  { apply flat_map_nil. intros n Hn. apply in_range_seq in Hn.
    unfold entry_of. now rewrite (Hblank n Hn). }
  now rewrite E.
Qed.

(** X13: the capacity table is read from rows 4 to 14 of the sheet and
    from nowhere else.  Two sheets that agree on these rows give the same
    table; the table has at most eleven entries, one for each of these rows
    that names a member; and it has no columns exactly when none of these
    rows names a member. *)
Theorem capacity_table_window (sheet sheet' : nat -> CapacityCells.t) :
  (forall n, in_capacity_range n -> sheet n = sheet' n) ->
  get_capacity_data sheet = get_capacity_data sheet' /\
  (List.length (rows (get_capacity_data sheet)) <= 11)%nat /\
  (forall entry, In entry (rows (get_capacity_data sheet)) <->
     exists n, in_capacity_range n /\
       CapacityCells.member (sheet n)
       = Some (CapacityEntry.staff_member entry) /\
       [entry] = entry_of (sheet n)) /\
  (columns (get_capacity_data sheet) = [] <->
   forall n, in_capacity_range n -> CapacityCells.member (sheet n) = None).
Proof.
  intros Hagree. split; [|split; [|split]].
  - now apply get_capacity_data_ext.
  - rewrite get_capacity_data_rows.
    change 11%nat with (List.length (seq 4 11)) at 2.
    apply flat_map_length_le. intros n. unfold entry_of.
    destruct (CapacityCells.member (sheet n)); simpl; lia.
  - intros entry. rewrite get_capacity_data_rows, in_flat_map. split.
    + intros (n & Hn & Hin). exists n.
      split; [now apply in_range_seq|].
      unfold entry_of in *.
      destruct (CapacityCells.member (sheet n)) as [m|]; [|contradiction].
      destruct Hin as [<- | []]. now split.
    + intros (n & Hn & _ & Hentry). exists n.
      split; [now apply in_range_seq|]. rewrite <- Hentry. now left.
  - rewrite get_capacity_data_columns, get_capacity_data_rows, flat_map_nil.
    split; intros H n Hn.
    + apply in_range_seq in Hn. specialize (H n Hn). unfold entry_of in H.
      now destruct (CapacityCells.member (sheet n)).
    + apply in_range_seq in Hn. unfold entry_of. now rewrite (H n Hn).
Qed.

Lemma capacity_table_window_witness :
  (forall n, in_capacity_range n ->
             capacity_sheet_one n = capacity_sheet_long n) /\
  get_capacity_data capacity_sheet_one
  = get_capacity_data capacity_sheet_long.
Proof.
  assert (Hagree : forall n, in_capacity_range n ->
                     capacity_sheet_one n = capacity_sheet_long n).
  { intros n [Hlo Hhi]. unfold capacity_sheet_long.
    destruct (Nat.eqb_spec n 15) as [-> | _]; [lia|reflexivity]. }
  split; [exact Hagree|].
  exact (proj1 (capacity_table_window capacity_sheet_one capacity_sheet_long
                  Hagree)).
Defined.

End CapacityFacts.

(** ** The metric tables *)

Module EngineFacts.

Import SprintDataProcessor SprintCalculator CalculatorFacts.

Lemma mapM_raise {A B : Type} (f : A -> result B) (l : list A) (e : exn) :
  mapM f l = Raise e -> exists x, In x l /\ f x = Raise e.
Proof.
  induction l as [|x l IH]; simpl; [discriminate|].
  destruct (f x) as [y|e'] eqn:Hx; cbn [bind].
  - destruct (mapM f l) as [ys|e'']; cbn [bind]; [discriminate|].
    intros [= ->]. destruct (IH eq_refl) as (x' & Hin & Hx').
    exists x'. split; [now right|exact Hx'].
  - intros [= ->]. exists x. split; [now left|exact Hx].
Qed.

Lemma mapM_value {A B : Type} (f : A -> result B) (g : A -> B)
    (l : list A) (ys : list B) :
  (forall x y, In x l -> f x = Value y -> y = g x) ->
  mapM f l = Value ys -> ys = map g l.
Proof.
  revert ys. induction l as [|x l IH]; intros ys Hf; simpl.
  - now intros [= <-].
  - destruct (f x) as [y|e] eqn:Hx; cbn [bind]; [|discriminate].
    destruct (mapM f l) as [ys'|e] eqn:Hl; cbn [bind]; [|discriminate].
    intros [= <-]. f_equal.
    + apply Hf; [now left|exact Hx].
    + apply IH; [|reflexivity]. intros x' y' Hin. apply Hf. now right.
Qed.

Ltac missing_column :=
  eexists; split; [reflexivity|];
  first [left; split; [simpl; auto 10|assumption]
        |right; split; [simpl; auto 10|assumption]].

Ltac read_column df label :=
  let E := fresh "E" in
  destruct (has_column df label) eqn:E; cbn [bind]; [|missing_column].

Lemma staff_metrics_row_outcome (self : KpiWeights)
    (capacity_data : Frame CapacityEntry.t) (azure_data : Frame WorkItem.t)
    (staff : StaffAggregate.t) :
  match staff_metrics_row self capacity_data azure_data staff with
  | Value row =>
      row = staff_row self (rows capacity_data) (rows azure_data) staff
  | Raise e =>
      exists c, e = KeyError c /\
                missing_metric_column capacity_data azure_data c
  end.
Proof.
  unfold staff_metrics_row, require, missing_metric_column.
  destruct (has_column capacity_data "staff_member") eqn:E1; cbn [bind].
  2:{ eexists. split; [reflexivity|]. left. split; [simpl; auto|exact E1]. }
  fold (identity_string staff).
  assert (Hrest :
    forall capacity,
      capacity = staff_capacity (identity_string staff) (rows capacity_data) ->
      match
        (_ <- (if has_column azure_data "staff_email" then Value tt
               else Raise (KeyError "staff_email")) ;;
         _ <- (if has_column azure_data "has_midsprint_addition" then Value tt
               else Raise (KeyError "has_midsprint_addition")) ;;
         _ <- (if has_column azure_data "Completed Work" then Value tt
               else Raise (KeyError "Completed Work")) ;;
         _ <- (if has_column azure_data "has_adhoc" then Value tt
               else Raise (KeyError "has_adhoc")) ;;
         Value (staff_row self (rows capacity_data) (rows azure_data) staff))
      with
      | Value row =>
          row = staff_row self (rows capacity_data) (rows azure_data) staff
      | Raise e =>
          exists c, e = KeyError c /\
            (In c capacity_columns /\ has_column capacity_data c = false \/
             In c metric_item_columns /\ has_column azure_data c = false)
      end).
  { intros capacity _.
    destruct (has_column azure_data "staff_email") eqn:E3; cbn [bind].
    2:{ eexists. split; [reflexivity|]. right. split; [simpl; auto|exact E3]. }
    destruct (has_column azure_data "has_midsprint_addition") eqn:E4;
      cbn [bind].
    2:{ eexists. split; [reflexivity|]. right.
        split; [simpl; auto|exact E4]. }
    destruct (has_column azure_data "Completed Work") eqn:E5; cbn [bind].
    2:{ eexists. split; [reflexivity|]. right.
        split; [simpl; auto 10|exact E5]. }
    destruct (has_column azure_data "has_adhoc") eqn:E6; cbn [bind].
    2:{ eexists. split; [reflexivity|]. right.
        split; [simpl; auto 10|exact E6]. }
    reflexivity. }
  unfold staff_row, staff_capacity, items_of_email, tagged_hours in *.
  destruct (filter _ (rows capacity_data)) as [|c l] eqn:Hrow; cbn [bind].
  - specialize (Hrest default_capacity eq_refl).
    ratio_values. exact Hrest.
  - destruct (has_column capacity_data "remaining_capacity") eqn:E2;
      cbn [bind].
    2:{ eexists. split; [reflexivity|]. left.
        split; [simpl; auto|exact E2]. }
    specialize (Hrest (CapacityEntry.remaining_capacity c) eq_refl).
    ratio_values. exact Hrest.
Qed.

Lemma team_metrics_row_outcome (self : KpiWeights)
    (capacity_data : Frame CapacityEntry.t) (azure_data : Frame WorkItem.t)
    (team : TeamAggregate.t) :
  match team_metrics_row self capacity_data azure_data team with
  | Value row =>
      row = team_row self (rows capacity_data) (rows azure_data) team
  | Raise e =>
      exists c, e = KeyError c /\
                missing_metric_column capacity_data azure_data c
  end.
Proof.
  unfold team_metrics_row, require, missing_metric_column.
  read_column capacity_data "team"%string.
  read_column capacity_data "remaining_capacity"%string.
  read_column azure_data "team"%string.
  read_column azure_data "has_midsprint_addition"%string.
  read_column azure_data "Completed Work"%string.
  read_column azure_data "has_adhoc"%string.
  ratio_values. reflexivity.
Qed.

Lemma metric_table_outcome {A B : Type} (f : A -> result B) (g : A -> B)
    (keys : list string) (P : string -> Prop) (l : list A) :
  (forall x, match f x with
             | Value y => y = g x
             | Raise e => exists c, e = KeyError c /\ P c
             end) ->
  match (results <- mapM f l ;; Value (DataFrame_of_records keys results)) with
  | Value out =>
      rows out = map g l /\
      columns out = match l with [] => [] | _ :: _ => keys end
  | Raise e => l <> [] /\ exists c, e = KeyError c /\ P c
  end.
Proof.
  intros Hf. destruct (mapM f l) as [ys|e] eqn:Hl; cbn [bind].
  - assert (Hys : ys = map g l).
    { apply (mapM_value f g l ys); [|exact Hl].
      intros x y _ Hx. specialize (Hf x). now rewrite Hx in Hf. }
    subst ys. simpl. split; [reflexivity|]. now destruct l.
  - split; [intros ->; discriminate Hl|].
    apply mapM_raise in Hl as (x & _ & Hx).
    specialize (Hf x). now rewrite Hx in Hf.
Qed.

Lemma calculate_staff_metrics_outcome (self : KpiWeights)
    (staff_agg : list StaffAggregate.t)
    (capacity_data : Frame CapacityEntry.t) (azure_data : Frame WorkItem.t) :
  match calculate_staff_metrics self staff_agg capacity_data azure_data with
  | Value out =>
      rows out
      = map (staff_row self (rows capacity_data) (rows azure_data)) staff_agg /\
      columns out
      = match staff_agg with [] => [] | _ :: _ => StaffMetrics.keys end
  | Raise e =>
      staff_agg <> [] /\
      exists c, e = KeyError c /\
                missing_metric_column capacity_data azure_data c
  end.
Proof.
  apply (metric_table_outcome _ _ StaffMetrics.keys
           (missing_metric_column capacity_data azure_data)).
  intros staff. apply staff_metrics_row_outcome.
Qed.

Lemma calculate_team_metrics_outcome (self : KpiWeights)
    (team_agg : list TeamAggregate.t)
    (capacity_data : Frame CapacityEntry.t) (azure_data : Frame WorkItem.t) :
  match calculate_team_metrics self team_agg capacity_data azure_data with
  | Value out =>
      rows out
      = map (team_row self (rows capacity_data) (rows azure_data)) team_agg /\
      columns out
      = match team_agg with [] => [] | _ :: _ => TeamMetrics.keys end
  | Raise e =>
      team_agg <> [] /\
      exists c, e = KeyError c /\
                missing_metric_column capacity_data azure_data c
  end.
Proof.
  apply (metric_table_outcome _ _ TeamMetrics.keys
           (missing_metric_column capacity_data azure_data)).
  intros team. apply team_metrics_row_outcome.
Qed.

(** X14: the two metric tables never fail on a division, whatever the
    numbers of the aggregates, of the work items and of the capacity
    table: totals that are 0, that are negative or that cancel give a ratio
    or 0, never [ZeroDivisionError]. *)
Theorem metric_tables_never_divide_by_zero (self : KpiWeights)
    (staff_agg : list StaffAggregate.t) (team_agg : list TeamAggregate.t)
    (capacity_data : Frame CapacityEntry.t) (azure_data : Frame WorkItem.t) :
  calculate_staff_metrics self staff_agg capacity_data azure_data
  <> Raise ZeroDivisionError /\
  calculate_team_metrics self team_agg capacity_data azure_data
  <> Raise ZeroDivisionError.
Proof.
  pose proof (calculate_staff_metrics_outcome self staff_agg capacity_data
                azure_data) as Hs.
  pose proof (calculate_team_metrics_outcome self team_agg capacity_data
                azure_data) as Ht.
  split; intros He.
  - rewrite He in Hs. destruct Hs as (_ & c & Hc & _). discriminate Hc.
  - rewrite He in Ht. destruct Ht as (_ & c & Hc & _). discriminate Hc.
Qed.

(** X15: when a metric table is returned, it has one row for each
    aggregate, in the order of the aggregates: the row copies the identity,
    the totals and the counts, takes the capacity from the capacity table
    (for a staff member the first row that spells [name <email>], or 63;
    for a team the sum of its rows), and holds the ratios, where a ratio
    over 0 is 0.  The table has its columns unless there is no aggregate. *)
Theorem metric_tables_rows (self : KpiWeights)
    (staff_agg : list StaffAggregate.t) (team_agg : list TeamAggregate.t)
    (capacity_data : Frame CapacityEntry.t) (azure_data : Frame WorkItem.t) :
  (forall out,
     calculate_staff_metrics self staff_agg capacity_data azure_data
     = Value out ->
     rows out
     = map (staff_row self (rows capacity_data) (rows azure_data)) staff_agg
     /\
     columns out
     = match staff_agg with [] => [] | _ :: _ => StaffMetrics.keys end) /\
  (forall out,
     calculate_team_metrics self team_agg capacity_data azure_data
     = Value out ->
     rows out
     = map (team_row self (rows capacity_data) (rows azure_data)) team_agg
     /\
     columns out
     = match team_agg with [] => [] | _ :: _ => TeamMetrics.keys end).
Proof.
  pose proof (calculate_staff_metrics_outcome self staff_agg capacity_data
                azure_data) as Hs.
  pose proof (calculate_team_metrics_outcome self team_agg capacity_data
                azure_data) as Ht.
  split; intros out Hout.
  - now rewrite Hout in Hs.
  - now rewrite Hout in Ht.
Qed.

End EngineFacts.

(** ** Ranges of the ratios *)

Module RangeFacts.

Import SprintDataProcessor SprintCalculator AggregatorFacts EngineFacts.










Lemma aggregate_by_team_inv (df : Frame WorkItem.t)
    (team_agg : list TeamAggregate.t) :
  aggregate_by_team df = Value team_agg ->
  team_agg = map team_aggregate (team_groups (rows df)).
Proof.
  unfold aggregate_by_team.
  destruct (require df "team"); cbn [bind]; [|discriminate].
  destruct (require_all df agg_columns); cbn [bind]; [|discriminate].
  now intros [= <-].
Qed.








End RangeFacts.

(** ** The KPI and the report on the metrics *)

Module ReportOnMetricsFacts.

Import SprintDataProcessor SprintCalculator EngineFacts.

(** X18: with weights that are not negative, as the default weights are,
    the KPI never falls when a ratio rises, and it is not negative on
    ratios that are not negative. *)
Theorem kpi_monotone (self : KpiWeights)
    (performance_rate utilization done_tasks_pct : Q)
    (performance_rate' utilization' done_tasks_pct' : Q) :
  nonneg_weights self ->
  performance_rate <= performance_rate' ->
  utilization <= utilization' ->
  done_tasks_pct <= done_tasks_pct' ->
  calculate_kpi self performance_rate utilization done_tasks_pct
  <= calculate_kpi self performance_rate' utilization' done_tasks_pct' /\
  (0 <= performance_rate -> 0 <= utilization -> 0 <= done_tasks_pct ->
   0 <= calculate_kpi self performance_rate utilization done_tasks_pct).
Proof.
  unfold nonneg_weights, calculate_kpi.
  destruct self as [wp wu wd]. simpl.
  intros (Hp & Hu & Hd) Hp' Hu' Hd'. split.
  - repeat apply Qplus_le_compat; now apply Qmult_le_compat_r.
  - intros H1 H2 H3.
    assert (Hz : forall x w, 0 <= x -> 0 <= w -> 0 <= x * w).
    { intros x w Hx Hw. rewrite <- (Qmult_0_l w).
      now apply Qmult_le_compat_r. }
    rewrite <- (Qplus_0_l 0).
    apply Qplus_le_compat; [|now apply Hz].
    rewrite <- (Qplus_0_l 0). apply Qplus_le_compat; now apply Hz.
Qed.

Lemma kpi_monotone_witness :
  nonneg_weights (init None) /\
  calculate_kpi (init None) (1 # 2) 1 (1 # 2)
  <= calculate_kpi (init None) (3 # 2) 1 1.
Proof.
  assert (Hw : nonneg_weights (init None)).
  { unfold nonneg_weights. simpl. repeat split; unfold Qle; simpl; lia. }
  split; [exact Hw|].
  apply (kpi_monotone (init None) (1 # 2) 1 (1 # 2) (3 # 2) 1 1 Hw);
    unfold Qle; simpl; lia.
Defined.

Lemma filter_nil_iff {A : Type} (f : A -> bool) (l : list A) :
  filter f l = [] <-> Forall (fun a => f a = false) l.
Proof.
  induction l as [|a l IH]; simpl.
  - split; [constructor|reflexivity].
  - destruct (f a) eqn:E; split.
    + discriminate.
    + intros H. inversion H. congruence.
    + intros H. constructor; [exact E|now apply IH].
    + intros H. inversion H. now apply IH.
Qed.

Lemma Qlt_bool_false_iff (a b : Q) : Qlt_bool a b = false <-> b <= a.
Proof.
  unfold Qlt_bool. rewrite negb_false_iff. apply Qle_bool_iff.
Qed.

Section Report.

Context {R : Type} `{MetricsRow R}.

Lemma not_flagged_iff (r : R) :
  is_high_util r = false /\ is_low_perf r = false /\
  is_kpi_outlier r = false <-> within_bands r.
Proof.
  unfold is_high_util, is_low_perf, is_kpi_outlier, within_bands, between.
  rewrite orb_false_iff, !Qlt_bool_false_iff. tauto.
Qed.

(** The report on a table that has the three metric columns and a label
    for each row. *)
Lemma validate_metrics_labelled (metrics : Frame R) (label : R -> string) :
  has_columns metrics metric_columns = true ->
  (forall r, row_label metrics r = Some (label r)) ->
  exists report,
    validate_metrics metrics = Value report /\
    Forall (fun w => exists r, In r (rows metrics) /\
                               staff w = Some (label r))
      (warnings report) /\
    (status report = success <-> Forall within_bands (rows metrics)).
Proof.
  intros Hcols Hlabel.
  rewrite (ValidatorFacts.validate_metrics_value metrics Hcols).
  eexists. split; [reflexivity|]. cbv zeta. cbn [warnings status]. split.
  - rewrite !Forall_app. repeat split; apply Forall_forall; intros w Hw;
      apply in_map_iff in Hw as (r & <- & Hr);
      apply filter_In in Hr as [Hr _]; exists r; (split; [exact Hr|]);
      cbn [staff]; apply Hlabel.
  - set (ws := _ ++ _ ++ _).
    assert (Hws : ws = [] <-> Forall within_bands (rows metrics)).
    { subst ws. split.
      - intros Hnil. apply app_eq_nil in Hnil as [H1 Hnil].
        apply app_eq_nil in Hnil as [H2 H3].
        apply map_eq_nil in H1, H2, H3.
        rewrite filter_nil_iff, Forall_forall in H1, H2, H3.
        apply Forall_forall. intros r Hr. apply not_flagged_iff. auto.
      - intros Hall. rewrite Forall_forall in Hall.
        assert (Hf : forall f : R -> bool,
                  (forall r, In r (rows metrics) -> f r = false) ->
                  filter f (rows metrics) = []).
        { intros f Hf. apply filter_nil_iff. now apply Forall_forall. }
        rewrite (Hf is_high_util), (Hf is_low_perf), (Hf is_kpi_outlier);
          [reflexivity| | |]; intros r Hr;
          apply not_flagged_iff; now apply Hall. }
    destruct ws; split; intros Hs; try reflexivity; try discriminate.
    + now apply Hws.
    + apply Hws in Hs. discriminate.
Qed.

End Report.

(** X19: the report on a computed metric table.  The table of no
    aggregates has no columns, and checking it raises [KeyError].
    Otherwise the check returns a report; each warning is labelled with the
    name of a staff aggregate (for the staff table) or with the team of a
    team aggregate (for the team table); and the status is [success]
    exactly when every row has a utilization of at most 1.5, a performance
    rate of at least 0.5 and a KPI between 0.3 and 1.5. *)
Theorem report_on_computed_metrics (self : KpiWeights)
    (staff_agg : list StaffAggregate.t) (team_agg : list TeamAggregate.t)
    (capacity_data : Frame CapacityEntry.t) (azure_data : Frame WorkItem.t) :
  (forall out,
     calculate_staff_metrics self staff_agg capacity_data azure_data
     = Value out ->
     match staff_agg with
     | [] => validate_metrics out = Raise (KeyError "utilization")
     | _ :: _ =>
         exists report,
           validate_metrics out = Value report /\
           Forall (fun w => exists a, In a staff_agg /\
                      staff w = Some (StaffAggregate.staff_name a))
             (warnings report) /\
           (status report = success <-> Forall within_bands (rows out))
     end) /\
  (forall out,
     calculate_team_metrics self team_agg capacity_data azure_data
     = Value out ->
     match team_agg with
     | [] => validate_metrics out = Raise (KeyError "utilization")
     | _ :: _ =>
         exists report,
           validate_metrics out = Value report /\
           Forall (fun w => exists a, In a team_agg /\
                      staff w = Some (TeamAggregate.team a))
             (warnings report) /\
           (status report = success <-> Forall within_bands (rows out))
     end).
Proof.
  split; intros out Hout.
  - pose proof (calculate_staff_metrics_outcome self staff_agg capacity_data
                  azure_data) as Hs.
    rewrite Hout in Hs. destruct Hs as [Hrows Hcols].
    destruct staff_agg as [|a0 l].
    + unfold validate_metrics, require, has_column. now rewrite Hcols.
    + destruct (validate_metrics_labelled out StaffMetrics.staff_name)
        as (report & Hrep & Hlab & Hstatus).
      { unfold has_columns, has_column. now rewrite Hcols. }
      { intros r. unfold row_label, get, has_column. now rewrite Hcols. }
      exists report. split; [exact Hrep|]. split; [|exact Hstatus].
      eapply Forall_impl; [|exact Hlab]. intros w (r & Hr & Hw).
      rewrite Hrows in Hr. apply in_map_iff in Hr as (a & <- & Ha).
      exists a. split; [exact Ha|exact Hw].
  - pose proof (calculate_team_metrics_outcome self team_agg capacity_data
                  azure_data) as Ht.
    rewrite Hout in Ht. destruct Ht as [Hrows Hcols].
    destruct team_agg as [|a0 l].
    + unfold validate_metrics, require, has_column. now rewrite Hcols.
    + destruct (validate_metrics_labelled out TeamMetrics.team)
        as (report & Hrep & Hlab & Hstatus).
      { unfold has_columns, has_column. now rewrite Hcols. }
      { intros r. unfold row_label, get, has_column. now rewrite Hcols. }
      exists report. split; [exact Hrep|]. split; [|exact Hstatus].
      eapply Forall_impl; [|exact Hlab]. intros w (r & Hr & Hw).
      rewrite Hrows in Hr. apply in_map_iff in Hr as (a & <- & Ha).
      exists a. split; [exact Ha|exact Hw].
Qed.

End ReportOnMetricsFacts.

(** ** The CMMI measures *)

Module CmmiFacts.

Import SprintCalculator.

Lemma Qlt_bool_pos_neq (d : Q) : Qlt_bool 0 d = true -> Qeq_bool d 0 = false.
Proof.
  intros Hd. apply Qlt_bool_iff in Hd. apply Qeq_bool_false_iff.
  intros E. rewrite E in Hd. apply (Qlt_irrefl 0 Hd).
Qed.

Lemma py_div_pos (n d : Q) :
  Qlt_bool 0 d = true -> py_div n d = Value (n / d).
Proof. intros Hd. unfold py_div. now rewrite (Qlt_bool_pos_neq d Hd). Qed.

Lemma ratio_if_positive_eq (num den : cell) :
  ratio_if_positive num den
  = match cmmi_ratio num den with
    | Some q => Returned q
    | None => TypeError
    end.
Proof.
  unfold ratio_if_positive, cmmi_ratio.
  destruct den as [|d|s]; cbn [number bind_outcome]; try reflexivity.
  destruct (Qlt_bool 0 d) eqn:Hd; [|reflexivity].
  destruct num as [|n|s]; cbn [number bind_outcome]; try reflexivity.
  now rewrite (py_div_pos n d Hd).
Qed.

Lemma Qdiv_pos_iff (n d : Q) : 0 < d -> (0 < n / d <-> 0 < n).
Proof.
  intros Hd.
  assert (Hne : ~ d == 0).
  { intros E. rewrite E in Hd. apply (Qlt_irrefl 0 Hd). }
  split.
  - intros H. assert (E : n == n / d * d) by (field; exact Hne).
    rewrite E. rewrite <- (Qmult_0_l d).
    apply Qmult_lt_compat_r; assumption.
  - intros H. apply Qlt_shift_div_l; [exact Hd|]. now rewrite Qmult_0_l.
Qed.

Lemma Qlt_bool_div_pos (n d : Q) :
  Qlt_bool 0 d = true -> Qlt_bool 0 (n / d) = Qlt_bool 0 n.
Proof.
  intros Hd. apply Qlt_bool_iff in Hd.
  destruct (Qlt_bool 0 n) eqn:Hn.
  - apply Qlt_bool_iff. apply Qdiv_pos_iff; [exact Hd|].
    now apply Qlt_bool_iff.
  - destruct (Qlt_bool 0 (n / d)) eqn:Hq; [|reflexivity].
    apply Qlt_bool_iff in Hq. apply (Qdiv_pos_iff n d Hd) in Hq.
    apply Qlt_bool_iff in Hq. congruence.
Qed.

Ltac cmmi_step :=
  cbn [bind_outcome lift number is_number positive negb andb orb];
  try reflexivity.

Ltac cmmi_cases :=
  repeat
    (cmmi_step;
     match goal with
     | |- context [Qlt_bool 0 0] => change (Qlt_bool 0 0) with false
     | H : Qlt_bool 0 ?d = true |- context [Qlt_bool 0 (?n / ?d)] =>
         rewrite (Qlt_bool_div_pos n d H)
     | H1 : Qlt_bool 0 ?d = true, H2 : Qlt_bool 0 ?n = true
       |- context [py_div ?a (?n / ?d)] =>
         rewrite (py_div_pos a (n / d))
           by (rewrite (Qlt_bool_div_pos n d H1); exact H2)
     | |- context [match ?c with _ => _ end] =>
         match type of c with cell => destruct c eqn:? end
     | |- context [Qlt_bool 0 ?q] => destruct (Qlt_bool 0 q) eqn:?
     end).

Lemma calculate_cmmi_measures_outcome (md : SprintMetadata.t)
    (azure_data : Frame WorkItem.t) :
  match calculate_cmmi_measures md azure_data with
  | Returned _ => cmmi_cells_ok md = true
  | Raised _ => False
  | TypeError => cmmi_cells_ok md = false
  end.
Proof.
  unfold calculate_cmmi_measures, cmmi_cells_ok.
  rewrite !ratio_if_positive_eq. unfold cmmi_ratio.
  cmmi_cases.
Qed.

(** X20: the CMMI measures never fail on a division and raise nothing
    but [TypeError].  They raise it exactly when a cell they compute with
    is not a number: a denominator (planned story points, actual
    development effort, sum of working hours), a numerator whose
    denominator is above 0, or the actual story points when the
    utilization rate is above 0.  A numerator over a denominator of 0 or
    less is never read. *)
Theorem cmmi_failures (md : SprintMetadata.t)
    (azure_data : Frame WorkItem.t) :
  (forall e, calculate_cmmi_measures md azure_data <> Raised e) /\
  (calculate_cmmi_measures md azure_data = TypeError <->
   cmmi_cells_ok md = false) /\
  ((exists m, calculate_cmmi_measures md azure_data = Returned m) <->
   cmmi_cells_ok md = true).
Proof.
  pose proof (calculate_cmmi_measures_outcome md azure_data) as H.
  destruct (calculate_cmmi_measures md azure_data) as [m|e|].
  - split; [intros e He; discriminate He|]. rewrite H.
    split; split; intros H'; try discriminate H'; try reflexivity.
    now exists m.
  - contradiction.
  - split; [intros e He; discriminate He|]. rewrite H.
    split; split; intros H'; try discriminate H'; try reflexivity.
    destruct H' as (m & Hm). discriminate Hm.
Qed.

(** A sheet with denominators of 0 and blank numerators gives measures of
    0; a blank sheet raises [TypeError]. *)
Example cmmi_zero_denominators :
  exists m,
    calculate_cmmi_measures metadata_zero {| columns := []; rows := [] |}
    = Returned m /\
    CmmiMeasures.completion_rate m = 0 /\
    CmmiMeasures.cmmi_productivity m = 0 /\
    CmmiMeasures.completion_rate_analysis m = "Needs Improvement"%string.
Proof. eexists. split; [reflexivity|]. repeat split. Qed.

Example cmmi_blank_sheet :
  calculate_cmmi_measures
    (SprintDataProcessor.extract_sprint_metadata (fun _ _ => CellEmpty))
    {| columns := []; rows := [] |}
  = TypeError.
Proof. reflexivity. Qed.

Lemma Qle_div_iff (a b c : Q) : 0 < c -> (a <= b / c <-> a * c <= b).
Proof.
  intros Hc.
  assert (Hne : ~ c == 0).
  { intros E. rewrite E in Hc. apply (Qlt_irrefl 0 Hc). }
  split.
  - intros H. apply (Qmult_le_compat_r _ _ c) in H;
      [|now apply Qlt_le_weak].
    assert (E : b / c * c == b) by (field; exact Hne).
    now rewrite E in H.
  - now apply Qle_shift_div_l.
Qed.

Lemma Qdiv_le_iff (a b c : Q) : 0 < c -> (b / c <= a <-> b <= a * c).
Proof.
  intros Hc.
  assert (Hne : ~ c == 0).
  { intros E. rewrite E in Hc. apply (Qlt_irrefl 0 Hc). }
  split.
  - intros H. apply (Qmult_le_compat_r _ _ c) in H;
      [|now apply Qlt_le_weak].
    assert (E : b / c * c == b) by (field; exact Hne).
    now rewrite E in H.
  - now apply Qle_shift_div_r.
Qed.

Lemma positive_ratio_nonneg (n d : Q) : 0 <= n -> 0 <= positive_ratio n d.
Proof.
  intros Hn. unfold positive_ratio. destruct (Qlt_bool 0 d) eqn:Hd.
  - apply Qlt_bool_iff in Hd. apply Qdiv_nonneg; [exact Hn| |].
    + now apply Qlt_le_weak.
    + intros E. rewrite E in Hd. apply (Qlt_irrefl 0 Hd).
  - apply Qle_refl.
Qed.

Lemma positive_ratio_ge (bound n d : Q) :
  0 < bound ->
  (bound <= positive_ratio n d <-> 0 < d /\ bound * d <= n).
Proof.
  intros Hb. unfold positive_ratio. destruct (Qlt_bool 0 d) eqn:Hd.
  - apply Qlt_bool_iff in Hd. rewrite (Qle_div_iff bound n d Hd). tauto.
  - split.
    + intros H. exfalso. apply (Qlt_not_le _ _ Hb H).
    + intros [H _]. apply Qlt_bool_iff in H. congruence.
Qed.

Lemma positive_ratio_le (bound n d : Q) :
  0 < d -> (positive_ratio n d <= bound <-> n <= bound * d).
Proof.
  intros Hd. unfold positive_ratio.
  rewrite (proj2 (Qlt_bool_iff 0 d) Hd). now apply Qdiv_le_iff.
Qed.

Lemma good_iff (b : bool) :
  (if b then "Good"%string else "Needs Improvement"%string) = "Good"%string
  <-> b = true.
Proof. destruct b; split; try reflexivity; discriminate. Qed.

(** The measures on cells that are numbers. *)
Lemma calculate_cmmi_measures_numbers (md : SprintMetadata.t)
    (azure_data : Frame WorkItem.t) (psp asp ede ade bfe sah swh : Q) :
  SprintMetadata.planned_sp md = CellNumber psp ->
  SprintMetadata.actual_sp md = CellNumber asp ->
  SprintMetadata.estimated_dev_effort md = CellNumber ede ->
  SprintMetadata.actual_dev_effort md = CellNumber ade ->
  SprintMetadata.bug_fixing_effort md = CellNumber bfe ->
  SprintMetadata.sum_actual_hours md = CellNumber sah ->
  SprintMetadata.sum_working_hours md = CellNumber swh ->
  exists m,
    calculate_cmmi_measures md azure_data = Returned m /\
    CmmiMeasures.completion_rate m = positive_ratio asp psp /\
    CmmiMeasures.completion_rate_analysis m
    = (if Qle_bool (90 # 100) (positive_ratio asp psp)
       then "Good" else "Needs Improvement")%string /\
    CmmiMeasures.effort_estimation_accuracy m = positive_ratio ede ade /\
    CmmiMeasures.effort_estimation_analysis m
    = (if Qle_bool (90 # 100) (positive_ratio ede ade) &&
          Qle_bool (positive_ratio ede ade) (120 # 100)
       then "Good" else "Needs Improvement")%string /\
    CmmiMeasures.bug_fixing_effort_pct m = positive_ratio bfe ade /\
    CmmiMeasures.utilization_rate m = positive_ratio sah swh /\
    CmmiMeasures.cmmi_productivity m
    = positive_ratio asp (positive_ratio sah swh) /\
    CmmiMeasures.sprint_name m = SprintMetadata.sprint_name md /\
    CmmiMeasures.date_from m = SprintMetadata.date_from md /\
    CmmiMeasures.date_to m = SprintMetadata.date_to md.
Proof.
  intros H1 H2 H3 H4 H5 H6 H7.
  unfold calculate_cmmi_measures. rewrite !ratio_if_positive_eq.
  unfold cmmi_ratio, positive_ratio. rewrite H1, H2, H3, H4, H5, H6, H7.
  destruct (Qlt_bool 0 psp), (Qlt_bool 0 ade); cbn [bind_outcome];
    (destruct (Qlt_bool 0 swh) eqn:Hswh; cbn [bind_outcome];
     [destruct (Qlt_bool 0 (sah / swh)) eqn:Hu;
      cbn [bind_outcome number lift];
      rewrite ?(py_div_pos asp (sah / swh) Hu); cbn [bind_outcome lift]
     |change (Qlt_bool 0 0) with false; cbn [bind_outcome]]);
    (eexists; split; [reflexivity|]); cbn; repeat split.
Qed.

Lemma productivity_zero (asp sah swh : Q) :
  ~ (0 < swh /\ 0 < sah) ->
  positive_ratio asp (positive_ratio sah swh) = 0.
Proof.
  unfold positive_ratio. intros Hnot. destruct (Qlt_bool 0 swh) eqn:H1.
  - rewrite (Qlt_bool_div_pos sah swh H1).
    destruct (Qlt_bool 0 sah) eqn:H2; [|reflexivity].
    exfalso. apply Hnot. split; now apply Qlt_bool_iff.
  - reflexivity.
Qed.

Lemma positive_ratio_zero (n d : Q) : d <= 0 -> positive_ratio n d = 0.
Proof.
  intros Hd. unfold positive_ratio.
  destruct (Qlt_bool 0 d) eqn:E; [|reflexivity].
  apply Qlt_bool_iff in E. exfalso. apply (Qlt_not_le _ _ E Hd).
Qed.

(** The ratio reaches a positive bound only over a positive denominator
    and with a positive numerator. *)
Lemma positive_ratio_reaches (bound n d : Q) :
  0 < bound -> bound <= positive_ratio n d -> 0 < d /\ 0 < n.
Proof.
  intros Hb H. apply (positive_ratio_ge bound n d Hb) in H as [Hd Hn].
  split; [exact Hd|]. nra.
Qed.

(** X21: the CMMI measures on a sheet whose cells are numbers.  A measure
    over a denominator of 0 or less is 0, and the productivity is 0 unless
    both sums of hours are above 0.  A rating of [Good] needs a denominator
    and a numerator above 0, so a sprint without planned story points or
    without actual effort is rated [Needs Improvement]; a sprint that
    delivers at least what was planned is rated [Good], and so is an
    estimate equal to the actual effort.  On numerators that are not
    negative no measure is negative. *)
Theorem cmmi_on_numbers (md : SprintMetadata.t)
    (azure_data : Frame WorkItem.t) (psp asp ede ade bfe sah swh : Q) :
  SprintMetadata.planned_sp md = CellNumber psp ->
  SprintMetadata.actual_sp md = CellNumber asp ->
  SprintMetadata.estimated_dev_effort md = CellNumber ede ->
  SprintMetadata.actual_dev_effort md = CellNumber ade ->
  SprintMetadata.bug_fixing_effort md = CellNumber bfe ->
  SprintMetadata.sum_actual_hours md = CellNumber sah ->
  SprintMetadata.sum_working_hours md = CellNumber swh ->
  exists m,
    calculate_cmmi_measures md azure_data = Returned m /\
    (psp <= 0 -> CmmiMeasures.completion_rate m = 0) /\
    (ade <= 0 ->
     CmmiMeasures.effort_estimation_accuracy m = 0 /\
     CmmiMeasures.bug_fixing_effort_pct m = 0) /\
    (swh <= 0 -> CmmiMeasures.utilization_rate m = 0) /\
    (~ (0 < swh /\ 0 < sah) -> CmmiMeasures.cmmi_productivity m = 0) /\
    (CmmiMeasures.completion_rate_analysis m = "Good"%string ->
     0 < psp /\ 0 < asp) /\
    (CmmiMeasures.effort_estimation_analysis m = "Good"%string ->
     0 < ade /\ 0 < ede) /\
    (0 < psp -> psp <= asp ->
     CmmiMeasures.completion_rate_analysis m = "Good"%string) /\
    (0 < ade -> ede == ade ->
     CmmiMeasures.effort_estimation_analysis m = "Good"%string) /\
    (0 <= asp -> 0 <= ede -> 0 <= bfe -> 0 <= sah ->
     0 <= CmmiMeasures.completion_rate m /\
     0 <= CmmiMeasures.effort_estimation_accuracy m /\
     0 <= CmmiMeasures.bug_fixing_effort_pct m /\
     0 <= CmmiMeasures.utilization_rate m /\
     0 <= CmmiMeasures.cmmi_productivity m).
Proof.
  intros H1 H2 H3 H4 H5 H6 H7.
  destruct (calculate_cmmi_measures_numbers md azure_data psp asp ede ade bfe
              sah swh H1 H2 H3 H4 H5 H6 H7)
    as (m & Hm & Hcr & Hcra & Hee & Heea & Hbf & Hur & Hprod & _).
  exists m. split; [exact Hm|].
  split; [|split; [|split; [|split; [|split; [|split; [|split; [|split]]]]]]].
  - intros Hp. rewrite Hcr. now apply positive_ratio_zero.
  - intros Ha. rewrite Hee, Hbf. split; now apply positive_ratio_zero.
  - intros Hw. rewrite Hur. now apply positive_ratio_zero.
  - intros Hnot. rewrite Hprod. now apply productivity_zero.
  - rewrite Hcra, good_iff, Qle_bool_iff.
    apply positive_ratio_reaches. reflexivity.
  - rewrite Heea, good_iff, andb_true_iff, Qle_bool_iff.
    intros [Hlo _]. revert Hlo. apply positive_ratio_reaches. reflexivity.
  - intros Hp Hle. rewrite Hcra. apply good_iff. apply Qle_bool_iff.
    apply positive_ratio_ge; [reflexivity|]. split; [exact Hp|]. lra.
  - intros Hp Heq. rewrite Heea. apply good_iff. apply andb_true_iff.
    rewrite !Qle_bool_iff. split.
    + apply positive_ratio_ge; [reflexivity|]. split; [exact Hp|]. lra.
    + apply (positive_ratio_le _ _ _ Hp). lra.
  - intros Hasp Hede Hbfe Hsah. rewrite Hcr, Hee, Hbf, Hur, Hprod.
    repeat split; now apply positive_ratio_nonneg.
Qed.

Lemma cmmi_on_numbers_witness :
  exists m,
    calculate_cmmi_measures metadata_sprint {| columns := []; rows := [] |}
    = Returned m /\
    (CmmiMeasures.completion_rate_analysis m = "Good"%string ->
     0 < 40 /\ 0 < 38) /\
    0 <= CmmiMeasures.cmmi_productivity m.
Proof.
  destruct (cmmi_on_numbers metadata_sprint {| columns := []; rows := [] |}
              40 38 300 320 16 600 640 eq_refl eq_refl eq_refl eq_refl
              eq_refl eq_refl eq_refl)
    as (m & Hm & _ & _ & _ & _ & Hgood & _ & _ & _ & Hnonneg).
  exists m. split; [exact Hm|]. split; [exact Hgood|].
  apply Hnonneg; unfold Qle; simpl; lia.
Defined.

End CmmiFacts.

(** ** The application *)

Module AppFacts.

Import SprintDataProcessor SprintCalculator App.

Section Writer.

Variable Data : Type.
Variable write_workbook :
  SprintMetadata.t -> Frame StaffMetrics.t -> Frame TeamMetrics.t ->
  CmmiMeasures.t -> outcome Data.

Lemma process_sprint_file_shape (data_sheet : nat -> nat -> cell)
    (capacity_sheet : nat -> CapacityCells.t) (df_azure : Frame RawRow.t) :
  let r := process_sprint_file write_workbook data_sheet capacity_sheet
             df_azure in
  r = nothing \/
  (exists azure_data v,
     r = only_validation v /\
     process_azure_data df_azure = Value azure_data /\
     validate_data azure_data = Value v /\
     SprintDataProcessor.status v = error) \/
  (exists azure_data d v s t c,
     r = everything d v s t c /\
     process_azure_data df_azure = Value azure_data /\
     validate_data azure_data = Value v /\
     SprintDataProcessor.status v = success /\
     pipeline_tables data_sheet capacity_sheet azure_data s t c /\
     write_workbook (extract_sprint_metadata data_sheet) s t c = Returned d).
Proof.
  unfold process_sprint_file, process_sprint_file_body.
  destruct (process_azure_data df_azure) as [azure_data|e] eqn:Hazure;
    cbn [lift bind_outcome]; [|now left].
  destruct (validate_data azure_data) as [v|e] eqn:Hv;
    cbn [lift bind_outcome]; [|now left].
  pose proof (ValidatorFacts.validate_data_status azure_data v Hv)
    as [Hstatus _].
  destruct (SprintDataProcessor.status v) eqn:Hs.
  3:{ right. left. exists azure_data, v.
      split; [reflexivity|]. split; [reflexivity|].
      split; [exact Hv|exact Hs]. }
  2:{ destruct (has_columns azure_data required_cols); discriminate Hstatus. }
  destruct (aggregate_by_staff azure_data) as [staff_agg|e] eqn:Hsa;
    cbn [lift bind_outcome]; [|now left].
  destruct (aggregate_by_team azure_data) as [team_agg|e] eqn:Hta;
    cbn [lift bind_outcome]; [|now left].
  destruct (calculate_staff_metrics _ staff_agg _ azure_data) as [s|e] eqn:Hsm;
    cbn [lift bind_outcome]; [|now left].
  destruct (calculate_team_metrics _ team_agg _ azure_data) as [t|e] eqn:Htm;
    cbn [lift bind_outcome]; [|now left].
  destruct (calculate_cmmi_measures _ azure_data) as [c|e|] eqn:Hc;
    cbn [lift bind_outcome]; [|now left|now left].
  destruct (write_workbook _ s t c) as [d|e|] eqn:Hw;
    cbn [lift bind_outcome]; [|now left|now left].
  right. right. exists azure_data, d, v, s, t, c.
  split; [reflexivity|]. split; [reflexivity|]. split; [exact Hv|].
  split; [exact Hs|]. split; [|exact Hw].
  exists staff_agg, team_agg. repeat split; assumption.
Qed.

(** X22: the application returns all or nothing.  The file, the two
    tables and the measures are returned together or not at all; they are
    returned exactly when a validation report is returned whose status is
    not [error]; and then the tables are those of the pipeline on the
    default weights and the file is what the writer made of them. *)
Theorem process_sprint_file_all_or_nothing (data_sheet : nat -> nat -> cell)
    (capacity_sheet : nat -> CapacityCells.t) (df_azure : Frame RawRow.t) :
  let r := process_sprint_file write_workbook data_sheet capacity_sheet
             df_azure in
  (processed_data r = None <-> staff_metrics r = None) /\
  (processed_data r = None <-> team_metrics r = None) /\
  (processed_data r = None <-> cmmi_measures r = None) /\
  (processed_data r <> None <->
   exists v, validation r = Some v /\
             SprintDataProcessor.status v <> error) /\
  (forall d v s t c,
     r = everything d v s t c ->
     exists azure_data,
       process_azure_data df_azure = Value azure_data /\
       validate_data azure_data = Value v /\
       pipeline_tables data_sheet capacity_sheet azure_data s t c /\
       write_workbook (extract_sprint_metadata data_sheet) s t c
       = Returned d).
Proof.
  intros r.
  destruct (process_sprint_file_shape data_sheet capacity_sheet df_azure)
    as [Hr | [(az & v & Hr & Haz & Hv & Hs)
             | (az & d & v & s & t & c & Hr & Haz & Hv & Hs & Ht & Hw)]];
    fold r in Hr; rewrite Hr; cbn.
  - split; [tauto|]. split; [tauto|]. split; [tauto|]. split.
    + split; [intros H'; exfalso; now apply H'|].
      intros (v & Hv & _). discriminate Hv.
    + intros d v s t c Heq. discriminate Heq.
  - split; [tauto|]. split; [tauto|]. split; [tauto|]. split.
    + split; [intros H'; exfalso; now apply H'|].
      intros (v' & [= <-] & Hv'). contradiction.
    + intros d v' s t c Heq. discriminate Heq.
  - split; [split; discriminate|]. split; [split; discriminate|].
    split; [split; discriminate|]. split.
    + split; [|discriminate]. intros _.
      exists v. split; [reflexivity|]. rewrite Hs. discriminate.
    + intros d' v' s' t' c' [= <- <- <- <- <-].
      exists az. repeat split; assumption.
Qed.

(** A frame over a capacity table without columns: with a team aggregate
    to compute, the team table raises. *)
Lemma team_metrics_blank_capacity (self : KpiWeights)
    (team_agg : list TeamAggregate.t) (azure_data : Frame WorkItem.t)
    (out : Frame TeamMetrics.t) :
  calculate_team_metrics self team_agg {| columns := []; rows := [] |}
    azure_data = Value out ->
  team_agg = [].
Proof.
  destruct team_agg as [|a l]; [reflexivity|].
  unfold calculate_team_metrics. simpl. discriminate.
Qed.

Lemma team_groups_inhabited (items : list WorkItem.t) (r : WorkItem.t) :
  In r items -> WorkItem.team r <> None -> team_groups items <> [].
Proof.
  intros Hr Hteam.
  destruct (proj2 (GroupByFacts.in_some_group _ _ team_key
                     AggregatorFacts.string_compare_eq items r Hr) Hteam)
    as (g & Hg & _).
  unfold team_groups. intros E. rewrite E in Hg. contradiction.
Qed.

(** X23: a capacity sheet without members stops the application.  When
    rows 4 to 14 of the capacity sheet name no member and some work item
    has a team, no file, no table and no measure is returned, and a
    validation report is returned only when its status is [error]: a
    report that passed is lost. *)
Theorem blank_capacity_sheet_stops_application
    (data_sheet : nat -> nat -> cell)
    (capacity_sheet : nat -> CapacityCells.t) (df_azure : Frame RawRow.t)
    (azure_data : Frame WorkItem.t) (item : WorkItem.t) :
  (forall n, in_capacity_range n ->
             CapacityCells.member (capacity_sheet n) = None) ->
  process_azure_data df_azure = Value azure_data ->
  In item (rows azure_data) ->
  WorkItem.team item <> None ->
  let r := process_sprint_file write_workbook data_sheet capacity_sheet
             df_azure in
  processed_data r = None /\
  staff_metrics r = None /\
  team_metrics r = None /\
  cmmi_measures r = None /\
  (forall v, validation r = Some v -> SprintDataProcessor.status v = error).
Proof.
  intros Hblank Hazure Hitem Hteam r.
  destruct (process_sprint_file_shape data_sheet capacity_sheet df_azure)
    as [Hr | [(az & v & Hr & Haz & Hv & Hs)
             | (az & d & v & s & t & c & Hr & Haz & Hv & Hs & Ht & Hw)]];
    fold r in Hr; rewrite Hr; cbn.
  - repeat split. discriminate.
  - repeat split. now intros v' [= <-].
  - exfalso. rewrite Hazure in Haz. injection Haz as <-.
    destruct Ht as (staff_agg & team_agg & _ & Hta & _ & Htm & _).
    rewrite (CapacityFacts.get_capacity_data_blank _ Hblank) in Htm.
    apply team_metrics_blank_capacity in Htm. subst team_agg.
    apply RangeFacts.aggregate_by_team_inv in Hta.
    symmetry in Hta. apply map_eq_nil in Hta.
    now apply (team_groups_inhabited _ _ Hitem Hteam).
Qed.

(** A report with status [error] is returned whatever the two sheets
    hold and whatever the writer does. *)
Lemma process_sprint_file_error (data_sheet : nat -> nat -> cell)
    (capacity_sheet : nat -> CapacityCells.t) (df_azure : Frame RawRow.t)
    (azure_data : Frame WorkItem.t) (v : ValidationReport) :
  process_azure_data df_azure = Value azure_data ->
  validate_data azure_data = Value v ->
  SprintDataProcessor.status v = error ->
  process_sprint_file write_workbook data_sheet capacity_sheet df_azure
  = only_validation v.
Proof.
  intros Haz Hv Hs. unfold process_sprint_file, process_sprint_file_body.
  rewrite Haz. cbn [lift bind_outcome]. rewrite Hv. cbn [lift bind_outcome].
  now rewrite Hs.
Qed.

End Writer.

Lemma blank_capacity_sheet_stops_application_witness :
  (forall n, in_capacity_range n ->
             CapacityCells.member (blank_capacity_sheet n) = None) /\
  process_sprint_file write_name data_sheet_sprint blank_capacity_sheet
    sheet_one_unassigned
  = nothing.
Proof.
  assert (Hblank : forall n, in_capacity_range n ->
                     CapacityCells.member (blank_capacity_sheet n) = None).
  { intros n _. reflexivity. }
  split; [exact Hblank|].
  destruct (process_sprint_file write_name data_sheet_sprint
              blank_capacity_sheet sheet_one_unassigned) as [d v s t c] eqn:E.
  assert (Hteam : WorkItem.team (process_row row_ahmed) <> None)
    by discriminate.
  pose proof (blank_capacity_sheet_stops_application cell write_name
                data_sheet_sprint blank_capacity_sheet sheet_one_unassigned
                (processed sheet_one_unassigned)
                (process_row row_ahmed) Hblank eq_refl
                (or_introl eq_refl) Hteam) as H.
  rewrite E in H. cbn in H. destruct H as (-> & -> & -> & -> & _).
  vm_compute in E. injection E as <-. reflexivity.
Defined.

Lemma pipeline_tables_agree (data_sheet data_sheet' : nat -> nat -> cell)
    (capacity_sheet capacity_sheet' : nat -> CapacityCells.t)
    (azure_data : Frame WorkItem.t)
    (s s' : Frame StaffMetrics.t) (t t' : Frame TeamMetrics.t)
    (c c' : CmmiMeasures.t) :
  (forall row, (3 <= row <= 18)%nat ->
               data_sheet row 3%nat = data_sheet' row 3%nat) ->
  (forall n, in_capacity_range n -> capacity_sheet n = capacity_sheet' n) ->
  pipeline_tables data_sheet capacity_sheet azure_data s t c ->
  pipeline_tables data_sheet' capacity_sheet' azure_data s' t' c' ->
  s = s' /\ t = t' /\ c = c'.
Proof.
  intros Hdata Hcap (sa & ta & Hsa & Hta & Hs & Ht & Hc)
    (sa' & ta' & Hsa' & Hta' & Hs' & Ht' & Hc').
  rewrite Hsa in Hsa'. injection Hsa' as <-.
  rewrite Hta in Hta'. injection Hta' as <-.
  rewrite <- (CapacityFacts.get_capacity_data_ext _ _ Hcap) in Hs', Ht'.
  assert (E : extract_sprint_metadata data_sheet
              = extract_sprint_metadata data_sheet').
  { unfold extract_sprint_metadata. rewrite !Hdata by lia. reflexivity. }
  rewrite <- E in Hc'.
  rewrite Hs in Hs'. rewrite Ht in Ht'. rewrite Hc in Hc'.
  injection Hs' as <-. injection Ht' as <-. injection Hc' as <-.
  repeat split.
Qed.

(** X24: what the tables depend on.  Take two uploads with the same work
    items whose Data sheets agree on column 3 of rows 3 to 18 and whose
    Capacity sheets agree on rows 4 to 14, each written back by its own
    writer.  When both runs return a file, they return the same validation
    report, the same two tables and the same measures; and when one run
    returns a report with status [error], so does the other. *)
Theorem process_sprint_file_reads (Data Data' : Type)
    (write_workbook : SprintMetadata.t -> Frame StaffMetrics.t ->
                      Frame TeamMetrics.t -> CmmiMeasures.t -> outcome Data)
    (write_workbook' : SprintMetadata.t -> Frame StaffMetrics.t ->
                       Frame TeamMetrics.t -> CmmiMeasures.t -> outcome Data')
    (data_sheet data_sheet' : nat -> nat -> cell)
    (capacity_sheet capacity_sheet' : nat -> CapacityCells.t)
    (df_azure : Frame RawRow.t) :
  (forall row, (3 <= row <= 18)%nat ->
               data_sheet row 3%nat = data_sheet' row 3%nat) ->
  (forall n, in_capacity_range n -> capacity_sheet n = capacity_sheet' n) ->
  let r := process_sprint_file write_workbook data_sheet capacity_sheet
             df_azure in
  let r' := process_sprint_file write_workbook' data_sheet' capacity_sheet'
              df_azure in
  (processed_data r <> None -> processed_data r' <> None ->
   validation r = validation r' /\
   staff_metrics r = staff_metrics r' /\
   team_metrics r = team_metrics r' /\
   cmmi_measures r = cmmi_measures r') /\
  (forall v, validation r = Some v ->
     SprintDataProcessor.status v = error -> r' = only_validation v).
Proof.
  intros Hdata Hcap r r'.
  destruct (process_sprint_file_shape Data write_workbook data_sheet
              capacity_sheet df_azure)
    as [Hr | [(az & v & Hr & Haz & Hv & Hs)
             | (az & d & v & s & t & c & Hr & Haz & Hv & Hs & Ht & Hw)]];
    fold r in Hr; rewrite Hr; cbn.
  - split; [intros H; now contradiction H|]. intros v Hv. discriminate Hv.
  - split; [intros H; now contradiction H|]. intros v' [= <-] _.
    now apply (process_sprint_file_error Data' write_workbook' data_sheet'
                 capacity_sheet' df_azure az v).
  - split.
    + intros _ Hfile'.
      destruct (process_sprint_file_shape Data' write_workbook' data_sheet'
                  capacity_sheet' df_azure)
        as [Hr' | [(az' & v' & Hr' & _)
                  | (az' & d' & v' & s' & t' & c' & Hr' & Haz' & Hv' & _
                     & Ht' & _)]];
        fold r' in Hr'; rewrite Hr' in Hfile' |- *; cbn in Hfile' |- *;
        try (now contradiction Hfile').
      rewrite Haz in Haz'. injection Haz' as <-.
      rewrite Hv in Hv'. injection Hv' as <-.
      destruct (pipeline_tables_agree _ _ _ _ _ _ _ _ _ _ _ Hdata Hcap Ht Ht')
        as (<- & <- & <-).
      repeat split.
    + intros v' [= <-] Herr. rewrite Hs in Herr. discriminate Herr.
Qed.

(** A writer that returns nothing but a mark. *)
Lemma process_sprint_file_reads_witness :
  staff_metrics
    (process_sprint_file write_name data_sheet_sprint capacity_sheet_one
       sheet_one_unassigned)
  = staff_metrics
      (process_sprint_file write_mark data_sheet_sprint capacity_sheet_long
         sheet_one_unassigned).
Proof.
  assert (Hcap : forall n, in_capacity_range n ->
                   capacity_sheet_one n = capacity_sheet_long n).
  { intros n [Hlo Hhi]. unfold capacity_sheet_long.
    destruct (Nat.eqb_spec n 15) as [-> | _]; [lia|reflexivity]. }
  apply (process_sprint_file_reads cell bool write_name write_mark
           data_sheet_sprint data_sheet_sprint capacity_sheet_one
           capacity_sheet_long sheet_one_unassigned
           (fun row _ => eq_refl) Hcap); vm_compute; discriminate.
Defined.

End AppFacts.
